(** * Environment reconciliation of wayland-session.py

    A shallow embedding of the environment handling of the session
    manager: the variable-name tables ([varnames]), the text primitives
    the ledger file goes through, the computation of the export, unset
    and cleanup sets in [prepare_env], the ledger file of
    [prepare_env], [cleanup_env] and [finalize], the [aux] handlers
    of the main block, and around them [sane_split], [stop_wm] and
    the branches [stop], [app] and [check is-active] of the main
    block.

    Conventions.
    - A Python [str] is a [string]; a character is a code point below 256.
    - A [dict] of strings is a [gmap string string], a [set] of strings a
      [gset string].
    - The program runs in a state made of the runtime directory and of
      the trace of what it printed and spawned; a computation ends by
      returning, by raising an [Exception], by [sys.exit] or by
      replacing the process image.

    What is left out.
    - [print_debug]: it prints only when [DEBUG] is a positive number.
    - The runtime directory itself: [get_runtime_dir(strict=True)] is
      taken to succeed, and a file of that directory is known by its
      name, also where the source prints its whole path.
    - Failures to spawn: every command of [wrap_process] is taken to
      exist and to run to its end.
    - The desktop entries, the generation and removal of unit files and
      the command line: they go through [re], [argparse] and [xdg]. *)

From Stdlib Require Import ZArith String Ascii List.
From stdpp Require Import base option list gmap sets strings sorting pretty.

Open Scope string_scope.

(** ** Text primitives *)

Module Py.

Definition NUL : ascii := "000"%char.
Definition LF : ascii := "010"%char.
Definition CR : ascii := "013"%char.
Definition EQUALS : ascii := "="%char.

(** [str.isspace] on one character: TAB to CR, FS to US, space, NEL and
    the no-break space. *)
Definition isspace (c : ascii) : bool :=
  let n := N_of_ascii c in
  ((9 <=? n)%N && (n <=? 13)%N) || ((28 <=? n)%N && (n <=? 32)%N)
  || (n =? 133)%N || (n =? 160)%N.

(** [s.lstrip(chars)], [s.rstrip(chars)] for a set of characters given
    as a predicate. *)
Fixpoint lstrip_by (p : ascii → bool) (s : string) : string :=
  match s with
  | EmptyString => EmptyString
  | String c r => if p c then lstrip_by p r else s
  end.

Fixpoint rstrip_by (p : ascii → bool) (s : string) : string :=
  match s with
  | EmptyString => EmptyString
  | String c r =>
      match rstrip_by p r with
      | EmptyString => if p c then EmptyString else String c EmptyString
      | r' => String c r'
      end
  end.

(** [s.strip()] *)
Definition strip (s : string) : string := lstrip_by isspace (rstrip_by isspace s).

(** [s.rstrip('\0')] *)
Definition rstrip_nul (s : string) : string :=
  rstrip_by (λ c, bool_decide (c = NUL)) s.

(** The truth value of a string: non-empty. *)
Definition truthy (s : string) : bool :=
  match s with EmptyString => false | _ => true end.

(** Puts a character in front of the first piece of a list of pieces. *)
Definition cons_first (c : ascii) (ls : list string) : list string :=
  match ls with
  | [] => [String c EmptyString]
  | l :: ls' => String c l :: ls'
  end.

(** [f.readlines()] of a text file opened with universal newlines: a
    line ends at LF, CR or CR LF, and keeps its end as one LF. *)
Fixpoint readlines (s : string) : list string :=
  match s with
  | EmptyString => []
  | String c r =>
      if bool_decide (c = LF) then String LF EmptyString :: readlines r
      else if bool_decide (c = CR) then
        match r with
        | String c' r' =>
            if bool_decide (c' = LF) then String LF EmptyString :: readlines r'
            else String LF EmptyString :: readlines r
        | EmptyString => [String LF EmptyString]
        end
      else cons_first c (readlines r)
  end.

(** The line boundaries of [str.splitlines] below 256: LF, VT, FF, CR,
    FS, GS, RS and NEL. *)
Definition islinebreak (c : ascii) : bool :=
  let n := N_of_ascii c in
  ((10 <=? n)%N && (n <=? 13)%N) || ((28 <=? n)%N && (n <=? 30)%N) || (n =? 133)%N.

(** [s.splitlines()]: the lines without their ends. *)
Fixpoint splitlines (s : string) : list string :=
  match s with
  | EmptyString => []
  | String c r =>
      if islinebreak c then
        match r with
        | String c' r' =>
            if bool_decide (c = CR) && bool_decide (c' = LF)
            then EmptyString :: splitlines r'
            else EmptyString :: splitlines r
        | EmptyString => [EmptyString]
        end
      else cons_first c (splitlines r)
  end.

(** [s.split(sep)] for a separator of one character. *)
Fixpoint split (sep : ascii) (s : string) : list string :=
  match s with
  | EmptyString => [EmptyString]
  | String c r =>
      if bool_decide (c = sep) then EmptyString :: split sep r
      else cons_first c (split sep r)
  end.

(** [s.split(sep, maxsplit=1)] *)
Fixpoint split1 (sep : ascii) (s : string) : list string :=
  match s with
  | EmptyString => [EmptyString]
  | String c r =>
      if bool_decide (c = sep) then [EmptyString; r]
      else cons_first c (split1 sep r)
  end.

(** [s.startswith(p)] *)
Definition startswith (p s : string) : bool := String.prefix p s.

(** [sep.join(l)] *)
Definition join (sep : string) (l : list string) : string := String.concat sep l.

(** [s.find(sub)]: the position of the first occurrence, if any. *)
Definition find (sub s : string) : option nat := String.index 0 sub s.

(** [s[i:j]] and [s[i:]] for positions within the string. *)
Definition slice (i j : nat) (s : string) : string := String.substring i (j - i) s.
Definition slice_from (i : nat) (s : string) : string :=
  String.substring i (String.length s - i) s.

(** [repr(s)] of a string: between single quotes, or between double
    quotes when the string holds a single quote and no double quote;
    the quote in use and the backslash are escaped, TAB, LF and CR are
    written [\t], [\n] and [\r], and the other characters that are not
    printable (below space, DEL to the no-break space, the soft hyphen)
    as [\x] and two hexadecimal digits. *)
Definition SQUOTE : ascii := ascii_of_N 39.
Definition DQUOTE : ascii := ascii_of_N 34.
Definition BACKSLASH : ascii := ascii_of_N 92.

Fixpoint contains (c : ascii) (s : string) : bool :=
  match s with
  | EmptyString => false
  | String c' r => bool_decide (c' = c) || contains c r
  end.

Definition hexdigit (n : N) : ascii :=
  default "0"%char (String.get (N.to_nat n) "0123456789abcdef").

Definition repr_char (quote c : ascii) : string :=
  let n := N_of_ascii c in
  if bool_decide (c = quote) || bool_decide (c = BACKSLASH)
  then String BACKSLASH (String c EmptyString)
  else if (n =? 9)%N then String BACKSLASH "t"
  else if (n =? 10)%N then String BACKSLASH "n"
  else if (n =? 13)%N then String BACKSLASH "r"
  else if (n <? 32)%N || ((127 <=? n)%N && (n <=? 160)%N) || (n =? 173)%N
  then String BACKSLASH
         (String "x" (String (hexdigit (n / 16)) (String (hexdigit (n mod 16)) EmptyString)))
  else String c EmptyString.

Fixpoint repr_chars (quote : ascii) (s : string) : string :=
  match s with
  | EmptyString => String quote EmptyString
  | String c r => String.append (repr_char quote c) (repr_chars quote r)
  end.

Definition repr (s : string) : string :=
  let quote := if contains SQUOTE s && negb (contains DQUOTE s) then DQUOTE else SQUOTE in
  String quote (repr_chars quote s).

(** [repr(l)] of a list of strings. *)
Definition repr_list (l : list string) : string :=
  String.append "[" (String.append (String.concat ", " (List.map repr l)) "]").

(** The order of [sorted] on strings: lexicographic on code points. *)
Definition str_le (a b : string) : Prop := String.leb a b = true.

Global Instance str_le_dec a b : Decision (str_le a b).
Proof. unfold str_le. apply _. Defined.

(** [sorted(l)] of a list and of a set of strings. *)
Definition sorted_list (l : list string) : list string := merge_sort str_le l.
Definition sorted (s : gset string) : list string := sorted_list (elements s).

End Py.

(** ** The tables of variable names *)

(** The class [varnames]: five sets of names. *)
Record varnames_t := Varnames {
  always_export : gset string;
  never_export : gset string;
  always_unset : gset string;
  always_cleanup : gset string;
  never_cleanup : gset string
}.

(** The tables as the source fills them. *)
Definition varnames : varnames_t := {|
  always_export :=
    {[ "XDG_SESSION_ID"; "XDG_VTNR"; "XDG_CURRENT_DESKTOP";
       "XDG_SESSION_DESKTOP"; "XDG_MENU_PREFIX"; "PATH" ]};
  never_export := {[ "PWD"; "LS_COLORS"; "INVOCATION_ID"; "SHLVL"; "SHELL" ]};
  always_unset := {[ "DISPLAY"; "WAYLAND_DISPLAY" ]};
  always_cleanup :=
    {[ "DISPLAY"; "WAYLAND_DISPLAY"; "XDG_SESSION_ID"; "XDG_VTNR";
       "XDG_CURRENT_DESKTOP"; "XDG_SESSION_DESKTOP"; "XDG_MENU_PREFIX";
       "PATH"; "XCURSOR_THEME"; "XCURSOR_SIZE"; "LANG" ]};
  never_cleanup := {[ "SSH_AGENT_LAUNCHER"; "SSH_AUTH_SOCK"; "SSH_AGENT_PID" ]}
|}.

(** ** The sets computed by [prepare_env] *)

(** [set(d.items())] *)
Definition items (d : gmap string string) : gset (string * string) :=
  list_to_set (map_to_list d).

(** [dict(pairs)]: a later pair replaces an earlier one of the same key. *)
Definition dict (pairs : list (string * string)) : gmap string string :=
  foldl (λ d kv, <[kv.1 := kv.2]> d) ∅ pairs.

Section Reconcile.

Variable vn : varnames_t.
Variables env_pre env_post : gmap string string.

(** [set_env = dict(set(env_post.items()) - set(env_pre.items()))] *)
Definition set_env_raw : gmap string string :=
  dict (elements (items env_post ∖ items env_pre)).

(** One round of the loop that adds the [always_export] names. *)
Definition force_export (set_env : gmap string string) (var : string)
  : gmap string string :=
  match env_post !! var with
  | Some value => <[var := value]> set_env
  | None => set_env
  end.

(** One round of the loop that removes the excluded names. *)
Definition exclude_export (set_env : gmap string string) (var : string)
  : gmap string string :=
  match set_env !! var with
  | Some _ => delete var set_env
  | None => set_env
  end.

(** [set_env] after the first loop. *)
Definition set_env_forced : gmap string string :=
  foldl force_export set_env_raw
    (Py.sorted (always_export vn ∖ never_export vn ∖ always_unset vn)).

(** [set_env] after both loops: what is exported. *)
Definition set_env : gmap string string :=
  foldl exclude_export set_env_forced
    (elements (never_export vn ∪ always_unset vn)).

(** The raw reverse difference:
    [set(env_pre.keys()) - set(env_post.keys())] *)
Definition unset_varnames_raw : gset string := dom env_pre ∖ dom env_post.

(** [unset_varnames], in its three assignments. *)
Definition unset_varnames (systemd_varnames : gset string) : gset string :=
  let unset_varnames := unset_varnames_raw in
  let unset_varnames := unset_varnames ∪ always_unset vn in
  unset_varnames ∩ systemd_varnames.

(** [cleanup_varnames = set(set_env.keys()) | varnames.always_cleanup -
    varnames.never_cleanup]: [-] binds tighter than [|]. *)
Definition cleanup_varnames : gset string :=
  dom set_env ∪ (always_cleanup vn ∖ never_cleanup vn).

End Reconcile.

(** ** The state of a run and its effects *)

(** An entry of the runtime directory: a regular file with its text, or
    something that is no regular file. *)
Inductive node := File (content : string) | Dir.

(** The four printing functions. *)
Inductive stream := Normal | Ok | Warning | Error.

(** What [wrap_process] returns. *)
Record completed := Completed {
  stdout : string;
  stderr : string;
  returncode : Z
}.

(** What a run does to the outside, latest first. *)
Inductive event :=
| Print (to : stream) (msg : string)
| Popen (argv : list string) (stdin : option string)
    (env : option (gmap string string)).

(** The runtime directory, by file name, and the trace. *)
Record state := State {
  fs : gmap string node;
  trace : list event
}.

(** How a computation ends: it returns, raises an [Exception], calls
    [sys.exit] (which no [except Exception] catches), or replaces the
    process image ([os.execlp]). *)
Inductive outcome (A : Type) :=
| Return (a : A)
| Raise (E : string)
| SysExit (code : Z)
| Execed (argv : list string).

Arguments Return {A} a.
Arguments Raise {A} E.
Arguments SysExit {A} code.
Arguments Execed {A} argv.

Definition M (A : Type) : Type := state → outcome A * state.

Definition ret {A} (a : A) : M A := λ st, (Return a, st).

Definition bind {A B} (m : M A) (k : A → M B) : M B :=
  λ st,
    match m st with
    | (Return a, st') => k a st'
    | (Raise E, st') => (Raise E, st')
    | (SysExit code, st') => (SysExit code, st')
    | (Execed argv, st') => (Execed argv, st')
    end.

Global Instance M_ret : MRet M := @ret.
Global Instance M_bind : MBind M := λ A B k m, bind m k.

Definition raise {A} (E : string) : M A := λ st, (Raise E, st).
Definition sys_exit {A} (code : Z) : M A := λ st, (SysExit code, st).
Definition execlp {A} (argv : list string) : M A := λ st, (Execed argv, st).

(** [try: body except Exception as E: handler(E)] *)
Definition try_except {A} (body : M A) (handler : string → M A) : M A :=
  λ st,
    match body st with
    | (Raise E, st') => handler E st'
    | r => r
    end.

(** [if cond: stmt] *)
Definition when (cond : bool) (stmt : M unit) : M unit :=
  if cond then stmt else ret tt.

(** A [for] loop whose body updates a local variable. *)
Fixpoint for_ {A S} (l : list A) (body : S → A → M S) (s : S) : M S :=
  match l with
  | [] => ret s
  | x :: l' => s' ← body s x; for_ l' body s'
  end.

(** The exit status of the process when the script ends with this
    outcome: 0 at the end of the script, 1 on an uncaught exception;
    after [sys.exit(code)] the low eight bits of the code, or 255 for a
    code that does not fit a C [long]; unknown after [os.execlp]. *)
Definition exit_status {A} (o : outcome A) : option Z :=
  match o with
  | Return _ => Some 0%Z
  | Raise _ => Some 1%Z
  | SysExit code =>
      Some (if bool_decide (- 2 ^ 63 ≤ code < 2 ^ 63)%Z then (code `mod` 256)%Z
            else 255%Z)
  | Execed _ => None
  end.

Definition print (to : stream) (msg : string) : M unit :=
  λ st, (Return tt, {| fs := fs st; trace := Print to msg :: trace st |}).

Definition print_normal := print Normal.
Definition print_ok := print Ok.
Definition print_warning := print Warning.
Definition print_error := print Error.

(** [os.path.isfile] *)
Definition isfile (name : string) : M bool :=
  λ st, (Return (match fs st !! name with Some (File _) => true | _ => false end), st).

(** [os.listdir] of the runtime directory. *)
Definition listdir : M (list string) :=
  λ st, (Return ((map_to_list (fs st)).*1), st).

(** [open(name, 'r')] and the whole text. *)
Definition read_text (name : string) : M string :=
  λ st,
    match fs st !! name with
    | Some (File content) => (Return content, st)
    | Some Dir => (Raise "IsADirectoryError", st)
    | None => (Raise "FileNotFoundError", st)
    end.

(** [open(name, 'w')] and one [write]: the file holds the text and
    nothing else. *)
Definition write_text (name content : string) : M unit :=
  λ st,
    match fs st !! name with
    | Some Dir => (Raise "IsADirectoryError", st)
    | _ => (Return tt, {| fs := <[name := File content]> (fs st); trace := trace st |})
    end.

(** [os.remove] *)
Definition remove (name : string) : M unit :=
  λ st,
    match fs st !! name with
    | Some (File _) => (Return tt, {| fs := delete name (fs st); trace := trace st |})
    | Some Dir => (Raise "IsADirectoryError", st)
    | None => (Raise "FileNotFoundError", st)
    end.

Definition DQUOTE : string := String "034"%char EmptyString.
Definition NL : string := String Py.LF EmptyString.

(** The names a ledger text holds:
    [{l.strip() for l in f.readlines() if l.strip()}] *)
Definition stripped_lines (text : string) : gset string :=
  list_to_set
    (Py.strip <$> filter (λ l, Py.truthy (Py.strip l)) (Py.readlines text)).

(** The name of the ledger file of a window manager. *)
Definition cleanup_file_of (wm_id : string) : string :=
  "env_names_for_cleanup_" +:+ wm_id.

(** ** The program *)

Section Program.

(** [os.environ] of the process. *)
Variable environ : gmap string string.

(** What a spawned process answers, given all that happened before it. *)
Variable popen :
  list event → list string → option string → option (gmap string string) → completed.

(** The mark drawn by [random_hex] and the shell code built around it by
    [prepare_env_gen_sh]: the text matters to the shell only. *)
Variable random_mark : string.
Variable prepare_env_gen_sh : string → string.

(** The global [wm_id], as [fill_wm_globals] leaves it. *)
Variable wm_id : string.

(** [wrap_process(argv, stdin=..., env=...)]: runs to completion and
    returns what the process wrote and its return code. *)
Definition wrap_process (argv : list string) (stdin : option string)
  (env : option (gmap string string)) : M completed :=
  λ st, (Return (popen (trace st) argv stdin env),
         {| fs := fs st; trace := Popen argv stdin env :: trace st |}).

(** The two lines that follow most calls:
    [if stdout.strip(): print_normal(stdout.strip())] and
    [if stderr.strip(): print_error(stderr.strip())]. *)
Definition print_outputs (out err : string) : M unit :=
  when (Py.truthy (Py.strip out)) (print_normal (Py.strip out));;
  when (Py.truthy (Py.strip err)) (print_error (Py.strip err)).

Definition get_active_wm_id : M string :=
  r ← wrap_process
    ["systemctl"; "--user"; "show"; "--state=active,activating";
     "--property"; "Id"; "--value"; "wayland-wm@*.service"] None None;
  if negb (Py.truthy (Py.strip (stdout r))) || negb (bool_decide (returncode r = 0%Z))
  then raise (stdout r +:+ stderr r)
  else
    let active_id := Py.strip (stdout r) in
    r ← wrap_process ["systemd-escape"; "--unescape"; "--instance"; active_id]
      None None;
    if negb (Py.truthy (Py.strip (stdout r))) || negb (bool_decide (returncode r = 0%Z))
    then raise (stdout r +:+ stderr r)
    else mret (Py.strip (stdout r)).

(** [is_active(check_wm_id, verbose)]; the name [raise_exception] is
    defined nowhere, so that calling it raises a [NameError]. *)
Definition is_active (check_wm_id : string) (verbose : bool) : M bool :=
  let check_unit :=
    if Py.truthy check_wm_id then "wayland-wm@" +:+ check_wm_id +:+ ".service"
    else "wayland-wm@*.service" in
  let check_unit_generic := "wayland-wm@*.service" in
  r ← wrap_process
    ["systemctl"; "--user"; "list-units"; "--state=active,activating";
     "-q"; "--full"; "--plain"; check_unit] None None;
  if negb (bool_decide (returncode r = 0%Z))
  then raise "name 'raise_exception' is not defined"
  else if Py.truthy (Py.strip (stdout r))
  then when verbose (print_outputs (stdout r) (stderr r));; mret true
  else
    when verbose
      (r ← wrap_process
         ["systemctl"; "--user"; "list-units"; "--all"; "-q"; "--full";
          "--plain"; check_unit_generic] None None;
       print_outputs (stdout r) (stderr r));;
    mret false.

Definition get_systemd_varnames : M (gset string) :=
  r ← wrap_process ["systemctl"; "--user"; "show-environment"] None None;
  if negb (bool_decide (returncode r = 0%Z))
  then raise (DQUOTE +:+ "systemctl --user show-environment" +:+ DQUOTE
              +:+ " returned " +:+ pretty (returncode r))
  else mret (list_to_set
               ((λ v, hd EmptyString (Py.split Py.EQUALS v)) <$> Py.splitlines (stdout r))).

(** The entries of the dump: what follows the mark, less the NULs at its
    end, cut at every NUL. *)
Definition dump_entries (mark_position : nat) (out : string) : list string :=
  Py.split Py.NUL
    (Py.rstrip_nul
       (Py.slice_from (mark_position + String.length random_mark) out)).


(** One round of the loop that parses the dump of the environment; an
    entry without [=] is reported with the [repr] of the list of its
    pieces. *)
Definition parse_env (env_post : gmap string string) (env : string)
  : M (gmap string string) :=
  match Py.split1 Py.EQUALS env with
  | [name; value] => mret (<[name := value]> env_post)
  | pieces => print_error ("No value: " +:+ Py.repr_list pieces);; mret env_post
  end.

(** The names the ledger holds already: those of the file if it is there,
    none otherwise. *)
Definition existing_cleanup_varnames (cleanup_file : string) : M (gset string) :=
  there ← isfile cleanup_file;
  if there : bool then text ← read_text cleanup_file; mret (stripped_lines text)
  else mret ∅.

(** The ledger of [prepare_env]: what the file holds already, joined with
    the new names and written back whole. *)
Definition write_cleanup_file (cleanup_varnames : gset string) : M unit :=
  let cleanup_file := cleanup_file_of wm_id in
  current_cleanup_varnames ← existing_cleanup_varnames cleanup_file;
  write_text cleanup_file
    (Py.join NL (Py.sorted (current_cleanup_varnames ∪ cleanup_varnames))).

Definition prepare_env : M unit :=
  let env_pre := environ in
  let shell_code := prepare_env_gen_sh random_mark in
  r ← wrap_process ["sh"; "-"] (Some shell_code) None;
  match Py.find random_mark (stdout r) with
  | None =>
      print_outputs (stdout r) (stderr r);;
      raise "No env mark in shell output!"
  | Some mark_position =>
      let stdout_msg := Py.slice 0 mark_position (stdout r) in
      print_outputs stdout_msg (stderr r);;
      if negb (bool_decide (returncode r = 0%Z))
      then raise ("Shell returned " +:+ pretty (returncode r) +:+ "!")
      else
        env_post ← for_ (dump_entries mark_position (stdout r)) parse_env ∅;
        systemd_varnames ← get_systemd_varnames;
        let set_env := set_env varnames env_pre env_post in
        let unset_varnames := unset_varnames varnames env_pre env_post systemd_varnames in
        let cleanup_varnames := cleanup_varnames varnames env_pre env_post in
        write_cleanup_file cleanup_varnames;;
        print_normal ("Exporting variables to systemd user manager:" +:+ NL +:+ "  "
                      +:+ Py.join (NL +:+ "  ") (Py.sorted (dom set_env)));;
        r ← wrap_process
          (["systemctl"; "--user"; "import-environment"] ++ Py.sorted (dom set_env))
          None (Some env_post);
        print_outputs (stdout r) (stderr r);;
        if negb (bool_decide (returncode r = 0%Z))
        then raise (DQUOTE +:+ "systemctl --user import-environment" +:+ DQUOTE
                    +:+ " returned " +:+ pretty (returncode r))
        else
          r ← wrap_process
            (["dbus-update-activation-environment"; "--systemd"]
             ++ Py.sorted (dom set_env))
            None (Some env_post);
          print_outputs (stdout r) (stderr r);;
          if negb (bool_decide (returncode r = 0%Z))
          then raise (DQUOTE +:+ "dbus-update-activation-environment --systemd"
                      +:+ DQUOTE +:+ " returned " +:+ pretty (returncode r))
          else
            (if bool_decide (unset_varnames ≠ ∅)
             then
               print_normal ("Unsetting variables from systemd user manager:" +:+ NL
                             +:+ "  " +:+ Py.join (NL +:+ "  ") (Py.sorted unset_varnames));;
               r ← wrap_process
                 (["systemctl"; "--user"; "unset-environment"] ++ Py.sorted unset_varnames)
                 None None;
               print_outputs (stdout r) (stderr r);;
               if negb (bool_decide (returncode r = 0%Z))
               then raise (DQUOTE +:+ "systemctl --user unset-environment" +:+ DQUOTE
                           +:+ " returned " +:+ pretty (returncode r))
               else mret tt
             else mret tt);;
            print_normal
              ("Variables that will be removed from systemd user manager on stop:"
               +:+ NL +:+ "  " +:+ Py.join (NL +:+ "  ") (Py.sorted cleanup_varnames))
  end.

(** The policy part of the cleanup set of [cleanup_env]:
    [current_cleanup_varnames | varnames.always_cleanup -
     varnames.never_cleanup & systemd_varnames], where [-] binds tighter
    than [&], and [&] tighter than [|]. *)
Definition cleanup_env_varnames (vn : varnames_t)
  (current_cleanup_varnames systemd_varnames : gset string) : gset string :=
  current_cleanup_varnames
  ∪ ((always_cleanup vn ∖ never_cleanup vn) ∩ systemd_varnames).

(** One round of the loop over the runtime directory. *)
Definition find_cleanup_file (cleanup_files : list string) (cleanup_file : string)
  : M (list string) :=
  if negb (Py.startswith "env_names_for_cleanup_" cleanup_file)
  then mret cleanup_files
  else
    there ← isfile cleanup_file;
    if there : bool
    then print_normal ("Found cleanup_file " +:+ DQUOTE +:+ cleanup_file +:+ DQUOTE);;
         mret (cleanup_files ++ [cleanup_file])%list
    else mret cleanup_files.

(** One round of the loop that reads the ledgers. *)
Definition read_cleanup_file (current_cleanup_varnames : gset string)
  (cleanup_file : string) : M (gset string) :=
  there ← isfile cleanup_file;
  if there : bool
  then text ← read_text cleanup_file;
       mret (current_cleanup_varnames ∪ stripped_lines text)
  else mret current_cleanup_varnames.

(** One round of the loop that removes the ledgers. *)
Definition remove_cleanup_file (_ : unit) (cleanup_file : string) : M unit :=
  remove cleanup_file;;
  print_ok ("Removed " +:+ DQUOTE +:+ cleanup_file +:+ DQUOTE).

(** The block [if cleanup_varnames:] of [cleanup_env]: the names are
    emptied in the activation environment, where a failure is reported
    only, and unset in the supervisor, where a failure is raised. *)
Definition cleanup_env_unset (cleanup_varnames : gset string) : M unit :=
  if bool_decide (cleanup_varnames ≠ ∅)
  then
    print_normal ("Cleaning up variables from systemd user manager:" +:+ NL
                  +:+ "  " +:+ Py.join (NL +:+ "  ") (Py.sorted cleanup_varnames));;
    r ← wrap_process
      (["dbus-update-activation-environment"; "--systemd"]
       ++ Py.sorted_list ((λ n, n +:+ "=") <$> elements cleanup_varnames))
      None None;
    print_outputs (stdout r) (stderr r);;
    when (negb (bool_decide (returncode r = 0%Z)))
      (print_error (DQUOTE +:+ "dbus-update-activation-environment --systemd"
                    +:+ DQUOTE +:+ " returned " +:+ pretty (returncode r)));;
    r ← wrap_process
      (["systemctl"; "--user"; "unset-environment"] ++ Py.sorted cleanup_varnames)
      None None;
    print_outputs (stdout r) (stderr r);;
    if negb (bool_decide (returncode r = 0%Z))
    then raise (DQUOTE +:+ "systemctl --user unset-environment" +:+ DQUOTE
                +:+ " returned " +:+ pretty (returncode r))
    else mret tt
  else mret tt.

Definition cleanup_env : M unit :=
  names ← listdir;
  cleanup_files ← for_ names find_cleanup_file [];
  match cleanup_files with
  | [] => print_warning "No cleanup files found";; sys_exit 0%Z
  | _ =>
      current_cleanup_varnames ← for_ cleanup_files read_cleanup_file ∅;
      systemd_varnames ← get_systemd_varnames;
      let cleanup_varnames :=
        cleanup_env_varnames varnames current_cleanup_varnames systemd_varnames in
      cleanup_env_unset cleanup_varnames;;
      for_ cleanup_files remove_cleanup_file tt
  end.

(** [os.getenv(var, None) != None] *)
Definition getenv_defined (var : string) : bool :=
  bool_decide (is_Some (environ !! var)).

(** One round of the loop that collects the variables to export. *)
Definition add_export_var (export_vars : list string) (var : string) : list string :=
  if getenv_defined var && negb (bool_decide (var ∈ export_vars))
  then (export_vars ++ [var])%list
  else export_vars.

Definition finalize (additional_vars : list string) : M unit :=
  if negb (Py.truthy (default EmptyString (environ !! "WAYLAND_DISPLAY")))
  then
    print_error "WAYLAND_DISPLAY is not defined or empty. Are we being run by a wayland compositor or not?";;
    sys_exit 1%Z
  else
    let export_vars :=
      foldl add_export_var []
        (["WAYLAND_DISPLAY"; "DISPLAY"] ++ Py.sorted_list additional_vars) in
    wm_id ← get_active_wm_id;
    let cleanup_file := cleanup_file_of wm_id in
    there ← isfile cleanup_file;
    current_cleanup_varnames ←
      (if there : bool then text ← read_text cleanup_file; mret (stripped_lines text)
       else
         print_error (DQUOTE +:+ cleanup_file +:+ DQUOTE +:+ " does not exist" +:+ NL
                      +:+ "Assuming env preloader failed");;
         sys_exit 1%Z);
    write_text cleanup_file
      (Py.join NL (Py.sorted (current_cleanup_varnames ∪ list_to_set export_vars)));;
    print_normal ("Exporting variables to systemd_user_manager:" +:+ NL +:+ "  "
                  +:+ Py.join (NL +:+ "  ") export_vars);;
    r ← wrap_process
      (["dbus-update-activation-environment"; "--systemd"] ++ export_vars) None None;
    print_outputs (stdout r) (stderr r);;
    if negb (bool_decide (returncode r = 0%Z)) then sys_exit 1%Z
    else
      r ← wrap_process
        (["systemctl"; "--user"; "import-environment"] ++ export_vars) None None;
      print_outputs (stdout r) (stderr r);;
      if negb (bool_decide (returncode r = 0%Z)) then sys_exit 1%Z
      else
        print_normal ("Finalizing startup of " +:+ wm_id);;
        execlp ["systemd-notify"; "systemd-notify"; "--ready"].

(** The branch [args.aux_action == 'prepare-env'] of the main block,
    after [fill_wm_globals]. *)
Definition aux_prepare_env : M unit :=
  is_active wm_id true;;
  try_except
    (prepare_env;; sys_exit 0%Z)
    (λ E, print_error E;; cleanup_env;; sys_exit 1%Z).

(** The branch [args.aux_action == 'cleanup-env']. *)
Definition aux_cleanup_env : M unit :=
  active ← is_active EmptyString true;
  if active : bool
  then print_error "A WM is running, will not cleanup environment";; sys_exit 1%Z
  else
    try_except
      (cleanup_env;; sys_exit 0%Z)
      (λ E, print_error E;; sys_exit 1%Z).

End Program.

(** ** Names that a ledger line carries unchanged *)

(** No LF and no CR in the string. *)
Fixpoint no_line_end (s : string) : bool :=
  match s with
  | EmptyString => true
  | String c r =>
      negb (bool_decide (c = Py.LF)) && negb (bool_decide (c = Py.CR)) && no_line_end r
  end.

(** Not empty, on one line, and without white space at either end. *)
Definition ledger_name (s : string) : bool :=
  Py.truthy s && no_line_end s && bool_decide (Py.strip s = s).

(** The first character is not in the class [p]. *)
Definition head_ok (p : ascii → bool) (s : string) : bool :=
  match s with
  | EmptyString => true
  | String c _ => negb (p c)
  end.

(** The last character is not in the class [p]. *)
Fixpoint last_ok (p : ascii → bool) (s : string) : bool :=
  match s with
  | EmptyString => true
  | String c EmptyString => negb (p c)
  | String _ r => last_ok p r
  end.

(** A ledger file of the runtime directory: a regular file whose name
    starts as the ledgers do. *)
Definition is_cleanup_file (dir : gmap string node) (name : string) : bool :=
  Py.startswith "env_names_for_cleanup_" name
  && match dir !! name with Some (File _) => true | _ => false end.

(** ** What a trace exports *)

(** A command that exports variables to the supervisor:
    [dbus-update-activation-environment] or
    [systemctl --user import-environment]. *)
Definition is_export (ev : event) : bool :=
  match ev with
  | Popen argv _ _ =>
      bool_decide (["dbus-update-activation-environment"] `prefix_of` argv)
      || bool_decide (["systemctl"; "--user"; "import-environment"] `prefix_of` argv)
  | Print _ _ => false
  end.

Definition exports (tr : list event) : list event := filter (λ ev, is_export ev) tr.

(** What the loops of [cleanup_env] print for a ledger file. *)
Definition found_msg (cleanup_file : string) : event :=
  Print Normal ("Found cleanup_file " +:+ DQUOTE +:+ cleanup_file +:+ DQUOTE).

Definition removed_msg (cleanup_file : string) : event :=
  Print Ok ("Removed " +:+ DQUOTE +:+ cleanup_file +:+ DQUOTE).

(** The ledger files of a runtime directory, in the order of [os.listdir]. *)
Definition cleanup_files_of (dir : gmap string node) : list string :=
  filter (λ name, is_cleanup_file dir name) ((map_to_list dir).*1).


(** The names a file of the runtime directory holds. *)
Definition varnames_in (dir : gmap string node) (name : string) : gset string :=
  match dir !! name with
  | Some (File text) => stripped_lines text
  | _ => ∅
  end.

(** ** Scenarios *)

(** A world whose processes answer by a script: the first entry whose
    words begin the command line gives the answer; a command without
    entry prints nothing and returns 0. *)
Definition scripted (script : list (list string * completed))
  : list event → list string → option string → option (gmap string string)
    → completed :=
  λ _ argv _ _,
    default (Completed EmptyString EmptyString 0%Z)
      ((λ e, e.2.2) <$> list_find (λ e, e.1 `prefix_of` argv) script).

Definition mark0 : string := "MARK_0123456789abcdef_MARK".

(** The shell code only has to carry the mark. *)
Definition gen_sh0 (random_mark : string) : string :=
  "printf " +:+ random_mark +:+ NL +:+ "env -0".

Definition NUL0 : string := String Py.NUL EmptyString.

(** A login whose profile starts an ssh agent: the shell adds
    [SSH_AUTH_SOCK] to the environment. *)
Definition environ_login : gmap string string :=
  <["PATH" := "/usr/bin"]> ({["XDG_RUNTIME_DIR" := "/run/user/1000"]}).

Definition popen_ssh_agent :=
  scripted
    [ (["sh"],
       Completed
         ("Loading environment from /etc/xdg/wayland-session-env" +:+ NL +:+ mark0
          +:+ "PATH=/usr/bin" +:+ NUL0
          +:+ "XDG_RUNTIME_DIR=/run/user/1000" +:+ NUL0
          +:+ "SSH_AUTH_SOCK=/run/user/1000/ssh-agent.socket" +:+ NUL0)
         EmptyString 0%Z);
      (["systemctl"; "--user"; "show-environment"],
       Completed ("PATH=/usr/bin" +:+ NL +:+ "DISPLAY=:0" +:+ NL) EmptyString 0%Z) ].

(** The shell fails before it prints the mark. *)
Definition popen_sh_fails :=
  scripted
    [ (["sh"], Completed EmptyString "sh: 12: .: cannot open /etc/profile" 2%Z);
      (["systemctl"; "--user"; "show-environment"],
       Completed ("PATH=/usr/bin" +:+ NL +:+ "DISPLAY=:0" +:+ NL) EmptyString 0%Z) ].


(** The supervisor refuses to unset. *)
Definition popen_unset_fails :=
  scripted
    [ (["systemctl"; "--user"; "show-environment"],
       Completed ("PATH=/usr/bin" +:+ NL +:+ "FOO=bar" +:+ NL) EmptyString 0%Z);
      (["systemctl"; "--user"; "unset-environment"],
       Completed EmptyString "Failed to unset environment" 1%Z) ].

(** The supervisor holds names of the tables and answers every command. *)
Definition popen_supervisor :=
  scripted
    [ (["systemctl"; "--user"; "show-environment"],
       Completed ("PATH=/usr/bin" +:+ NL +:+ "DISPLAY=:0" +:+ NL) EmptyString 0%Z);
      (["systemctl"; "--user"; "show"],
       Completed ("wayland-wm@sway.service" +:+ NL) EmptyString 0%Z);
      (["systemd-escape"], Completed ("sway" +:+ NL) EmptyString 0%Z) ].

Definition empty_state : state := {| fs := ∅; trace := [] |}.

(** A runtime directory with the ledgers of two window managers and a
    file of another kind. *)
Definition two_ledgers : state :=
  {| fs :=
       <["env_names_for_cleanup_sway" := File ("FOO" +:+ NL +:+ "PATH")]>
         (<["env_names_for_cleanup_labwc" := File ("BAR" +:+ NL +:+ NL +:+ "FOO" +:+ NL)]>
            ({["bus" := Dir]}));
     trace := [] |}.

(** ** More of the program *)

(** [s.endswith(suffix)] *)
Fixpoint endswith (suffix s : string) : bool :=
  bool_decide (s = suffix)
  || match s with
     | EmptyString => false
     | String _ r => endswith suffix r
     end.

(** [os.path.basename(p)]: what follows the last slash. *)
Definition basename (p : string) : string :=
  List.last (Py.split "/"%char p) EmptyString.

(** [sane_split(string, delimiter)], for a delimiter of one character:
    the empty string gives the empty list. *)
Definition sane_split (s : string) (delimiter : ascii) : list string :=
  if negb (Py.truthy s) then [] else Py.split delimiter s.

(** The pure part of the loop over the dump in [prepare_env]: the
    dictionary that the rounds of [parse_env] build. *)
Definition env_post_of (entries : list string) : gmap string string :=
  foldl (λ env_post env,
           match Py.split1 Py.EQUALS env with
           | [name; value] => <[name := value]> env_post
           | _ => env_post
           end) ∅ entries.

(** The text that [wrap_process] returns for what [env -0] writes for a
    list of variables that hold no CR: each [name=value] followed by a
    NUL. (The pipe is read as text, with universal newlines: a CR or a
    CR LF that a variable holds comes back as one LF.) *)
Definition env0 (vars : list (string * string)) : string :=
  foldr (λ kv rest, kv.1 +:+ "=" +:+ kv.2 +:+ NUL0 +:+ rest) EmptyString vars.

(** What [systemctl --user show-environment] prints for a list of
    variables: one [name=value] per line. *)
Definition show_environment (vars : list (string * string)) : string :=
  foldr (λ kv rest, kv.1 +:+ "=" +:+ kv.2 +:+ NL +:+ rest) EmptyString vars.

(** No character of the class [p] in the string. *)
Fixpoint without (p : ascii → bool) (s : string) : bool :=
  match s with
  | EmptyString => true
  | String c r => negb (p c) && without p r
  end.

(** A variable that [show-environment] prints on one line: no [=] in
    the name and no line boundary in the name or the value. *)
Definition one_line_var (kv : string * string) : bool :=
  without (λ c, bool_decide (c = Py.EQUALS)) kv.1
  && without Py.islinebreak kv.1 && without Py.islinebreak kv.2.

(** A variable that comes back from [env -0] as it is: no CR in the
    name and in the value, which the universal newlines of the pipe
    would turn into LF; no [=] and no NUL in the name, no NUL in the
    value. *)
Definition env0_var (kv : string * string) : bool :=
  without (λ c, bool_decide (c = Py.CR)) kv.1
  && without (λ c, bool_decide (c = Py.CR)) kv.2
  && without (λ c, bool_decide (c = Py.EQUALS)) kv.1
  && without (λ c, bool_decide (c = Py.NUL)) kv.1
  && without (λ c, bool_decide (c = Py.NUL)) kv.2.

(** The entry of a variable in the dump. *)
Definition env0_entry (kv : string * string) : string := kv.1 +:+ "=" +:+ kv.2.

Section MoreProgram.

Variable environ : gmap string string.
Variable popen :
  list event → list string → option string → option (gmap string string) → completed.

(** [args.dry_run] *)
Variable dry_run : bool.

(** The list [export_vars] that the loop of [finalize] builds. *)
Definition export_vars_of (additional_vars : list string) : list string :=
  foldl (add_export_var environ) []
    (["WAYLAND_DISPLAY"; "DISPLAY"] ++ Py.sorted_list additional_vars).

(** [stop_wm()]: the return code of the stop, 0 when there is nothing to
    stop or in a dry run. *)
Definition stop_wm : M Z :=
  active ← is_active popen EmptyString false;
  if active : bool
  then
    print_normal "Stopping WM";;
    if negb dry_run
    then
      r ← wrap_process popen
        ["systemctl"; "--user"; "stop"; "wayland-wm@*.service"] None None;
      print_outputs (stdout r) (stderr r);;
      mret (returncode r)
    else mret 0%Z
  else print_normal "WM is not running";; mret 0%Z.

(** The branch [args.mode == 'stop'] of the main block when [-r] is not
    given: [args.remove_units] is [False] and no unit is removed. *)
Definition stop : M unit :=
  returncode ← stop_wm;
  when (negb (bool_decide (returncode = 0%Z)))
    (print_error ("Stop returned " +:+ pretty returncode));;
  sys_exit returncode.

(** The branch [args.mode == 'check' and args.checker == 'is-active'] of
    the main block. *)
Definition check_is_active (wm : string) (verbose : bool) : M unit :=
  active ← is_active popen wm verbose;
  if active : bool then sys_exit 0%Z else sys_exit 1%Z.

(** The branch [args.mode == 'app'] of the main block, for the slice,
    the command and its arguments of the command line, and the eight
    digits that [random_hex(8)] draws. *)
Definition app (slice_arg cmd : string) (args : list string) (random_hex8 : string)
  : M unit :=
  slice ←
    (if bool_decide (slice_arg = "a") then mret "app-graphical.slice"
     else if bool_decide (slice_arg = "b") then mret "background-graphical.slice"
     else if bool_decide (slice_arg = "s") then mret "session-graphical.slice"
     else if endswith ".slice" slice_arg then mret slice_arg
     else print_error ("Invalid slice name: " +:+ slice_arg);; sys_exit 1%Z);
  r ← wrap_process popen
    ["systemd-escape"; default "uwsm" (environ !! "XDG_SESSION_DESKTOP")] None None;
  if negb (bool_decide (returncode r = 0%Z)) || negb (Py.truthy (Py.strip (stdout r)))
  then
    print_error (stderr r);;
    print_error "Could not escape sequence for scope name";;
    sys_exit 1%Z
  else
    let desktop_scopename := Py.strip (stdout r) in
    r ← wrap_process popen ["systemd-escape"; basename cmd] None None;
    if negb (bool_decide (returncode r = 0%Z)) || negb (Py.truthy (Py.strip (stdout r)))
    then
      print_error (stderr r);;
      print_error "Could not escape sequence for scope name";;
      sys_exit 1%Z
    else
      let cmd_scopename := Py.strip (stdout r) in
      execlp
        (["systemd-run"; "systemd-run"; "--user"; "--scope"; "--slice"; slice; "-u";
          "app-" +:+ desktop_scopename +:+ "-" +:+ cmd_scopename +:+ "-"
          +:+ random_hex8 +:+ ".scope";
          "-qG"; cmd] ++ args)%list.

End MoreProgram.

(** ** What a computation keeps *)

(** The computation keeps a relation between the state it starts from
    and the state it leaves, however it ends. *)
Definition keeps {A} (R : state → state → Prop) (m : M A) : Prop :=
  ∀ st o st', m st = (o, st') → R st st'.

(** The runtime directory is as it was. *)
Definition same_files (st st' : state) : Prop := fs st' = fs st.

(** No export to the supervisor was added. *)
Definition same_exports (st st' : state) : Prop :=
  exports (trace st') = exports (trace st).

(** Every entry of the runtime directory is as it was, or is a ledger
    file that is gone. *)
Definition only_ledgers_removed (st st' : state) : Prop :=
  ∀ name,
    fs st' !! name = fs st !! name
    ∨ (fs st' !! name = None ∧ is_cleanup_file (fs st) name).

(** Every entry of the runtime directory is as it was, or it is the file
    [file] and holds a text. *)
Definition only_writes (file : string) (st st' : state) : Prop :=
  ∀ name,
    fs st' !! name = fs st !! name
    ∨ (name = file ∧ ∃ text, fs st' !! name = Some (File text)).

(** The outcome is a return or an exception. *)
Definition returned_or_raised {A} (o : outcome A) : Prop :=
  match o with
  | Return _ | Raise _ => True
  | SysExit _ | Execed _ => False
  end.

(** The computation returns or raises: it neither leaves by [sys.exit]
    nor replaces the process. *)
Definition returns_or_raises {A} (m : M A) : Prop :=
  ∀ st o st', m st = (o, st') → returned_or_raised o.

(** ** More scenarios *)

(** A compositor session: the display is set, [sway] is active and the
    supervisor answers every command. *)
Definition environ_session : gmap string string :=
  <["WAYLAND_DISPLAY" := "wayland-1"]>
    (<["DISPLAY" := ":0"]>
       (<["XCURSOR_SIZE" := "24"]> ({["PATH" := "/usr/bin"]}))).

Definition sway_ledger : state :=
  {| fs := {[ "env_names_for_cleanup_sway" := File ("PATH" +:+ NL +:+ "LANG") ]};
     trace := [] |}.

(** The import into the supervisor fails. *)
Definition popen_import_fails :=
  scripted
    [ (["sh"],
       Completed (mark0 +:+ env0 [("PATH", "/usr/bin"); ("FOO", "bar")])
         EmptyString 0%Z);
      (["systemctl"; "--user"; "show-environment"],
       Completed (show_environment [("PATH", "/usr/bin"); ("DISPLAY", ":0")])
         EmptyString 0%Z);
      (["systemctl"; "--user"; "import-environment"],
       Completed EmptyString "Failed to import environment" 1%Z) ].

(** A window manager is active. *)
Definition popen_wm_active :=
  scripted
    [ (["systemctl"; "--user"; "list-units"],
       Completed "wayland-wm@sway.service loaded active running" EmptyString 0%Z);
      (["systemctl"; "--user"; "stop"],
       Completed EmptyString "Job failed" 3%Z) ].

(** The activation environment cannot be updated. *)
Definition popen_dbus_fails :=
  scripted
    [ (["dbus-update-activation-environment"],
       Completed EmptyString "Failed to connect to bus" 71%Z);
      (["systemctl"; "--user"; "show"],
       Completed ("wayland-wm@sway.service" +:+ NL) EmptyString 0%Z);
      (["systemd-escape"], Completed ("sway" +:+ NL) EmptyString 0%Z) ].

(** * Properties *)

(** ** The text primitives on small inputs *)

Example readlines_universal_newlines :
  Py.readlines ("a" +:+ String Py.CR "b" +:+ String Py.CR (String Py.LF "c")
                +:+ String Py.LF (String Py.LF "d"))
  = [String "a" NL; String "b" NL; String "c" NL; NL; "d"].
Proof. reflexivity. Qed.

Example splitlines_drops_line_ends :
  Py.splitlines ("a" +:+ NL +:+ NL +:+ "b" +:+ NL) = ["a"; ""; "b"]
  ∧ Py.splitlines NL = [""] ∧ Py.splitlines "" = [].
Proof. repeat split; reflexivity. Qed.

Example split_on_one_character :
  Py.split1 Py.EQUALS "a=b=c" = ["a"; "b=c"]
  ∧ Py.split1 Py.EQUALS "abc" = ["abc"]
  ∧ Py.split1 Py.EQUALS "=x" = [""; "x"]
  ∧ Py.split Py.EQUALS "a=b=c" = ["a"; "b"; "c"]
  ∧ Py.split Py.NUL "" = [""].
Proof. repeat split; reflexivity. Qed.

Example sorted_by_code_point :
  Py.sorted {["b"; "a"; "B"; "_x"; "a1"]} = ["B"; "_x"; "a"; "a1"; "b"].
Proof. vm_compute. reflexivity. Qed.

Example strip_both_ends : Py.strip ("  a b " +:+ NL) = "a b".
Proof. reflexivity. Qed.

Example find_and_slice :
  Py.find "MARK" "msgMARKdump" = Some 3
  ∧ Py.slice 0 3 "msgMARKdump" = "msg"
  ∧ Py.slice_from (3 + 4) "msgMARKdump" = "dump"
  ∧ Py.find "MARK" "message" = None.
Proof. repeat split; reflexivity. Qed.

Example repr_of_pieces :
  Py.repr_list [EmptyString] = "['']"
  ∧ Py.repr_list ["it's"; String Py.LF "a\b"]
    = "[" +:+ String Py.DQUOTE "it's" +:+ String Py.DQUOTE ", '\na\\b']".
Proof. split; reflexivity. Qed.

Example stripped_lines_of_a_ledger :
  stripped_lines ("PATH" +:+ NL +:+ NL +:+ " FOO " +:+ NL +:+ "PATH")
  = {["PATH"; "FOO"]}.
Proof. vm_compute. reflexivity. Qed.

(** The two scenarios of a changed display and a forced [PATH], with
    tables of one name each. *)
Example reconcile_scenario :
  let vn := {| always_export := {["PATH"]}; never_export := ∅;
               always_unset := {["DISPLAY"]};
               always_cleanup := ∅; never_cleanup := ∅ |} in
  let env_pre : gmap string string := {["PATH" := "/bin"]} in
  let env_post : gmap string string :=
    <["FOO" := "bar"]> (<["WAYLAND_DISPLAY" := "wayland-1"]> ({["PATH" := "/bin"]})) in
  set_env vn env_pre env_post = env_post
  ∧ unset_varnames vn env_pre env_post ∅ = ∅
  ∧ unset_varnames vn env_pre env_post {["DISPLAY"]} = {["DISPLAY"]}.
Proof. repeat split; vm_compute; reflexivity. Qed.

(** ** Sorting and dictionaries *)

Lemma elem_of_sorted_list (l : list string) (x : string) :
  x ∈ Py.sorted_list l ↔ x ∈ l.
Proof. unfold Py.sorted_list. by rewrite merge_sort_Permutation. Qed.

Lemma elem_of_sorted (s : gset string) (x : string) : x ∈ Py.sorted s ↔ x ∈ s.
Proof. unfold Py.sorted. by rewrite elem_of_sorted_list, elem_of_elements. Qed.

Lemma NoDup_sorted (s : gset string) : NoDup (Py.sorted s).
Proof.
  unfold Py.sorted, Py.sorted_list. rewrite merge_sort_Permutation.
  apply NoDup_elements.
Qed.

Lemma list_to_set_sorted (s : gset string) : list_to_set (Py.sorted s) = s.
Proof. apply set_eq. intros x. by rewrite elem_of_list_to_set, elem_of_sorted. Qed.

Lemma foldl_insert_lookup (l : list (string * string)) (d : gmap string string) k :
  NoDup l.*1 →
  foldl (λ d kv, <[kv.1 := kv.2]> d) d l !! k
  = match (list_to_map l : gmap string string) !! k with
    | Some v => Some v
    | None => d !! k
    end.
Proof.
  revert d. induction l as [|[k' v'] l IH]; intros d Hnd; simpl; [done|].
  inversion_clear Hnd as [|? ? Hk' Hl]. rewrite IH by done.
  destruct (decide (k' = k)) as [->|Hne].
  - rewrite lookup_insert_eq.
    rewrite (not_elem_of_list_to_map_1 (M:=gmap string) l k) by done.
    by rewrite lookup_insert_eq.
  - rewrite (lookup_insert_ne (list_to_map l)) by done.
    destruct (list_to_map l !! k); [done|]. by rewrite lookup_insert_ne.
Qed.

Lemma dict_lookup (l : list (string * string)) k v :
  NoDup l.*1 → dict l !! k = Some v ↔ (k, v) ∈ l.
Proof.
  intros Hnd. unfold dict. rewrite foldl_insert_lookup by done.
  rewrite (elem_of_list_to_map (M:=gmap string) l k v) by done.
  rewrite lookup_empty. by destruct (list_to_map l !! k).
Qed.

Lemma elem_of_items (d : gmap string string) k v : (k, v) ∈ items d ↔ d !! k = Some v.
Proof. unfold items. by rewrite elem_of_list_to_set, elem_of_map_to_list. Qed.

(** ** The export set *)

Section ReconcileFacts.

Variable vn : varnames_t.
Variables env_pre env_post : gmap string string.

Lemma set_env_raw_lookup k v :
  set_env_raw env_pre env_post !! k = Some v
  ↔ env_post !! k = Some v ∧ env_pre !! k ≠ Some v.
Proof.
  unfold set_env_raw. rewrite dict_lookup.
  - by rewrite elem_of_elements, elem_of_difference, !elem_of_items.
  - apply NoDup_fmap_fst; [|apply NoDup_elements].
    intros x y1 y2. rewrite !elem_of_elements, !elem_of_difference, !elem_of_items.
    intros [H1 _] [H2 _]. congruence.
Qed.

Lemma set_env_raw_None k :
  env_post !! k = None → set_env_raw env_pre env_post !! k = None.
Proof.
  intros Hk. apply eq_None_not_Some. intros [v Hv].
  apply set_env_raw_lookup in Hv as [Hv _]. congruence.
Qed.

Lemma foldl_force_export_lookup (l : list string) (d : gmap string string) n :
  foldl (force_export env_post) d l !! n
  = if decide (n ∈ l) then
      match env_post !! n with Some v => Some v | None => d !! n end
    else d !! n.
Proof.
  revert d. induction l as [|x l IH]; intros d; cbn [foldl].
  - case_decide as H; [by apply elem_of_nil in H|done].
  - rewrite IH. unfold force_export.
    destruct (decide (n ∈ l)) as [Hl|Hl].
    + rewrite decide_True by (by right).
      destruct (env_post !! n) eqn:Hn; [done|].
      destruct (env_post !! x) eqn:Hx; [|done].
      rewrite lookup_insert_ne; [done|congruence].
    + destruct (decide (x = n)) as [->|Hne].
      * rewrite decide_True by (by left).
        destruct (env_post !! n) eqn:Hn; [by rewrite lookup_insert_eq|done].
      * rewrite decide_False by (intros [?|?]%elem_of_cons; congruence).
        destruct (env_post !! x); [by rewrite lookup_insert_ne|done].
Qed.

Lemma exclude_export_delete (d : gmap string string) var :
  exclude_export d var = delete var d.
Proof.
  unfold exclude_export. destruct (d !! var) eqn:Hd; [done|]. by rewrite delete_id.
Qed.

Lemma foldl_exclude_export_lookup (l : list string) (d : gmap string string) n :
  foldl exclude_export d l !! n = if decide (n ∈ l) then None else d !! n.
Proof.
  revert d. induction l as [|x l IH]; intros d; cbn [foldl].
  - case_decide as H; [by apply elem_of_nil in H|done].
  - rewrite IH, exclude_export_delete.
    destruct (decide (n ∈ l)) as [Hl|Hl].
    + by rewrite decide_True by (by right).
    + destruct (decide (x = n)) as [->|Hne].
      * rewrite decide_True by (by left). apply lookup_delete_eq.
      * rewrite decide_False by (intros [?|?]%elem_of_cons; congruence).
        by rewrite lookup_delete_ne.
Qed.

(** What [set_env] holds for a name, in one formula. *)
Lemma set_env_lookup n :
  set_env vn env_pre env_post !! n
  = if decide (n ∈ never_export vn ∪ always_unset vn) then None
    else if decide (n ∈ always_export vn) then env_post !! n
    else set_env_raw env_pre env_post !! n.
Proof.
  unfold set_env, set_env_forced.
  rewrite foldl_exclude_export_lookup, foldl_force_export_lookup.
  destruct (decide (n ∈ never_export vn ∪ always_unset vn)) as [Hex|Hex].
  - by rewrite decide_True by (by apply elem_of_elements).
  - rewrite decide_False by (by rewrite elem_of_elements).
    apply not_elem_of_union in Hex as [Hne Hau].
    destruct (decide (n ∈ always_export vn)) as [Hal|Hal].
    + rewrite decide_True
        by (rewrite elem_of_sorted, !elem_of_difference; done).
      destruct (env_post !! n) eqn:Hn; [done|]. by apply set_env_raw_None.
    + rewrite decide_False; [done|].
      rewrite elem_of_sorted, !elem_of_difference. tauto.
Qed.

End ReconcileFacts.

(** ** Ledger text *)

Lemma append_nil (s : string) : EmptyString +:+ s = s.
Proof. reflexivity. Qed.

Lemma append_cons (c : ascii) (r s : string) : String c r +:+ s = String c (r +:+ s).
Proof. reflexivity. Qed.

Lemma lstrip_by_no_line_end p s : no_line_end s → no_line_end (Py.lstrip_by p s).
Proof.
  induction s as [|c r IH]; [done|]. cbn [Py.lstrip_by].
  destruct (p c); [|done]. cbn [no_line_end]. intros [_ ?]%andb_True. auto.
Qed.

Lemma rstrip_by_no_line_end p s : no_line_end s → no_line_end (Py.rstrip_by p s).
Proof.
  induction s as [|c r IH]; [done|]. cbn [Py.rstrip_by no_line_end].
  intros [Hc Hr]%andb_True. specialize (IH Hr).
  destruct (Py.rstrip_by p r) as [|c' r'].
  - destruct (p c); [done|]. cbn [no_line_end]. by rewrite andb_True.
  - cbn [no_line_end] in *. by rewrite andb_True.
Qed.

Lemma strip_no_line_end s : no_line_end s → no_line_end (Py.strip s).
Proof. intros. by apply lstrip_by_no_line_end, rstrip_by_no_line_end. Qed.

Lemma rstrip_by_last_ok p s : last_ok p (Py.rstrip_by p s).
Proof.
  induction s as [|c r IH]; [done|]. cbn [Py.rstrip_by].
  destruct (Py.rstrip_by p r) as [|c' r'].
  - destruct (p c) eqn:Hc; [done|]. cbn. by rewrite Hc.
  - done.
Qed.

Lemma lstrip_by_head_ok p s : head_ok p (Py.lstrip_by p s).
Proof.
  induction s as [|c r IH]; [done|]. cbn [Py.lstrip_by].
  destruct (p c) eqn:Hc; [done|]. cbn. by rewrite Hc.
Qed.

Lemma lstrip_by_id p s : head_ok p s → Py.lstrip_by p s = s.
Proof. destruct s as [|c r]; [done|]. cbn. by destruct (p c). Qed.

Lemma rstrip_by_id p s : last_ok p s → Py.rstrip_by p s = s.
Proof.
  induction s as [|c r IH]; [done|]. cbn [Py.rstrip_by].
  destruct r as [|c' r'].
  - cbn. by destruct (p c).
  - intros H. rewrite IH by done. done.
Qed.

Lemma lstrip_by_last_ok p s : last_ok p s → last_ok p (Py.lstrip_by p s).
Proof.
  induction s as [|c r IH]; [done|]. cbn [Py.lstrip_by].
  destruct (p c) eqn:Hc; [|done].
  destruct r as [|c' r']; [cbn; by rewrite Hc|]. intros H. by apply IH.
Qed.

Lemma strip_idemp s : Py.strip (Py.strip s) = Py.strip s.
Proof.
  unfold Py.strip.
  rewrite (rstrip_by_id Py.isspace (Py.lstrip_by _ _))
    by apply lstrip_by_last_ok, rstrip_by_last_ok.
  apply lstrip_by_id, lstrip_by_head_ok.
Qed.

Lemma rstrip_by_snoc p s c :
  p c = true → Py.rstrip_by p (s +:+ String c EmptyString) = Py.rstrip_by p s.
Proof.
  intros Hc. induction s as [|x r IH].
  - rewrite append_nil. cbn. by rewrite Hc.
  - rewrite append_cons. cbn [Py.rstrip_by]. by rewrite IH.
Qed.

Lemma strip_line s : Py.strip (s +:+ NL) = Py.strip s.
Proof. unfold Py.strip, NL. by rewrite rstrip_by_snoc. Qed.

Lemma readlines_one_line s :
  no_line_end s → Py.truthy s → Py.readlines s = [s].
Proof.
  induction s as [|c r IH]; [done|]. cbn [no_line_end Py.readlines].
  destruct (bool_decide (c = Py.LF)); [done|].
  destruct (bool_decide (c = Py.CR)); [done|].
  cbn [negb andb]. intros Hr _.
  destruct r as [|c' r']; [done|]. by rewrite IH.
Qed.

Lemma readlines_first_line s t :
  no_line_end s → Py.readlines (s +:+ NL +:+ t) = (s +:+ NL) :: Py.readlines t.
Proof.
  induction s as [|c r IH]; [intros _; rewrite append_nil; unfold NL; by rewrite append_cons|].
  rewrite !append_cons. cbn [no_line_end Py.readlines].
  destruct (bool_decide (c = Py.LF)); [done|].
  destruct (bool_decide (c = Py.CR)); [done|].
  cbn [negb andb]. intros Hr. by rewrite IH.
Qed.

Lemma ledger_name_spec s :
  ledger_name s ↔ Py.truthy s ∧ no_line_end s ∧ Py.strip s = s.
Proof.
  unfold ledger_name. rewrite !andb_True, bool_decide_spec. tauto.
Qed.

(** A text of one name per line reads back as the set of its names. *)
Lemma stripped_lines_join (l : list string) :
  Forall (λ x, ledger_name x) l → stripped_lines (Py.join NL l) = list_to_set l.
Proof.
  induction l as [|a l IH]; [done|].
  intros Hall. inversion_clear Hall as [|? ? Ha Hl].
  apply ledger_name_spec in Ha as (Hne & Hnl & Hs).
  destruct l as [|b l].
  - unfold stripped_lines, Py.join. cbn [String.concat].
    rewrite readlines_one_line by done.
    rewrite filter_cons_True by (by rewrite Hs).
    rewrite filter_nil. cbn. by rewrite Hs.
  - specialize (IH Hl). unfold stripped_lines, Py.join in *.
    cbn [String.concat].
    change (String.concat NL (b :: l)) with (Py.join NL (b :: l)).
    rewrite readlines_first_line by done.
    rewrite filter_cons_True by (by rewrite strip_line, Hs).
    rewrite fmap_cons, strip_line, Hs.
    rewrite !list_to_set_cons. f_equal. apply IH.
Qed.

(** Every line that [readlines] gives is a piece without line end,
    followed or not by one LF. *)
Lemma readlines_shape t :
  Forall (λ l, ∃ body, no_line_end body ∧ (l = body ∨ l = body +:+ NL))
    (Py.readlines t).
Proof.
  assert (Hnl : ∃ body, no_line_end body ∧ (NL = body ∨ NL = body +:+ NL)).
  { exists EmptyString. split; [done|by right]. }
  remember (String.length t) as n eqn:Hn. revert t Hn.
  induction n as [n IH] using lt_wf_ind. intros t ->.
  destruct t as [|c r]; [constructor|]. cbn [Py.readlines].
  assert (Hr : Forall (λ l, ∃ body, no_line_end body ∧ (l = body ∨ l = body +:+ NL))
                 (Py.readlines r)) by (eapply IH; [|done]; cbn; lia).
  destruct (bool_decide (c = Py.LF)) eqn:Hlf; [by constructor|].
  destruct (bool_decide (c = Py.CR)) eqn:Hcr.
  - destruct r as [|c' r']; [by repeat constructor|].
    destruct (bool_decide (c' = Py.LF)); constructor; try done.
    eapply IH; [|done]. cbn. lia.
  - destruct Hr as [|l0 ls (body & Hb & Hl0) Hls]; cbn [Py.cons_first].
    + repeat constructor. exists (String c EmptyString). split; [|by left].
      cbn. by rewrite Hlf, Hcr.
    + constructor; [|done]. exists (String c body). split.
      * cbn. by rewrite Hlf, Hcr.
      * destruct Hl0 as [->| ->]; [by left|by right].
Qed.

(** Whatever the text, the names read from it are ledger names. *)
Lemma stripped_lines_ledger_name text x :
  x ∈ stripped_lines text → ledger_name x.
Proof.
  unfold stripped_lines. rewrite elem_of_list_to_set, list_elem_of_fmap.
  intros (l & -> & [Hl Hin]%list_elem_of_filter).
  apply ledger_name_spec. split_and!; [done| |apply strip_idemp].
  pose proof (readlines_shape text) as Hshape.
  rewrite Forall_forall in Hshape.
  destruct (Hshape l Hin) as (body & Hb & [->| ->]).
  - by apply strip_no_line_end.
  - rewrite strip_line. by apply strip_no_line_end.
Qed.

(** ** The ledger file *)

Lemma existing_cleanup_varnames_run cleanup_file st :
  existing_cleanup_varnames cleanup_file st
  = (Return (match fs st !! cleanup_file with
             | Some (File text) => stripped_lines text
             | _ => ∅
             end), st).
Proof.
  unfold existing_cleanup_varnames, mbind, M_bind, bind, isfile, read_text,
    mret, M_ret, ret.
  by destruct (fs st !! cleanup_file) as [[text|]|] eqn:Hf; rewrite ?Hf.
Qed.

Lemma write_cleanup_file_run wm_id cleanup_varnames st prior :
  existing_cleanup_varnames (cleanup_file_of wm_id) st = (Return prior, st) →
  fs st !! cleanup_file_of wm_id ≠ Some Dir →
  write_cleanup_file wm_id cleanup_varnames st
  = (Return tt,
     {| fs := <[cleanup_file_of wm_id :=
                  File (Py.join NL (Py.sorted (prior ∪ cleanup_varnames)))]> (fs st);
        trace := trace st |}).
Proof.
  intros Hprior Hdir. unfold write_cleanup_file, mbind, M_bind, bind.
  rewrite Hprior. unfold write_text.
  by destruct (fs st !! cleanup_file_of wm_id) as [[text|]|].
Qed.

Lemma stripped_lines_sorted (names : gset string) :
  set_Forall (λ x, ledger_name x) names →
  stripped_lines (Py.join NL (Py.sorted names)) = names.
Proof.
  intros Hall. rewrite stripped_lines_join; [apply list_to_set_sorted|].
  apply Forall_forall. intros x Hx%elem_of_sorted. by apply Hall.
Qed.

Lemma existing_cleanup_varnames_ledger_name cleanup_file st prior :
  existing_cleanup_varnames cleanup_file st = (Return prior, st) →
  set_Forall (λ x, ledger_name x) prior.
Proof.
  rewrite existing_cleanup_varnames_run. intros [= <-] x.
  destruct (fs st !! cleanup_file) as [[text|]|]; try by intros ?%not_elem_of_empty.
  apply stripped_lines_ledger_name.
Qed.

(** C7, as amended: for names that are not empty, hold no line end and
    neither begin nor end with white space, the ledger block of
    [prepare_env] run for [A] and then for [B], from an absent or an
    existing ledger, leaves a file that reads back as the names it held
    before joined with [A] and [B], written one name per line in sorted
    order; and running the block for [A] a second time changes
    nothing. *)
Theorem C7_ledger_merge_union_idempotent
  (wm_id : string) (A B prior : gset string) (st : state) :
  set_Forall (λ x, ledger_name x) (A ∪ B) →
  existing_cleanup_varnames (cleanup_file_of wm_id) st = (Return prior, st) →
  fs st !! cleanup_file_of wm_id ≠ Some Dir →
  ∃ st1 st2,
    write_cleanup_file wm_id A st = (Return tt, st1)
    ∧ write_cleanup_file wm_id B st1 = (Return tt, st2)
    ∧ existing_cleanup_varnames (cleanup_file_of wm_id) st2
      = (Return (prior ∪ A ∪ B), st2)
    ∧ fs st2 !! cleanup_file_of wm_id
      = Some (File (Py.join NL (Py.sorted (prior ∪ A ∪ B))))
    ∧ write_cleanup_file wm_id A st1 = (Return tt, st1).
Proof.
  intros Hnames Hprior Hdir.
  pose proof (existing_cleanup_varnames_ledger_name _ _ _ Hprior) as Hpn.
  assert (HA : set_Forall (λ x, ledger_name x) (prior ∪ A)).
  { intros x [?|?]%elem_of_union; [by apply Hpn|apply Hnames; set_solver]. }
  assert (HB : set_Forall (λ x, ledger_name x) (prior ∪ A ∪ B)).
  { intros x [?|?]%elem_of_union; [by apply HA|apply Hnames; set_solver]. }
  set (file := cleanup_file_of wm_id) in *.
  set (st1 := {| fs := <[file := File (Py.join NL (Py.sorted (prior ∪ A)))]> (fs st);
                 trace := trace st |}).
  set (st2 := {| fs := <[file := File (Py.join NL (Py.sorted (prior ∪ A ∪ B)))]> (fs st1);
                 trace := trace st1 |}).
  assert (H1 : existing_cleanup_varnames file st1 = (Return (prior ∪ A), st1)).
  { rewrite existing_cleanup_varnames_run. cbn [fs st1].
    by rewrite lookup_insert_eq, stripped_lines_sorted. }
  assert (Hd1 : fs st1 !! file ≠ Some Dir).
  { cbn [fs st1]. by rewrite lookup_insert_eq. }
  exists st1, st2. split_and!.
  - by apply write_cleanup_file_run.
  - by apply write_cleanup_file_run.
  - rewrite existing_cleanup_varnames_run. cbn [fs st2].
    by rewrite lookup_insert_eq, stripped_lines_sorted.
  - cbn [fs st2]. by rewrite lookup_insert_eq.
  - rewrite (write_cleanup_file_run wm_id A st1 (prior ∪ A)) by done.
    rewrite <- (assoc_L (∪) prior A A), (idemp_L (∪) A).
    unfold st1 at 1 2 3. cbn [fs trace]. by rewrite insert_insert_eq.
Qed.

(** A run of the amended C7: a ledger with a blank line and a name
    written twice, then two more names. *)
Lemma C7_ledger_merge_union_idempotent_witness :
  ∃ st1 st2,
    let st := {| fs := {[ cleanup_file_of "sway" :=
                            File ("PATH" +:+ NL +:+ NL +:+ "PATH") ]};
                 trace := [] |} in
    write_cleanup_file "sway" {["FOO"]} st = (Return tt, st1)
    ∧ write_cleanup_file "sway" {["BAR"]} st1 = (Return tt, st2)
    ∧ existing_cleanup_varnames (cleanup_file_of "sway") st2
      = (Return ({["PATH"]} ∪ {["FOO"]} ∪ {["BAR"]}), st2)
    ∧ fs st2 !! cleanup_file_of "sway"
      = Some (File (Py.join NL (Py.sorted ({["PATH"]} ∪ {["FOO"]} ∪ {["BAR"]}))))
    ∧ write_cleanup_file "sway" {["FOO"]} st1 = (Return tt, st1).
Proof.
  apply (C7_ledger_merge_union_idempotent "sway" {["FOO"]} {["BAR"]} {["PATH"]}).
  - apply (bool_decide_unpack _). vm_compute. exact I.
  - vm_compute. reflexivity.
  - vm_compute. discriminate.
Defined.

(** C7 as stated fails for a name that begins with a space: written as
    the line [" X"], it reads back as ["X"]. *)
Lemma C7_counterexample_padded_name :
  let st := {| fs := ∅; trace := [] |} in
  let A : gset string := {[" X"]} in
  let B : gset string := ∅ in
  existing_cleanup_varnames (cleanup_file_of "sway") st = (Return ∅, st)
  ∧ ¬ ∃ st1 st2,
        write_cleanup_file "sway" A st = (Return tt, st1)
        ∧ write_cleanup_file "sway" B st1 = (Return tt, st2)
        ∧ existing_cleanup_varnames (cleanup_file_of "sway") st2
          = (Return (∅ ∪ A ∪ B), st2).
Proof.
  intros st A B. split; [done|].
  intros (st1 & st2 & H1 & H2 & H3).
  vm_compute in H1. injection H1 as <-.
  vm_compute in H2. injection H2 as <-.
  vm_compute in H3. discriminate H3.
Qed.

(** ** The three sets of [prepare_env] *)

Lemma elem_of_unset_varnames_raw (env_pre env_post : gmap string string) k :
  k ∈ unset_varnames_raw env_pre env_post
  ↔ is_Some (env_pre !! k) ∧ env_post !! k = None.
Proof.
  unfold unset_varnames_raw.
  by rewrite elem_of_difference, !elem_of_dom, <- eq_None_not_Some.
Qed.

(** C6: the raw difference holds exactly the entries of [env_post] whose
    name is not in [env_pre] or whose value there is another string, and
    the raw reverse difference holds exactly the names of [env_pre] that
    [env_post] has not. *)
Theorem C6_diff_added_changed_removed (env_pre env_post : gmap string string) :
  (∀ k v, set_env_raw env_pre env_post !! k = Some v
          ↔ env_post !! k = Some v
            ∧ (env_pre !! k = None ∨ ∃ v', env_pre !! k = Some v' ∧ v' ≠ v))
  ∧ (∀ k, k ∈ unset_varnames_raw env_pre env_post
          ↔ is_Some (env_pre !! k) ∧ env_post !! k = None).
Proof.
  split.
  - intros k v. rewrite set_env_raw_lookup. split; intros [Hpost Hpre]; split; try done.
    + destruct (env_pre !! k) as [v'|]; [right|by left].
      exists v'. split; [done|]. congruence.
    + destruct Hpre as [->|(v' & -> & Hne)]; congruence.
  - apply elem_of_unset_varnames_raw.
Qed.

(** C4: a name of [always_export] that [env_post] holds is exported with
    its value of [env_post] if and only if it is neither in
    [never_export] nor in [always_unset]; and no name of [never_export]
    or [always_unset] is ever exported. *)
Theorem C4_forced_export_exclusion_wins
  (vn : varnames_t) (env_pre env_post : gmap string string) (n : string) :
  (n ∈ always_export vn → is_Some (env_post !! n) →
   (set_env vn env_pre env_post !! n = env_post !! n
    ↔ (n ∉ never_export vn) ∧ (n ∉ always_unset vn)))
  ∧ (n ∈ never_export vn ∨ n ∈ always_unset vn →
     set_env vn env_pre env_post !! n = None).
Proof.
  rewrite set_env_lookup. split.
  - intros Hal [v Hv]. rewrite Hv.
    destruct (decide (n ∈ never_export vn ∪ always_unset vn)) as [Hex|Hex].
    + split; [done|]. intros [??]. apply elem_of_union in Hex. tauto.
    + rewrite decide_True by done. apply not_elem_of_union in Hex. tauto.
  - intros Hex. by rewrite decide_True by (by apply elem_of_union).
Qed.

(** A run of C4 on the tables of the source: [PATH] is forced although it
    did not change, [DISPLAY] is excluded although it changed. *)
Lemma C4_forced_export_exclusion_wins_witness :
  let env_pre : gmap string string := {["PATH" := "/usr/bin"]} in
  let env_post : gmap string string :=
    <["DISPLAY" := ":0"]> ({["PATH" := "/usr/bin"]}) in
  (set_env varnames env_pre env_post !! "PATH" = env_post !! "PATH"
   ↔ ("PATH" ∉ never_export varnames) ∧ ("PATH" ∉ always_unset varnames))
  ∧ set_env varnames env_pre env_post !! "DISPLAY" = None.
Proof.
  intros env_pre env_post. split.
  - apply (C4_forced_export_exclusion_wins varnames env_pre env_post "PATH").
    + apply (bool_decide_unpack _). vm_compute. exact I.
    + apply (bool_decide_unpack _). vm_compute. exact I.
  - apply (C4_forced_export_exclusion_wins varnames env_pre env_post "DISPLAY").
    right. apply (bool_decide_unpack _). vm_compute. exact I.
Defined.

(** C5: the set to unset is the raw reverse difference joined with
    [always_unset], cut down to the names the supervisor holds; it is
    always within these names. *)
Theorem C5_unset_within_known
  (vn : varnames_t) (env_pre env_post : gmap string string)
  (systemd_varnames : gset string) :
  unset_varnames vn env_pre env_post systemd_varnames
  = (unset_varnames_raw env_pre env_post ∪ always_unset vn) ∩ systemd_varnames
  ∧ unset_varnames vn env_pre env_post systemd_varnames ⊆ systemd_varnames
  ∧ ∀ n, n ∈ unset_varnames vn env_pre env_post systemd_varnames
         ↔ ((is_Some (env_pre !! n) ∧ env_post !! n = None) ∨ n ∈ always_unset vn)
           ∧ n ∈ systemd_varnames.
Proof.
  split_and!.
  - done.
  - unfold unset_varnames. apply intersection_subseteq_r.
  - intros n. unfold unset_varnames.
    rewrite elem_of_intersection, elem_of_union.
    by rewrite elem_of_unset_varnames_raw.
Qed.

(** C1 fails on the code: [-] binds tighter than [|], so [never_cleanup]
    is taken out of [always_cleanup] only, and a name of [never_cleanup]
    that is exported is put in the cleanup set and written to the
    ledger. Here the profile starts an ssh agent. *)
Theorem C1_never_cleanup_name_is_ledgered :
  let env_pre := environ_login in
  let env_post := <["SSH_AUTH_SOCK" := "/run/user/1000/ssh-agent.socket"]> environ_login in
  "SSH_AUTH_SOCK" ∈ never_cleanup varnames
  ∧ set_env varnames env_pre env_post !! "SSH_AUTH_SOCK"
    = Some "/run/user/1000/ssh-agent.socket"
  ∧ "SSH_AUTH_SOCK" ∈ cleanup_varnames varnames env_pre env_post
  ∧ cleanup_varnames varnames env_pre env_post
    ≠ (dom (set_env varnames env_pre env_post) ∪ always_cleanup varnames)
      ∖ never_cleanup varnames
  ∧ ∃ st,
      prepare_env environ_login popen_ssh_agent mark0 gen_sh0 "sway" empty_state
      = (Return tt, st)
      ∧ fs st !! cleanup_file_of "sway"
        = Some (File (Py.join NL
            ["DISPLAY"; "LANG"; "PATH"; "SSH_AUTH_SOCK"; "WAYLAND_DISPLAY";
             "XCURSOR_SIZE"; "XCURSOR_THEME"; "XDG_CURRENT_DESKTOP";
             "XDG_MENU_PREFIX"; "XDG_SESSION_DESKTOP"; "XDG_SESSION_ID";
             "XDG_VTNR"])).
Proof.
  intros env_pre env_post. split_and!.
  - apply (bool_decide_unpack _). vm_compute. exact I.
  - vm_compute. reflexivity.
  - apply (bool_decide_unpack _). vm_compute. exact I.
  - apply (bool_decide_eq_false_1 _). vm_compute. reflexivity.
  - eexists. split; [vm_compute; reflexivity|]. vm_compute. reflexivity.
Qed.

(** ** Running computations *)

Lemma run_bind {A B} (m : M A) (k : A → M B) st a st' :
  m st = (Return a, st') → (m ≫= k) st = k a st'.
Proof. intros H. unfold mbind, M_bind, bind. by rewrite H. Qed.

Lemma run_bind_raise {A B} (m : M A) (k : A → M B) st E st' :
  m st = (Raise E, st') → (m ≫= k) st = (Raise E, st').
Proof. intros H. unfold mbind, M_bind, bind. by rewrite H. Qed.

Lemma run_bind_exit {A B} (m : M A) (k : A → M B) st code st' :
  m st = (SysExit code, st') → (m ≫= k) st = (SysExit code, st').
Proof. intros H. unfold mbind, M_bind, bind. by rewrite H. Qed.

Lemma run_bind_assoc {A B C} (m : M A) (k1 : A → M B) (k2 : B → M C) st :
  ((m ≫= k1) ≫= k2) st = (m ≫= (λ a, k1 a ≫= k2)) st.
Proof. unfold mbind, M_bind, bind. by destruct (m st) as [[] ?]. Qed.

Lemma run_ret {A B} (a : A) (k : A → M B) st : (mret a ≫= k) st = k a st.
Proof. done. Qed.

Lemma run_print {B} to msg (k : unit → M B) st :
  (print to msg ≫= k) st = k tt {| fs := fs st; trace := Print to msg :: trace st |}.
Proof. done. Qed.

Lemma run_wrap_process {B} popen argv stdin env (k : completed → M B) st :
  (wrap_process popen argv stdin env ≫= k) st
  = k (popen (trace st) argv stdin env)
      {| fs := fs st; trace := Popen argv stdin env :: trace st |}.
Proof. done. Qed.

Lemma run_isfile {B} name (k : bool → M B) st :
  (isfile name ≫= k) st
  = k (match fs st !! name with Some (File _) => true | _ => false end) st.
Proof. done. Qed.


(** What [print_outputs] leaves: the same directory, and a trace longer
    by prints only. *)
Lemma print_outputs_run out err st :
  ∃ prints,
    print_outputs out err st
    = (Return tt, {| fs := fs st; trace := prints ++ trace st |})
    ∧ exports prints = [].
Proof.
  unfold print_outputs, when, print_normal, print_error.
  destruct (Py.truthy (Py.strip out)), (Py.truthy (Py.strip err)).
  - by exists [Print Error (Py.strip err); Print Normal (Py.strip out)].
  - by exists [Print Normal (Py.strip out)].
  - by exists [Print Error (Py.strip err)].
  - exists []. by destruct st.
Qed.

(** [print_outputs] spawns nothing. *)
Lemma print_outputs_prints out err st :
  ∃ prints,
    print_outputs out err st
    = (Return tt, {| fs := fs st; trace := prints ++ trace st |})
    ∧ ∀ argv stdin env, Popen argv stdin env ∉ prints.
Proof.
  unfold print_outputs, when, print_normal, print_error.
  destruct (Py.truthy (Py.strip out)), (Py.truthy (Py.strip err)).
  - exists [Print Error (Py.strip err); Print Normal (Py.strip out)].
    split; [done|]. intros ??? Hin. by repeat apply elem_of_cons in Hin as [?|Hin];
      try apply elem_of_nil in Hin.
  - exists [Print Normal (Py.strip out)].
    split; [done|]. intros ??? Hin. by repeat apply elem_of_cons in Hin as [?|Hin];
      try apply elem_of_nil in Hin.
  - exists [Print Error (Py.strip err)].
    split; [done|]. intros ??? Hin. by repeat apply elem_of_cons in Hin as [?|Hin];
      try apply elem_of_nil in Hin.
  - exists []. split; [by destruct st|]. intros ???. apply not_elem_of_nil.
Qed.

Lemma exports_app tr1 tr2 : exports (tr1 ++ tr2) = (exports tr1 ++ exports tr2)%list.
Proof. apply filter_app. Qed.

Lemma exports_cons ev tr :
  exports (ev :: tr) = if is_export ev then ev :: exports tr else exports tr.
Proof.
  unfold exports. destruct (is_export ev) eqn:Hev.
  - by rewrite filter_cons_True by (by rewrite Hev).
  - by rewrite filter_cons_False by (rewrite Hev; exact id).
Qed.

Lemma is_export_import names stdin env :
  is_export (Popen (["systemctl"; "--user"; "import-environment"] ++ names)%list
               stdin env) = true.
Proof. reflexivity. Qed.

Lemma is_export_dbus names stdin env :
  is_export (Popen (["dbus-update-activation-environment"; "--systemd"] ++ names)%list
               stdin env) = true.
Proof. reflexivity. Qed.

Lemma is_export_unset names stdin env :
  is_export (Popen (["systemctl"; "--user"; "unset-environment"] ++ names)%list
               stdin env) = false.
Proof. reflexivity. Qed.

Lemma is_export_print to msg : is_export (Print to msg) = false.
Proof. reflexivity. Qed.

Lemma is_export_sh stdin env : is_export (Popen ["sh"; "-"] stdin env) = false.
Proof. reflexivity. Qed.

Lemma is_export_show stdin env :
  is_export (Popen ["systemctl"; "--user"; "show-environment"] stdin env) = false.
Proof. reflexivity. Qed.

(** Computes the exports of a trace made of known events and of prints
    known to export nothing. *)
Ltac simpl_exports :=
  repeat first
    [ rewrite exports_app
    | rewrite exports_cons
    | rewrite is_export_print
    | rewrite is_export_sh
    | rewrite is_export_show
    | rewrite is_export_import
    | rewrite is_export_dbus
    | rewrite is_export_unset
    | match goal with H : exports _ = [] |- _ => rewrite H end ];
  cbn [app].


Lemma startswith_cleanup_file_of wm_id :
  Py.startswith "env_names_for_cleanup_" (cleanup_file_of wm_id) = true.
Proof. vm_compute. by destruct wm_id. Qed.

(** [get_active_wm_id] touches no file and exports nothing. *)
Lemma get_active_wm_id_run popen st o st1 :
  get_active_wm_id popen st = (o, st1) →
  fs st1 = fs st ∧ exports (trace st1) = exports (trace st).
Proof.
  unfold get_active_wm_id. rewrite run_wrap_process.
  destruct (negb _ || negb _); [by intros [= <- <-]|].
  rewrite run_wrap_process.
  destruct (negb _ || negb _); by intros [= <- <-].
Qed.

(** C10: [finalize] exits with code 1, leaving the runtime directory as
    it was and without an export to the supervisor, when
    [WAYLAND_DISPLAY] is unset or empty, and also when the ledger file of
    the active window manager is no regular file. *)
Theorem C10_finalize_needs_display_and_ledger
  (environ : gmap string string)
  (popen : list event → list string → option string
           → option (gmap string string) → completed)
  (additional_vars : list string) (st : state) :
  (Py.truthy (default EmptyString (environ !! "WAYLAND_DISPLAY")) = false →
   ∃ st', finalize environ popen additional_vars st = (SysExit 1, st')
          ∧ fs st' = fs st ∧ exports (trace st') = exports (trace st))
  ∧ (∀ wm_id st1,
       Py.truthy (default EmptyString (environ !! "WAYLAND_DISPLAY")) = true →
       get_active_wm_id popen st = (Return wm_id, st1) →
       is_cleanup_file (fs st) (cleanup_file_of wm_id) = false →
       ∃ st', finalize environ popen additional_vars st = (SysExit 1, st')
              ∧ fs st' = fs st ∧ exports (trace st') = exports (trace st)).
Proof.
  split.
  - intros Hwd. unfold finalize. rewrite Hwd. cbn [negb].
    eexists. split; [reflexivity|]. done.
  - intros wm_id st1 Hwd Hget Hfile. unfold finalize. rewrite Hwd. cbn [negb].
    rewrite (run_bind _ _ _ _ _ Hget), run_isfile.
    apply get_active_wm_id_run in Hget as [Hfs Htr].
    assert (match fs st1 !! cleanup_file_of wm_id with
            | Some (File _) => true | _ => false end = false) as ->.
    { rewrite Hfs. unfold is_cleanup_file in Hfile.
      apply andb_false_iff in Hfile as [Hpre|Hf]; [|done].
      by rewrite startswith_cleanup_file_of in Hpre. }
    eexists. split; [reflexivity|]. done.
Qed.

(** A run of C10: no [WAYLAND_DISPLAY] at all, and a display but no
    ledger for the active [sway]. *)
Lemma C10_finalize_needs_display_and_ledger_witness :
  (∃ st', finalize ∅ popen_supervisor ["FOO"] two_ledgers = (SysExit 1, st')
          ∧ fs st' = fs two_ledgers
          ∧ exports (trace st') = exports (trace two_ledgers))
  ∧ (∃ st', finalize {["WAYLAND_DISPLAY" := "wayland-1"]} popen_supervisor []
              empty_state = (SysExit 1, st')
            ∧ fs st' = fs empty_state
            ∧ exports (trace st') = exports (trace empty_state)).
Proof.
  split.
  - apply (proj1 (C10_finalize_needs_display_and_ledger
                    ∅ popen_supervisor ["FOO"] two_ledgers)).
    vm_compute. reflexivity.
  - eapply (proj2 (C10_finalize_needs_display_and_ledger
                     {["WAYLAND_DISPLAY" := "wayland-1"]} popen_supervisor []
                     empty_state)).
    + vm_compute. reflexivity.
    + vm_compute. reflexivity.
    + vm_compute. reflexivity.
Defined.

(** ** The loops of [cleanup_env] *)

Lemma find_cleanup_file_run cleanup_files name st :
  find_cleanup_file cleanup_files name st
  = if is_cleanup_file (fs st) name
    then (Return (cleanup_files ++ [name])%list,
          {| fs := fs st; trace := found_msg name :: trace st |})
    else (Return cleanup_files, st).
Proof.
  unfold find_cleanup_file, is_cleanup_file.
  destruct (Py.startswith _ name); cbn [negb andb]; [|done].
  rewrite run_isfile. by destruct (fs st !! name) as [[]|].
Qed.

Lemma for_find_cleanup_file_run names cleanup_files st :
  for_ names find_cleanup_file cleanup_files st
  = (Return (cleanup_files ++ filter (λ n, is_cleanup_file (fs st) n) names)%list,
     {| fs := fs st;
        trace := (reverse (found_msg <$> filter (λ n, is_cleanup_file (fs st) n) names)
                  ++ trace st)%list |}).
Proof.
  revert cleanup_files st. induction names as [|name names IH]; intros acc st.
  - cbn. rewrite app_nil_r. by destruct st.
  - cbn [for_]. unfold mbind, M_bind, bind. rewrite find_cleanup_file_run.
    destruct (is_cleanup_file (fs st) name) eqn:Hname.
    + rewrite IH. cbn [fs trace].
      rewrite filter_cons_True by (by rewrite Hname).
      rewrite fmap_cons, reverse_cons, <- !(assoc_L (++)). done.
    + rewrite IH. by rewrite filter_cons_False by (rewrite Hname; exact id).
Qed.

Lemma read_cleanup_file_run current name st :
  read_cleanup_file current name st = (Return (current ∪ varnames_in (fs st) name), st).
Proof.
  unfold read_cleanup_file, varnames_in. rewrite run_isfile. unfold read_text.
  destruct (fs st !! name) as [[text|]|] eqn:Hn; unfold mbind, M_bind, bind, mret, M_ret, ret;
    rewrite ?Hn; by rewrite ?(right_id_L ∅ (∪)).
Qed.

Lemma for_read_cleanup_file_run names current st :
  for_ names read_cleanup_file current st
  = (Return (foldl (λ acc name, acc ∪ varnames_in (fs st) name) current names), st).
Proof.
  revert current. induction names as [|name names IH]; intros current; [done|].
  cbn [for_ foldl]. unfold mbind, M_bind, bind.
  by rewrite read_cleanup_file_run, IH.
Qed.


Lemma for_remove_cleanup_file_run names st :
  NoDup names →
  Forall (λ n, is_cleanup_file (fs st) n) names →
  for_ names remove_cleanup_file tt st
  = (Return tt,
     {| fs := foldl (λ dir n, delete n dir) (fs st) names;
        trace := (reverse (removed_msg <$> names) ++ trace st)%list |}).
Proof.
  revert st. induction names as [|name names IH]; intros st Hnd Hall.
  - cbn. by destruct st.
  - inversion_clear Hnd as [|? ? Hname Hnd']. inversion_clear Hall as [|? ? Hf Hall'].
    cbn [for_ foldl]. unfold mbind at 1, M_bind at 1, bind at 1.
    unfold remove_cleanup_file at 1, remove.
    unfold is_cleanup_file in Hf. apply andb_True in Hf as [_ Hf].
    unfold mbind at 1, M_bind at 1, bind at 1.
    destruct (fs st !! name) as [[text|]|] eqn:Hn; try done.
    cbn [print_ok print].
    rewrite IH; cbn [fs trace].
    + rewrite fmap_cons, reverse_cons, <- !(assoc_L (++)). done.
    + done.
    + apply Forall_forall. intros n Hin.
      rewrite Forall_forall in Hall'. specialize (Hall' n Hin).
      unfold is_cleanup_file in *. rewrite lookup_delete_ne; [done|].
      intros ->. done.
Qed.

Lemma lookup_foldl_delete (dir : gmap string node) names n :
  foldl (λ dir n, delete n dir) dir names !! n
  = if decide (n ∈ names) then None else dir !! n.
Proof.
  revert dir. induction names as [|x names IH]; intros dir; cbn [foldl].
  - case_decide as H; [by apply elem_of_nil in H|done].
  - rewrite IH. destruct (decide (n ∈ names)) as [Hl|Hl].
    + by rewrite decide_True by (by right).
    + destruct (decide (x = n)) as [->|Hne].
      * rewrite decide_True by (by left). apply lookup_delete_eq.
      * rewrite decide_False by (intros [?|?]%elem_of_cons; congruence).
        by rewrite lookup_delete_ne.
Qed.

Lemma elem_of_cleanup_files_of dir name :
  name ∈ cleanup_files_of dir ↔ is_cleanup_file dir name.
Proof.
  unfold cleanup_files_of. rewrite list_elem_of_filter. split; [by intros [? _]|].
  intros H. split; [done|].
  unfold is_cleanup_file in H. apply andb_True in H as [_ H].
  destruct (dir !! name) as [x|] eqn:Hn; [|done].
  apply list_elem_of_fmap. exists (name, x). split; [done|].
  by apply elem_of_map_to_list.
Qed.

Lemma NoDup_cleanup_files_of dir : NoDup (cleanup_files_of dir).
Proof. apply NoDup_filter, NoDup_fst_map_to_list. Qed.

Lemma run_listdir {B} (k : list string → M B) st :
  (listdir ≫= k) st = k ((map_to_list (fs st)).*1) st.
Proof. done. Qed.

Lemma get_systemd_varnames_run popen st :
  returncode (popen (trace st) ["systemctl"; "--user"; "show-environment"] None None)
  = 0%Z →
  ∃ systemd_varnames,
    get_systemd_varnames popen st
    = (Return systemd_varnames,
       {| fs := fs st;
          trace := Popen ["systemctl"; "--user"; "show-environment"] None None
                   :: trace st |}).
Proof.
  intros Hrc. unfold get_systemd_varnames. rewrite run_wrap_process, Hrc.
  rewrite bool_decide_eq_true_2 by done. cbn [negb]. by eexists.
Qed.

(** With a supervisor that unsets, the block [if cleanup_varnames:]
    returns, touches no file, keeps the trace it found, and has asked to
    unset the names if there are any. *)
Lemma cleanup_env_unset_run popen cleanup_varnames st :
  (∀ tr names,
     returncode (popen tr (["systemctl"; "--user"; "unset-environment"] ++ names)%list
                   None None) = 0%Z) →
  ∃ st',
    cleanup_env_unset popen cleanup_varnames st = (Return tt, st')
    ∧ fs st' = fs st
    ∧ (∀ ev, ev ∈ trace st → ev ∈ trace st')
    ∧ (cleanup_varnames ≠ ∅ →
       Popen (["systemctl"; "--user"; "unset-environment"]
              ++ Py.sorted cleanup_varnames)%list None None ∈ trace st').
Proof.
  intros Hunset. unfold cleanup_env_unset. case_bool_decide as Hcv.
  - unfold print_normal, print_error. rewrite run_print, run_wrap_process.
    match goal with
    | |- context [print_outputs ?o ?e ≫= _] =>
        match goal with
        | |- ∃ _, _ ?st1 = _ ∧ _ =>
            destruct (print_outputs_run o e st1) as (p1 & Hp1 & _)
        end
    end.
    rewrite (run_bind _ _ _ _ _ Hp1). cbn [fs trace].
    match goal with
    | |- context [when ?c ?m ≫= _] =>
        assert (∃ p2, ∀ st0, when c m st0
                  = (Return tt, {| fs := fs st0; trace := p2 ++ trace st0 |}))
          as (p2 & Hp2)
    end.
    { unfold when. destruct (negb _).
      - by eexists [_].
      - exists []. by intros []. }
    rewrite (run_bind _ _ _ _ _ (Hp2 _)). cbn [fs trace].
    rewrite run_wrap_process. cbn [fs trace].
    match goal with
    | |- context [print_outputs ?o ?e ≫= _] =>
        match goal with
        | |- ∃ _, _ ?st1 = _ ∧ _ =>
            destruct (print_outputs_run o e st1) as (p3 & Hp3 & _)
        end
    end.
    rewrite (run_bind _ _ _ _ _ Hp3). cbn [fs trace].
    rewrite Hunset, bool_decide_eq_true_2 by done. cbn [negb].
    eexists. split; [reflexivity|]. cbn [fs trace]. split_and!; [done| |].
    + intros ev Hev. rewrite !elem_of_app, !elem_of_cons, !elem_of_app, !elem_of_cons.
      tauto.
    + intros _. rewrite elem_of_app, elem_of_cons. tauto.
  - exists st. by split_and!.
Qed.

(** ** [cleanup_env] *)

(** C2, as amended: without a ledger file in the runtime directory,
    [cleanup_env] prints the warning and leaves by [sys.exit(0)] at
    once: no process is spawned, so that no variable is removed. *)
Theorem C2_cleanup_without_ledger_exits
  (popen : list event → list string → option string
           → option (gmap string string) → completed)
  (st : state) :
  cleanup_files_of (fs st) = [] →
  cleanup_env popen st
  = (SysExit 0,
     {| fs := fs st; trace := Print Warning "No cleanup files found" :: trace st |}).
Proof.
  intros Hnone. unfold cleanup_env.
  rewrite run_listdir, (run_bind _ _ _ _ _ (for_find_cleanup_file_run _ _ _)).
  fold (cleanup_files_of (fs st)). rewrite Hnone. done.
Qed.

(** A run of the amended C2, in a directory that holds no ledger. *)
Lemma C2_cleanup_without_ledger_exits_witness :
  let st := {| fs := {["bus" := Dir]}; trace := [] |} in
  cleanup_env popen_supervisor st
  = (SysExit 0,
     {| fs := fs st; trace := Print Warning "No cleanup files found" :: trace st |}).
Proof.
  apply (C2_cleanup_without_ledger_exits popen_supervisor).
  vm_compute. reflexivity.
Defined.

(** C2 as stated fails: the supervisor holds [PATH] and [DISPLAY], names
    of [always_cleanup], there is no ledger, and yet nothing is asked
    of the supervisor. *)
Lemma C2_counterexample_nothing_removed :
  cleanup_files_of (fs empty_state) = []
  ∧ ({["PATH"; "DISPLAY"]} : gset string)
    ⊆ always_cleanup varnames ∖ never_cleanup varnames
  ∧ ∃ st', cleanup_env popen_supervisor empty_state = (SysExit 0, st')
           ∧ ∀ argv stdin env, Popen argv stdin env ∉ trace st'.
Proof.
  split_and!.
  - vm_compute. reflexivity.
  - apply (bool_decide_unpack _). vm_compute. exact I.
  - eexists. split; [vm_compute; reflexivity|].
    intros argv stdin env [H|H]%elem_of_cons; [discriminate|].
    by apply elem_of_nil in H.
Qed.





(** ** The handler of [prepare-env] *)

(** When [prepare_env] raises, the handler prints the exception and runs
    [cleanup_env]; whatever ends [cleanup_env] other than a return ends
    the handler. *)
Lemma aux_prepare_env_on_failure
  environ popen random_mark prepare_env_gen_sh wm_id st active st1 E st2 :
  is_active popen wm_id true st = (Return active, st1) →
  prepare_env environ popen random_mark prepare_env_gen_sh wm_id st1
  = (Raise E, st2) →
  aux_prepare_env environ popen random_mark prepare_env_gen_sh wm_id st
  = (cleanup_env popen;; sys_exit 1%Z)
      {| fs := fs st2; trace := Print Error E :: trace st2 |}.
Proof.
  intros Hactive Hprepare. unfold aux_prepare_env.
  rewrite (run_bind _ _ _ _ _ Hactive). unfold try_except.
  by rewrite (run_bind_raise _ _ _ _ _ Hprepare).
Qed.

(** So a failure of [prepare_env] that leaves no ledger file ends the
    process with status 0. *)
Lemma aux_prepare_env_failure_without_ledger
  environ popen random_mark prepare_env_gen_sh wm_id st active st1 E st2 :
  is_active popen wm_id true st = (Return active, st1) →
  prepare_env environ popen random_mark prepare_env_gen_sh wm_id st1
  = (Raise E, st2) →
  cleanup_files_of (fs st2) = [] →
  ∃ st', aux_prepare_env environ popen random_mark prepare_env_gen_sh wm_id st
         = (SysExit 0, st').
Proof.
  intros Hactive Hprepare Hnone.
  rewrite (aux_prepare_env_on_failure _ _ _ _ _ _ _ _ _ _ Hactive Hprepare).
  unfold cleanup_env at 1.
  rewrite run_bind_assoc, run_listdir, run_bind_assoc.
  rewrite (run_bind _ _ _ _ _ (for_find_cleanup_file_run _ _ _)).
  cbn [fs trace]. fold (cleanup_files_of (fs st2)). rewrite Hnone. by eexists.
Qed.

(** C3 fails on the code: the shell fails before it prints the mark and
    no ledger exists yet; the handler calls [cleanup_env], which finds
    no file and leaves by [sys.exit(0)], so that the [sys.exit(1)] of the
    handler is never reached and the process ends with status 0. *)
Theorem C3_failed_prepare_exits_zero :
  ∃ st',
    prepare_env environ_login popen_sh_fails mark0 gen_sh0 "sway" empty_state
    = (Raise "No env mark in shell output!",
       {| fs := ∅;
          trace := [Print Error "sh: 12: .: cannot open /etc/profile";
                    Popen ["sh"; "-"] (Some (gen_sh0 mark0)) None] |})
    ∧ aux_prepare_env environ_login popen_sh_fails mark0 gen_sh0 "sway" empty_state
      = (SysExit 0, st')
    ∧ exit_status (SysExit (A:=unit) 0) = Some 0%Z
    ∧ fs st' = ∅
    ∧ (Print Error "No env mark in shell output!" ∈ trace st')
    ∧ head (trace st') = Some (Print Warning "No cleanup files found").
Proof.
  eexists. split_and!.
  - vm_compute. reflexivity.
  - vm_compute. reflexivity.
  - reflexivity.
  - reflexivity.
  - cbn [trace]. rewrite !elem_of_cons. tauto.
  - reflexivity.
Qed.

(** ** [prepare_env] on an empty dump *)

(** Finds an event in a trace made of known events and unknown prints. *)
Ltac step_print_outputs :=
  match goal with
  | |- context [(print_outputs ?o ?e ≫= _) ?st1] =>
      let p := fresh "prints" in
      let Hp := fresh "Hprints" in
      destruct (print_outputs_run o e st1) as (p & Hp & _);
      rewrite (run_bind _ _ _ _ _ Hp); cbn [fs trace]
  end.







Lemma scripted_returncode script tr argv stdin env :
  Forall (λ e, returncode e.2 = 0%Z) script →
  returncode (scripted script tr argv stdin env) = 0%Z.
Proof.
  intros Hall. unfold scripted.
  destruct (list_find _ script) as [[i e]|] eqn:Hfind; [|done].
  apply list_find_Some in Hfind as (Hi & _ & _). cbn.
  rewrite Forall_forall in Hall. apply Hall. by eapply list_elem_of_lookup_2.
Qed.



(** * Further properties *)

(** ** Splitting and joining *)

Lemma split_cons (sep : ascii) (s : string) :
  ∃ piece pieces, Py.split sep s = piece :: pieces.
Proof.
  induction s as [|c r (piece & pieces & IH)]; [by eexists _, _|].
  cbn [Py.split]. rewrite IH. destruct (bool_decide (c = sep)); by eexists _, _.
Qed.

Lemma join_cons (sep piece piece' : string) (pieces : list string) :
  Py.join sep (piece :: piece' :: pieces)
  = piece +:+ sep +:+ Py.join sep (piece' :: pieces).
Proof. reflexivity. Qed.

Lemma join_cons_first (sep : string) (c : ascii) (piece : string) (pieces : list string) :
  Py.join sep (Py.cons_first c (piece :: pieces))
  = String c (Py.join sep (piece :: pieces)).
Proof. by destruct pieces. Qed.

Lemma join_split (sep : ascii) (s : string) :
  Py.join (String sep EmptyString) (Py.split sep s) = s.
Proof.
  induction s as [|c r IH]; [done|]. cbn [Py.split].
  destruct (split_cons sep r) as (piece & pieces & Hr). rewrite Hr in IH |- *.
  case_bool_decide as Hc.
  - subst c. by rewrite join_cons, IH.
  - by rewrite join_cons_first, IH.
Qed.

Lemma split_without (sep : ascii) (s : string) :
  Forall (λ piece, without (λ c, bool_decide (c = sep)) piece) (Py.split sep s).
Proof.
  induction s as [|c r IH]; [by repeat constructor|]. cbn [Py.split].
  case_bool_decide as Hc; [by constructor|].
  destruct IH as [|piece pieces Hpiece Hpieces]; cbn [Py.cons_first].
  - repeat constructor. cbn. by rewrite bool_decide_eq_false_2.
  - constructor; [|done]. cbn. by rewrite bool_decide_eq_false_2.
Qed.

(** X11: [sane_split] gives no piece for the empty string and at least
    one otherwise; no piece holds the delimiter; and joining the pieces
    with the delimiter gives the string back. *)
Theorem X11_sane_split_round_trip (s : string) (delimiter : ascii) :
  Py.join (String delimiter EmptyString) (sane_split s delimiter) = s
  ∧ (sane_split s delimiter = [] ↔ s = EmptyString)
  ∧ Forall (λ piece, without (λ c, bool_decide (c = delimiter)) piece)
      (sane_split s delimiter).
Proof.
  unfold sane_split. destruct s as [|c r]; [by repeat split|]. cbn [Py.truthy negb].
  split_and!.
  - apply join_split.
  - destruct (split_cons delimiter (String c r)) as (piece & pieces & ->).
    split; intros; discriminate.
  - apply split_without.
Qed.

(** ** The names of the supervisor *)

Lemma append_assoc (s t u : string) : (s +:+ t) +:+ u = s +:+ t +:+ u.
Proof. induction s as [|c r IH]; [done|]. by rewrite !append_cons, IH. Qed.

Lemma without_app p (s t : string) :
  without p (s +:+ t) = without p s && without p t.
Proof.
  induction s as [|c r IH]; [done|]. rewrite append_cons. cbn [without].
  by rewrite IH, andb_assoc.
Qed.

Lemma splitlines_first_line (line rest : string) :
  without Py.islinebreak line →
  Py.splitlines (line +:+ NL +:+ rest) = line :: Py.splitlines rest.
Proof.
  induction line as [|c r IH].
  - intros _. rewrite append_nil. unfold NL. rewrite append_cons, append_nil.
    by destruct rest.
  - rewrite append_cons. cbn [without Py.splitlines].
    destruct (Py.islinebreak c); [done|]. cbn [negb andb]. intros Hr.
    by rewrite IH.
Qed.

Lemma split_head (sep : ascii) (name rest : string) :
  without (λ c, bool_decide (c = sep)) name →
  hd EmptyString (Py.split sep (name +:+ String sep rest)) = name.
Proof.
  induction name as [|c r IH].
  - intros _. rewrite append_nil. cbn [Py.split].
    by rewrite bool_decide_eq_true_2.
  - rewrite append_cons. cbn [without Py.split].
    destruct (bool_decide (c = sep)); [done|]. cbn [negb andb]. intros Hr.
    specialize (IH Hr).
    destruct (Py.split sep (r +:+ String sep rest)) as [|piece pieces];
      cbn in *; by subst.
Qed.

Lemma split_hd_without (sep : ascii) (s : string) :
  without (λ c, bool_decide (c = sep)) (hd EmptyString (Py.split sep s)).
Proof.
  pose proof (split_without sep s) as H.
  destruct (Py.split sep s); [done|]. by inversion H.
Qed.

Lemma splitlines_show_environment (vars : list (string * string)) :
  Forall (λ kv, one_line_var kv) vars →
  (λ v, hd EmptyString (Py.split Py.EQUALS v)) <$> Py.splitlines (show_environment vars)
  = vars.*1.
Proof.
  induction vars as [|[name value] vars IH]; [done|].
  intros Hall. inversion_clear Hall as [|? ? Hkv Hvars].
  apply andb_True in Hkv as [[Hname Hnl]%andb_True Hvl]. cbn [fst snd] in *.
  cbn [show_environment foldr fst snd].
  change (foldr _ EmptyString vars) with (show_environment vars).
  replace (name +:+ "=" +:+ value +:+ NL +:+ show_environment vars)
    with ((name +:+ "=" +:+ value) +:+ NL +:+ show_environment vars).
  2:{ by rewrite !append_assoc. }
  rewrite splitlines_first_line.
  - rewrite fmap_cons, IH by done. cbn [fmap list_fmap fst]. f_equal.
    by apply (split_head Py.EQUALS name value).
  - rewrite !without_app, !andb_True. by split_and!.
Qed.

(** X9: [get_systemd_varnames] raises when [show-environment] returns
    non-zero. Otherwise it returns names that hold no [=]; and when the
    output is one [name=value] per line, it returns exactly the names
    of the variables. In every case the command is spawned once and no
    file is touched. *)
Theorem X9_get_systemd_varnames_reads_names
  (popen : list event → list string → option string
           → option (gmap string string) → completed)
  (st : state) :
  let r := popen (trace st) ["systemctl"; "--user"; "show-environment"] None None in
  let st' := {| fs := fs st;
                trace := Popen ["systemctl"; "--user"; "show-environment"] None None
                         :: trace st |} in
  (returncode r ≠ 0%Z → ∃ E, get_systemd_varnames popen st = (Raise E, st'))
  ∧ (returncode r = 0%Z →
     ∃ names,
       get_systemd_varnames popen st = (Return names, st')
       ∧ set_Forall (λ name, without (λ c, bool_decide (c = Py.EQUALS)) name) names)
  ∧ (∀ vars,
       returncode r = 0%Z →
       stdout r = show_environment vars →
       Forall (λ kv, one_line_var kv) vars →
       get_systemd_varnames popen st = (Return (list_to_set vars.*1), st')).
Proof.
  intros r st'. unfold get_systemd_varnames. rewrite run_wrap_process. fold r st'.
  split_and!.
  - intros Hrc. rewrite bool_decide_eq_false_2 by done. by eexists.
  - intros Hrc. rewrite bool_decide_eq_true_2 by done. eexists. split; [done|].
    intros name (v & -> & _)%elem_of_list_to_set%list_elem_of_fmap.
    apply split_hd_without.
  - intros vars Hrc Hout Hvars. rewrite bool_decide_eq_true_2 by done. cbn [negb].
    by rewrite Hout, splitlines_show_environment.
Qed.

(** A run of X9 on two variables, one with an [=] in its value. *)
Lemma X9_get_systemd_varnames_reads_names_witness :
  let popen :=
    scripted
      [ (["systemctl"; "--user"; "show-environment"],
         Completed (show_environment [("PATH", "/usr/bin"); ("LS_COLORS", "di=01")])
           EmptyString 0%Z) ] in
  get_systemd_varnames popen empty_state
  = (Return (list_to_set [("PATH", "/usr/bin"); ("LS_COLORS", "di=01")].*1),
     {| fs := ∅;
        trace := [Popen ["systemctl"; "--user"; "show-environment"] None None] |}).
Proof.
  intros popen.
  apply (X9_get_systemd_varnames_reads_names popen empty_state).
  - reflexivity.
  - reflexivity.
  - repeat constructor.
Defined.

(** ** The dump of the environment *)

Lemma split_first (sep : ascii) (piece rest : string) :
  without (λ c, bool_decide (c = sep)) piece →
  Py.split sep (piece +:+ String sep rest) = piece :: Py.split sep rest.
Proof.
  induction piece as [|c r IH].
  - intros _. rewrite append_nil. cbn [Py.split]. by rewrite bool_decide_eq_true_2.
  - rewrite append_cons. cbn [without Py.split].
    destruct (bool_decide (c = sep)); [done|]. cbn [negb andb]. intros Hr.
    by rewrite IH.
Qed.

Lemma split_one (sep : ascii) (piece : string) :
  without (λ c, bool_decide (c = sep)) piece → Py.split sep piece = [piece].
Proof.
  induction piece as [|c r IH]; [done|]. cbn [without Py.split].
  destruct (bool_decide (c = sep)); [done|]. cbn [negb andb]. intros Hr.
  by rewrite IH.
Qed.

Lemma split1_first (sep : ascii) (name value : string) :
  without (λ c, bool_decide (c = sep)) name →
  Py.split1 sep (name +:+ String sep value) = [name; value].
Proof.
  induction name as [|c r IH].
  - intros _. rewrite append_nil. cbn [Py.split1]. by rewrite bool_decide_eq_true_2.
  - rewrite append_cons. cbn [without Py.split1].
    destruct (bool_decide (c = sep)); [done|]. cbn [negb andb]. intros Hr.
    by rewrite IH.
Qed.

Lemma last_ok_app p (s t : string) :
  Py.truthy t → last_ok p t → last_ok p (s +:+ t).
Proof.
  intros Ht Hl. induction s as [|c r IH]; [done|]. rewrite append_cons.
  cbn [last_ok]. destruct (r +:+ t) eqn:Hrt; [|done].
  destruct r; [|done]. rewrite append_nil in Hrt. by subst.
Qed.

Lemma last_ok_without p (s : string) : without p s → last_ok p s.
Proof.
  induction s as [|c r IH]; [done|]. cbn [without last_ok].
  intros [Hc Hr]%andb_True. destruct r; [done|]. by apply IH.
Qed.

Lemma append_nil_r (s : string) : s +:+ EmptyString = s.
Proof. induction s as [|c r IH]; [done|]. by rewrite append_cons, IH. Qed.

Lemma env0_cons kv vars :
  env0 (kv :: vars) = env0_entry kv +:+ NUL0 +:+ env0 vars.
Proof. unfold env0_entry. cbn [env0 foldr]. by rewrite !append_assoc. Qed.

Lemma env0_join (kv : string * string) (vars : list (string * string)) :
  env0 (kv :: vars) = Py.join NUL0 (env0_entry <$> (kv :: vars)) +:+ NUL0.
Proof.
  revert kv. induction vars as [|kv' vars IH]; intros kv.
  - rewrite env0_cons. change (env0 []) with EmptyString.
    by rewrite append_nil_r.
  - rewrite env0_cons, IH. rewrite !fmap_cons, join_cons. by rewrite !append_assoc.
Qed.

Lemma env0_entry_last_ok kv :
  env0_var kv → last_ok (λ c, bool_decide (c = Py.NUL)) (env0_entry kv).
Proof.
  intros [_ Hv]%andb_True. unfold env0_entry.
  apply last_ok_app; [by destruct (kv.2)|].
  destruct (kv.2) as [|c r] eqn:Hkv; [done|].
  apply (last_ok_app _ "="); [done|]. by apply last_ok_without.
Qed.

Lemma env0_entry_without kv :
  env0_var kv → without (λ c, bool_decide (c = Py.NUL)) (env0_entry kv).
Proof.
  intros [[_ Hn]%andb_True Hv]%andb_True. unfold env0_entry.
  rewrite !without_app, !andb_True. by split_and!.
Qed.

Lemma env0_rstrip (kv : string * string) (vars : list (string * string)) :
  Forall (λ kv, env0_var kv) (kv :: vars) →
  Py.rstrip_nul (env0 (kv :: vars)) = Py.join NUL0 (env0_entry <$> (kv :: vars)).
Proof.
  intros Hall. rewrite env0_join. unfold Py.rstrip_nul, NUL0.
  rewrite rstrip_by_snoc by done. apply rstrip_by_id.
  revert kv Hall. induction vars as [|kv' vars IH]; intros kv Hall.
  - inversion_clear Hall. by apply env0_entry_last_ok.
  - inversion_clear Hall as [|? ? Hkv Hall']. rewrite !fmap_cons, join_cons.
    specialize (IH kv' Hall'). rewrite fmap_cons in IH.
    assert (Py.truthy (Py.join (String Py.NUL "") (env0_entry kv' :: (env0_entry <$> vars)))).
    { destruct vars; cbn; unfold env0_entry; by destruct (kv'.1). }
    apply last_ok_app; [|apply last_ok_app; done].
    by destruct (Py.join _ _).
Qed.

Lemma env0_split (vars : list (string * string)) :
  Forall (λ kv, env0_var kv) vars →
  vars ≠ [] →
  Py.split Py.NUL (Py.join NUL0 (env0_entry <$> vars)) = env0_entry <$> vars.
Proof.
  induction vars as [|kv vars IH]; [done|]. intros Hall _.
  inversion_clear Hall as [|? ? Hkv Hall'].
  destruct vars as [|kv' vars].
  - cbn. by apply split_one, env0_entry_without.
  - rewrite !fmap_cons, join_cons. unfold NUL0 at 1. rewrite append_cons, append_nil.
    rewrite split_first by (by apply env0_entry_without).
    f_equal. by apply IH.
Qed.

Lemma slice_from_app (s t : string) :
  Py.slice_from (String.length s) (s +:+ t) = t.
Proof.
  unfold Py.slice_from. induction s as [|c r IH].
  - rewrite append_nil. cbn [String.length]. rewrite Nat.sub_0_r.
    induction t as [|c t IHt]; [done|]. cbn. by rewrite IHt.
  - rewrite append_cons. cbn [String.length]. cbn [substring Nat.sub]. apply IH.
Qed.

Lemma length_append (s t : string) :
  String.length (s +:+ t) = String.length s + String.length t.
Proof. induction s as [|c r IH]; [done|]. rewrite append_cons. cbn. by rewrite IH. Qed.

Lemma for_parse_env_entries (vars : list (string * string)) env_post st :
  Forall (λ kv, env0_var kv) vars →
  for_ (env0_entry <$> vars) parse_env env_post st
  = (Return (foldl (λ d kv, <[kv.1 := kv.2]> d) env_post vars), st).
Proof.
  revert env_post. induction vars as [|kv vars IH]; intros env_post Hall; [done|].
  inversion_clear Hall as [|? ? Hkv Hall'].
  apply andb_True in Hkv as [[[_ Hname]%andb_True _]%andb_True _].
  rewrite fmap_cons. cbn [for_ foldl].
  assert (parse_env env_post (env0_entry kv) st
          = (Return (<[kv.1 := kv.2]> env_post), st)) as Hparse.
  { unfold parse_env, env0_entry.
    change ("=" +:+ kv.2) with (String Py.EQUALS (kv.2)).
    by rewrite split1_first. }
  rewrite (run_bind _ _ _ _ _ Hparse). by apply IH.
Qed.

(** X2: the dump that comes back from [env -0] after the mark for a
    non-empty list of variables, each without CR, with a name without
    [=] and NUL and a value without NUL, is cut right after the mark
    into one entry per variable, and the loop of [prepare_env] reads it
    back as the dictionary of these variables, without a message. *)
Theorem X2_env_dump_round_trip
  (random_mark msg : string) (vars : list (string * string)) (st : state) :
  vars ≠ [] →
  Forall (λ kv, env0_var kv) vars →
  dump_entries random_mark (String.length msg) (msg +:+ random_mark +:+ env0 vars)
  = (λ kv, kv.1 +:+ "=" +:+ kv.2) <$> vars
  ∧ for_ (dump_entries random_mark (String.length msg)
            (msg +:+ random_mark +:+ env0 vars)) parse_env ∅ st
    = (Return (dict vars), st).
Proof.
  intros Hne Hall.
  assert (dump_entries random_mark (String.length msg)
            (msg +:+ random_mark +:+ env0 vars) = env0_entry <$> vars) as Hdump.
  { unfold dump_entries. rewrite <- length_append, <- append_assoc, slice_from_app.
    destruct vars as [|kv vars]; [done|].
    rewrite env0_rstrip by done. by apply env0_split. }
  split; [done|]. rewrite Hdump. by apply for_parse_env_entries.
Qed.

(** A run of X2: an empty value, a value that holds [=], and a name
    given twice. *)
Lemma X2_env_dump_round_trip_witness :
  let vars := [("PATH", "/usr/bin"); ("EMPTY", ""); ("LS_COLORS", "di=01");
               ("PATH", "/bin")] in
  dump_entries mark0 7 ("Loading" +:+ mark0 +:+ env0 vars)
  = (λ kv, kv.1 +:+ "=" +:+ kv.2) <$> vars
  ∧ for_ (dump_entries mark0 7 ("Loading" +:+ mark0 +:+ env0 vars)) parse_env ∅
      empty_state
    = (Return (dict vars), empty_state).
Proof.
  intros vars.
  apply (X2_env_dump_round_trip mark0 "Loading" vars empty_state).
  - discriminate.
  - repeat constructor.
Defined.

(** ** What computations keep *)

Lemma keeps_bind {A B} (R : state → state → Prop) `{!Transitive R}
  (m : M A) (k : A → M B) :
  keeps R m → (∀ a, keeps R (k a)) → keeps R (m ≫= k).
Proof.
  intros Hm Hk st o st'. unfold mbind, M_bind, bind.
  destruct (m st) as [[a|E|code|argv] st1] eqn:Hmst; specialize (Hm _ _ _ Hmst).
  - intros Hkst. specialize (Hk _ _ _ _ Hkst). by etrans.
  - by intros [= <- <-].
  - by intros [= <- <-].
  - by intros [= <- <-].
Qed.

Lemma keeps_pure {A} (R : state → state → Prop) `{!Reflexive R} (m : M A) :
  (∀ st, ∃ o, m st = (o, st)) → keeps R m.
Proof.
  intros Hm st o st' Hst. destruct (Hm st) as [o' Ho].
  rewrite Ho in Hst. by injection Hst as <- <-.
Qed.

Lemma keeps_for {A S} (R : state → state → Prop) `{!PreOrder R}
  (l : list A) (body : S → A → M S) (s : S) :
  (∀ s x, x ∈ l → keeps R (body s x)) → keeps R (for_ l body s).
Proof.
  revert s. induction l as [|x l IH]; intros s Hbody.
  - intros st o st' [= <- <-]. done.
  - cbn [for_]. apply keeps_bind; [apply _| |].
    + apply Hbody. by left.
    + intros s'. apply IH. intros s'' y Hy. apply Hbody. by right.
Qed.

Lemma keeps_if {A} (R : state → state → Prop) (b : bool) (m1 m2 : M A) :
  keeps R m1 → keeps R m2 → keeps R (if b then m1 else m2).
Proof. by destruct b. Qed.

Global Instance same_files_preorder : PreOrder same_files.
Proof. split; [done|]. intros st1 st2 st3. unfold same_files. congruence. Qed.

Global Instance same_exports_preorder : PreOrder same_exports.
Proof. split; [done|]. intros st1 st2 st3. unfold same_exports. congruence. Qed.

Global Instance only_ledgers_removed_preorder : PreOrder only_ledgers_removed.
Proof.
  split; [by left|]. intros st1 st2 st3 H12 H23 name.
  destruct (H23 name) as [H|[H Hfile]]; [rewrite H; apply (H12 name)|].
  right. split; [done|]. unfold is_cleanup_file in *.
  destruct (H12 name) as [H'|[H' _]]; [by rewrite <- H'|].
  rewrite H' in Hfile. by rewrite andb_false_r in Hfile.
Qed.

Lemma same_files_only_ledgers_removed st st' :
  same_files st st' → only_ledgers_removed st st'.
Proof. intros H name. left. by rewrite H. Qed.

Lemma keeps_weaken {A} (R R' : state → state → Prop) (m : M A) :
  (∀ st st', R st st' → R' st st') → keeps R m → keeps R' m.
Proof. intros HR Hm st o st' Hst. by eapply HR, Hm. Qed.

(** *** The primitives *)

Lemma ret_keeps {A} (R : state → state → Prop) `{!Reflexive R} (a : A) :
  keeps R (mret a).
Proof. intros st o st' [= <- <-]. done. Qed.

Lemma raise_keeps {A} (R : state → state → Prop) `{!Reflexive R} E :
  keeps R (raise (A:=A) E).
Proof. intros st o st' [= <- <-]. done. Qed.

Lemma sys_exit_keeps {A} (R : state → state → Prop) `{!Reflexive R} code :
  keeps R (sys_exit (A:=A) code).
Proof. intros st o st' [= <- <-]. done. Qed.

Lemma execlp_keeps {A} (R : state → state → Prop) `{!Reflexive R} argv :
  keeps R (execlp (A:=A) argv).
Proof. intros st o st' [= <- <-]. done. Qed.

Lemma print_same_files to msg : keeps same_files (print to msg).
Proof. by intros st o st' [= <- <-]. Qed.

Lemma print_same_exports to msg : keeps same_exports (print to msg).
Proof. by intros st o st' [= <- <-]. Qed.

Lemma wrap_process_same_files popen argv stdin env :
  keeps same_files (wrap_process popen argv stdin env).
Proof. by intros st o st' [= <- <-]. Qed.

Lemma wrap_process_same_exports popen argv stdin env :
  is_export (Popen argv stdin env) = false →
  keeps same_exports (wrap_process popen argv stdin env).
Proof.
  intros Hex st o st' [= <- <-]. unfold same_exports, exports. cbn [trace].
  by rewrite filter_cons_False by (rewrite Hex; exact id).
Qed.

Lemma isfile_keeps (R : state → state → Prop) `{!Reflexive R} name :
  keeps R (isfile name).
Proof. by intros st o st' [= <- <-]. Qed.

Lemma listdir_keeps (R : state → state → Prop) `{!Reflexive R} :
  keeps R listdir.
Proof. by intros st o st' [= <- <-]. Qed.

Lemma read_text_keeps (R : state → state → Prop) `{!Reflexive R} name :
  keeps R (read_text name).
Proof.
  intros st o st'. unfold read_text.
  destruct (fs st !! name) as [[]|]; by intros [= <- <-].
Qed.

Lemma when_keeps (R : state → state → Prop) `{!Reflexive R} b m :
  keeps R m → keeps R (when b m).
Proof. intros Hm. unfold when. destruct b; [done|]. by apply ret_keeps. Qed.

Lemma print_outputs_same_files out err : keeps same_files (print_outputs out err).
Proof.
  unfold print_outputs. apply keeps_bind; [apply _| |intros _];
    apply when_keeps; try apply _; apply print_same_files.
Qed.

Lemma print_outputs_same_exports out err : keeps same_exports (print_outputs out err).
Proof.
  unfold print_outputs. apply keeps_bind; [apply _| |intros _];
    apply when_keeps; try apply _; apply print_same_exports.
Qed.

(** ** Computations that return or raise *)

Lemma returns_or_raises_bind {A B} (m : M A) (k : A → M B) :
  returns_or_raises m → (∀ a, returns_or_raises (k a)) → returns_or_raises (m ≫= k).
Proof.
  intros Hm Hk st o st'. unfold mbind, M_bind, bind.
  destruct (m st) as [[a|E|code|argv] st1] eqn:Hmst; specialize (Hm _ _ _ Hmst);
    try done.
  - apply Hk.
  - by intros [= <- <-].
Qed.

Lemma returns_or_raises_for {A S} (l : list A) (body : S → A → M S) (s : S) :
  (∀ s x, returns_or_raises (body s x)) → returns_or_raises (for_ l body s).
Proof.
  intros Hbody. revert s. induction l as [|x l IH]; intros s.
  - by intros st o st' [= <- <-].
  - cbn [for_]. by apply returns_or_raises_bind.
Qed.

Lemma ret_returns {A} (a : A) : returns_or_raises (mret a).
Proof. by intros st o st' [= <- <-]. Qed.

Lemma raise_raises {A} E : returns_or_raises (raise (A:=A) E).
Proof. by intros st o st' [= <- <-]. Qed.

Lemma print_returns to msg : returns_or_raises (print to msg).
Proof. by intros st o st' [= <- <-]. Qed.

Lemma wrap_process_returns popen argv stdin env :
  returns_or_raises (wrap_process popen argv stdin env).
Proof. by intros st o st' [= <- <-]. Qed.

Lemma isfile_returns name : returns_or_raises (isfile name).
Proof. by intros st o st' [= <- <-]. Qed.

Lemma read_text_returns name : returns_or_raises (read_text name).
Proof.
  intros st o st'. unfold read_text.
  destruct (fs st !! name) as [[]|]; by intros [= <- <-].
Qed.

Lemma write_text_returns name content : returns_or_raises (write_text name content).
Proof.
  intros st o st'. unfold write_text.
  destruct (fs st !! name) as [[]|]; by intros [= <- <-].
Qed.

Lemma when_returns b m : returns_or_raises m → returns_or_raises (when b m).
Proof. intros Hm. unfold when. destruct b; [done|]. apply ret_returns. Qed.

Lemma print_outputs_returns out err : returns_or_raises (print_outputs out err).
Proof.
  unfold print_outputs. apply returns_or_raises_bind; [|intros _];
    apply when_returns, print_returns.
Qed.

(** Takes a computation apart, down to the primitives. *)
Ltac returns_or_raises :=
  repeat first
    [ apply ret_returns
    | apply raise_raises
    | apply print_returns
    | apply print_outputs_returns
    | apply wrap_process_returns
    | apply isfile_returns
    | apply read_text_returns
    | apply write_text_returns
    | apply when_returns
    | apply returns_or_raises_for; intros ? ?
    | apply returns_or_raises_bind; [|intros ?]
    | match goal with
      | |- returns_or_raises (if ?b then _ else _) => destruct b
      | |- returns_or_raises (match ?x with _ => _ end) => destruct x
      end ].

Lemma is_active_returns popen check_wm_id verbose :
  returns_or_raises (is_active popen check_wm_id verbose).
Proof. unfold is_active, print_normal, print_error. returns_or_raises. Qed.

Lemma get_systemd_varnames_returns popen :
  returns_or_raises (get_systemd_varnames popen).
Proof. unfold get_systemd_varnames. returns_or_raises. Qed.

Lemma get_active_wm_id_returns popen : returns_or_raises (get_active_wm_id popen).
Proof. unfold get_active_wm_id. returns_or_raises. Qed.

Lemma existing_cleanup_varnames_returns cleanup_file :
  returns_or_raises (existing_cleanup_varnames cleanup_file).
Proof. unfold existing_cleanup_varnames. returns_or_raises. Qed.

Lemma write_cleanup_file_returns wm_id cleanup_varnames :
  returns_or_raises (write_cleanup_file wm_id cleanup_varnames).
Proof.
  unfold write_cleanup_file. apply returns_or_raises_bind; [|intros ?].
  - apply existing_cleanup_varnames_returns.
  - apply write_text_returns.
Qed.

Lemma parse_env_returns env_post env : returns_or_raises (parse_env env_post env).
Proof. unfold parse_env, print_error. returns_or_raises. Qed.

Lemma prepare_env_returns environ popen random_mark prepare_env_gen_sh wm_id :
  returns_or_raises (prepare_env environ popen random_mark prepare_env_gen_sh wm_id).
Proof.
  unfold prepare_env, print_normal.
  repeat first
    [ apply parse_env_returns
    | apply get_systemd_varnames_returns
    | apply write_cleanup_file_returns
    | progress returns_or_raises ].
Qed.

(** ** How [cleanup_env] ends *)

Lemma run_bind_execed {A B} (m : M A) (k : A → M B) st argv st' :
  m st = (Execed argv, st') → (m ≫= k) st = (Execed argv, st').
Proof. intros H. unfold mbind, M_bind, bind. by rewrite H. Qed.

Lemma get_systemd_varnames_same_files popen :
  keeps same_files (get_systemd_varnames popen).
Proof.
  unfold get_systemd_varnames. apply keeps_bind; [apply _| |intros r].
  - apply wrap_process_same_files.
  - destruct (negb _); [by apply raise_keeps|by apply ret_keeps].
Qed.

Lemma cleanup_env_unset_same_files popen cleanup_varnames :
  keeps same_files (cleanup_env_unset popen cleanup_varnames).
Proof.
  unfold cleanup_env_unset, print_normal, print_error.
  repeat first
    [ apply print_same_files
    | apply print_outputs_same_files
    | apply wrap_process_same_files
    | apply ret_keeps; apply _
    | apply raise_keeps; apply _
    | apply when_keeps; [apply _|]
    | apply keeps_bind; [apply _| |intros ?]
    | match goal with
      | |- keeps _ (if ?b then _ else _) => destruct b
      end ].
Qed.

Lemma cleanup_env_unset_returns popen cleanup_varnames :
  returns_or_raises (cleanup_env_unset popen cleanup_varnames).
Proof. unfold cleanup_env_unset, print_normal, print_error. returns_or_raises. Qed.

(** [cleanup_env] removes the ledgers at its very end: either it returns
    and exactly the ledger files are gone, or it raises or leaves by
    [sys.exit(0)] and the runtime directory is as it was. *)
Lemma cleanup_env_outcome popen st o st' :
  cleanup_env popen st = (o, st') →
  (o = Return tt
   ∧ cleanup_files_of (fs st) ≠ []
   ∧ ∀ name, fs st' !! name
             = if is_cleanup_file (fs st) name then None else fs st !! name)
  ∨ (((∃ E, o = Raise E) ∨ (o = SysExit 0 ∧ cleanup_files_of (fs st) = []))
     ∧ fs st' = fs st).
Proof.
  unfold cleanup_env.
  rewrite run_listdir, (run_bind _ _ _ _ _ (for_find_cleanup_file_run _ _ _)).
  fold (cleanup_files_of (fs st)). rewrite app_nil_l.
  pose proof (NoDup_cleanup_files_of (fs st)) as Hnd.
  assert (Hall : ∀ n, n ∈ cleanup_files_of (fs st) ↔ is_cleanup_file (fs st) n)
    by apply elem_of_cleanup_files_of.
  destruct (cleanup_files_of (fs st)) as [|f files] eqn:Hfiles.
  { intros [= <- <-]. right. split; [|done]. right. done. }
  set (cleanup_files := f :: files) in *.
  rewrite (run_bind _ _ _ _ _ (for_read_cleanup_file_run _ _ _)). cbn [fs trace].
  match goal with
  | |- (get_systemd_varnames _ ≫= _) ?st1 = _ → _ =>
      destruct (get_systemd_varnames popen st1) as [o1 st2] eqn:Hsv;
      pose proof (get_systemd_varnames_same_files _ _ _ _ Hsv) as Hfs2;
      pose proof (get_systemd_varnames_returns _ _ _ _ Hsv) as Ho1
  end.
  unfold same_files in Hfs2. cbn [fs] in Hfs2.
  destruct o1 as [sv|E| |]; try done.
  2:{ rewrite (run_bind_raise _ _ _ _ _ Hsv). intros [= <- <-].
      right. split; [|done]. left. by eexists. }
  rewrite (run_bind _ _ _ _ _ Hsv).
  match goal with
  | |- (cleanup_env_unset _ ?cv ≫= _) _ = _ → _ =>
      destruct (cleanup_env_unset popen cv st2) as [o2 st3] eqn:Hunset;
      pose proof (cleanup_env_unset_same_files _ _ _ _ _ Hunset) as Hfs3;
      pose proof (cleanup_env_unset_returns _ _ _ _ _ Hunset) as Ho2
  end.
  unfold same_files in Hfs3. rewrite Hfs2 in Hfs3.
  destruct o2 as [[]|E| |]; try done.
  2:{ rewrite (run_bind_raise _ _ _ _ _ Hunset). intros [= <- <-].
      right. split; [|done]. left. by eexists. }
  rewrite (run_bind _ _ _ _ _ Hunset).
  rewrite for_remove_cleanup_file_run; [|done|].
  2:{ apply Forall_forall. intros n Hn. rewrite Hfs3. by apply Hall. }
  assert (Hlookup : ∀ name,
            foldl (λ dir n, delete n dir) (fs st) cleanup_files !! name
            = if is_cleanup_file (fs st) name then None else fs st !! name).
  { intros name. rewrite lookup_foldl_delete.
    destruct (is_cleanup_file (fs st) name) eqn:Hn.
    - rewrite decide_True; [done|]. apply Hall. by rewrite Hn.
    - rewrite decide_False; [done|]. rewrite Hall, Hn. exact id. }
  intros [= <- <-]. left. split_and!; [done..|]. by rewrite Hfs3.
Qed.

(** X8: however [cleanup_env] ends, it adds no file and changes none: an
    entry of the runtime directory is as it was, or it was a ledger file
    and is gone. The ledgers go only when [cleanup_env] returns, and
    then all of them; when it raises or leaves by [sys.exit], the
    directory is as it was. *)
Theorem X8_cleanup_env_only_removes_ledgers
  (popen : list event → list string → option string
           → option (gmap string string) → completed)
  (st : state) (o : outcome unit) (st' : state) :
  cleanup_env popen st = (o, st') →
  only_ledgers_removed st st'
  ∧ (o = Return tt → cleanup_files_of (fs st') = [])
  ∧ (o ≠ Return tt → fs st' = fs st).
Proof.
  intros [(-> & _ & Hfs)|(Ho & Hfs)]%cleanup_env_outcome.
  - split_and!; [|intros _|done].
    + intros name. rewrite Hfs. destruct (is_cleanup_file (fs st) name) eqn:Hn.
      * by right.
      * by left.
    + destruct (cleanup_files_of (fs st')) as [|name l] eqn:Hl; [done|].
      assert (name ∈ cleanup_files_of (fs st')) as Hin%elem_of_cleanup_files_of
        by (rewrite Hl; by left).
      unfold is_cleanup_file in Hin. rewrite Hfs in Hin.
      apply andb_True in Hin as [Hpre Hfile]. unfold is_cleanup_file in Hfile.
      destruct (Py.startswith _ name); [|done]. cbn [andb] in Hfile.
      by destruct (fs st !! name) as [[]|].
  - split_and!; [by apply same_files_only_ledgers_removed|..|done].
    intros ->. by destruct Ho as [[E ?]|[? _]].
Qed.

(** A run of X8 that returns, and one that raises. *)
Lemma X8_cleanup_env_only_removes_ledgers_witness :
  (∃ st', only_ledgers_removed two_ledgers st'
          ∧ (Return tt = Return tt → cleanup_files_of (fs st') = [])
          ∧ (Return tt ≠ Return tt → fs st' = fs two_ledgers))
  ∧ (∃ E st', only_ledgers_removed two_ledgers st'
              ∧ (Raise E = Return tt → cleanup_files_of (fs st') = [])
              ∧ (Raise E ≠ Return tt → fs st' = fs two_ledgers)).
Proof.
  split.
  - eexists.
    apply (X8_cleanup_env_only_removes_ledgers popen_supervisor two_ledgers).
    vm_compute. reflexivity.
  - eexists _, _.
    apply (X8_cleanup_env_only_removes_ledgers popen_unset_fails two_ledgers).
    vm_compute. reflexivity.
Defined.

(** ** The exit status of the [aux] handlers *)

Lemma cleanup_env_then_exit popen code st o st' :
  ((cleanup_env popen;; sys_exit code) : M unit) st = (o, st') →
  (o = SysExit code ∧ cleanup_files_of (fs st) ≠ [])
  ∨ (∃ E, o = Raise E)
  ∨ (o = SysExit 0 ∧ cleanup_files_of (fs st) = []).
Proof.
  destruct (cleanup_env popen st) as [o1 st1] eqn:Hclean.
  destruct (cleanup_env_outcome _ _ _ _ Hclean)
    as [(-> & Hsome & _)|([[E ->]|[-> Hnone]] & _)].
  - rewrite (run_bind _ _ _ _ _ Hclean). intros [= <- <-]. by left.
  - rewrite (run_bind_raise _ _ _ _ _ Hclean). intros [= <- <-]. right. left.
    by eexists.
  - rewrite (run_bind_exit _ _ _ _ _ Hclean). intros [= <- <-]. by right; right.
Qed.

(** X7: however they end, the handlers of [prepare-env] and of
    [cleanup-env] end the process with status 0 or 1: they never return
    to the main block and never replace the process. *)
Theorem X7_aux_handlers_exit_status
  (environ : gmap string string)
  (popen : list event → list string → option string
           → option (gmap string string) → completed)
  (random_mark : string) (prepare_env_gen_sh : string → string)
  (wm_id : string) (st : state) :
  (∀ o st',
     aux_prepare_env environ popen random_mark prepare_env_gen_sh wm_id st = (o, st') →
     (exit_status o = Some 0%Z ∨ exit_status o = Some 1%Z) ∧ ∀ a, o ≠ Return a)
  ∧ (∀ o st',
       aux_cleanup_env popen st = (o, st') →
       (exit_status o = Some 0%Z ∨ exit_status o = Some 1%Z) ∧ ∀ a, o ≠ Return a).
Proof.
  split; intros o st'.
  - unfold aux_prepare_env.
    destruct (is_active popen wm_id true st) as [o1 st1] eqn:Hactive.
    pose proof (is_active_returns _ _ _ _ _ _ Hactive) as Ho1.
    destruct o1 as [active|E| |]; try done.
    2:{ rewrite (run_bind_raise _ _ _ _ _ Hactive). intros [= <- <-].
        split; [by right|done]. }
    rewrite (run_bind _ _ _ _ _ Hactive). unfold try_except.
    destruct (prepare_env environ popen random_mark prepare_env_gen_sh wm_id st1)
      as [o2 st2] eqn:Hprepare.
    pose proof (prepare_env_returns _ _ _ _ _ _ _ _ Hprepare) as Ho2.
    destruct o2 as [[]|E| |]; try done.
    + rewrite (run_bind _ _ _ _ _ Hprepare). intros [= <- <-]. split; [by left|done].
    + rewrite (run_bind_raise _ _ _ _ _ Hprepare).
      unfold print_error. rewrite run_print.
      intros [[-> _]|[[E' ->]|[-> _]]]%cleanup_env_then_exit;
        (split; [|done]); [by right|by right|by left].
  - unfold aux_cleanup_env.
    destruct (is_active popen EmptyString true st) as [o1 st1] eqn:Hactive.
    pose proof (is_active_returns _ _ _ _ _ _ Hactive) as Ho1.
    destruct o1 as [active|E| |]; try done.
    2:{ rewrite (run_bind_raise _ _ _ _ _ Hactive). intros [= <- <-].
        split; [by right|done]. }
    rewrite (run_bind _ _ _ _ _ Hactive). destruct active.
    { intros [= <- <-]. split; [by right|done]. }
    unfold try_except.
    destruct (((cleanup_env popen;; sys_exit 0%Z) : M unit) st1) as [o2 st2] eqn:Hclean.
    apply cleanup_env_then_exit in Hclean as [[-> _]|[[E' ->]|[-> _]]].
    + intros [= <- <-]. split; [by left|done].
    + unfold print_error. rewrite run_print. intros [= <- <-]. split; [by right|done].
    + intros [= <- <-]. split; [by left|done].
Qed.

(** A run of X7: a [prepare-env] whose import fails, and a
    [cleanup-env] whose unset fails. *)
Lemma X7_aux_handlers_exit_status_witness :
  (∃ o,
     (exit_status (A:=unit) o = Some 0%Z ∨ exit_status o = Some 1%Z)
     ∧ ∀ a, o ≠ Return a)
  ∧ (∃ o,
       (exit_status (A:=unit) o = Some 0%Z ∨ exit_status o = Some 1%Z)
       ∧ ∀ a, o ≠ Return a).
Proof.
  split.
  - eexists.
    eapply (proj1 (X7_aux_handlers_exit_status
                     environ_login popen_import_fails mark0 gen_sh0 "sway"
                     empty_state)).
    vm_compute. reflexivity.
  - eexists.
    eapply (proj2 (X7_aux_handlers_exit_status
                     environ_login popen_unset_fails mark0 gen_sh0 "sway"
                     two_ledgers)).
    vm_compute. reflexivity.
Defined.

(** ** [prepare_env] and the runtime directory *)

Global Instance only_writes_preorder file : PreOrder (only_writes file).
Proof.
  split; [by left|]. intros st1 st2 st3 H12 H23 name.
  destruct (H23 name) as [H|[-> [text H]]]; [|right; eauto].
  rewrite H. apply (H12 name).
Qed.

Lemma same_files_only_writes file st st' : same_files st st' → only_writes file st st'.
Proof. intros H name. left. by rewrite H. Qed.

Lemma write_text_only_writes file content : keeps (only_writes file) (write_text file content).
Proof.
  intros st o st'. unfold write_text.
  destruct (fs st !! file) as [[]|] eqn:Hfile; intros [= <- <-]; try done;
    intros name; cbn [fs]; (destruct (decide (name = file)) as [->|Hne];
      [right; split; [done|]; rewrite lookup_insert_eq; by eexists
      |left; by rewrite lookup_insert_ne]).
Qed.

(** Shows that a computation made of prints, processes and reads keeps
    the runtime directory as it is. *)
Ltac same_files :=
  repeat first
    [ apply print_same_files
    | apply print_outputs_same_files
    | apply wrap_process_same_files
    | apply ret_keeps; apply _
    | apply raise_keeps; apply _
    | apply sys_exit_keeps; apply _
    | apply execlp_keeps; apply _
    | apply isfile_keeps; apply _
    | apply read_text_keeps; apply _
    | apply when_keeps; [apply _|]
    | apply keeps_for; [apply _|intros ? ? ?]
    | apply keeps_bind; [apply _| |intros ?]
    | match goal with
      | |- keeps _ (if ?b then _ else _) => destruct b
      | |- keeps _ (match ?x with _ => _ end) => destruct x
      end ].

Lemma parse_env_same_files env_post env : keeps same_files (parse_env env_post env).
Proof. unfold parse_env, print_error. same_files. Qed.

Lemma existing_cleanup_varnames_same_files cleanup_file :
  keeps same_files (existing_cleanup_varnames cleanup_file).
Proof. unfold existing_cleanup_varnames. same_files. Qed.

Lemma write_cleanup_file_only_writes wm_id cleanup_varnames :
  keeps (only_writes (cleanup_file_of wm_id)) (write_cleanup_file wm_id cleanup_varnames).
Proof.
  unfold write_cleanup_file. apply keeps_bind; [apply _| |intros ?].
  - eapply keeps_weaken; [apply same_files_only_writes|].
    apply existing_cleanup_varnames_same_files.
  - apply write_text_only_writes.
Qed.

(** X5: however [prepare_env] ends, the only entry of the runtime
    directory it may have created or rewritten is the ledger file of
    its window manager, which then holds a text; every other entry is
    as it was and nothing is removed. *)
Theorem X5_prepare_env_writes_only_its_ledger
  (environ : gmap string string)
  (popen : list event → list string → option string
           → option (gmap string string) → completed)
  (random_mark : string) (prepare_env_gen_sh : string → string)
  (wm_id : string) (st : state) (o : outcome unit) (st' : state) :
  prepare_env environ popen random_mark prepare_env_gen_sh wm_id st = (o, st') →
  ∀ name,
    fs st' !! name = fs st !! name
    ∨ (name = cleanup_file_of wm_id ∧ ∃ text, fs st' !! name = Some (File text)).
Proof.
  revert st o st'.
  change (keeps (only_writes (cleanup_file_of wm_id))
            (prepare_env environ popen random_mark prepare_env_gen_sh wm_id)).
  unfold prepare_env, print_normal.
  repeat first
    [ apply write_cleanup_file_only_writes
    | apply keeps_bind; [apply _| |intros ?]
    | match goal with
      | |- keeps _ (if ?b then _ else _) => destruct b
      | |- keeps _ (match ?x with _ => _ end) => destruct x
      end
    | (eapply keeps_weaken; [apply same_files_only_writes|];
       first [ apply get_systemd_varnames_same_files
             | apply keeps_for; [apply _|intros ? ? ?; apply parse_env_same_files]
             | progress same_files ]) ].
Qed.

(** A run of X5 beside the ledger of another window manager. *)
Lemma X5_prepare_env_writes_only_its_ledger_witness :
  ∃ st',
    ∀ name,
      fs st' !! name = fs two_ledgers !! name
      ∨ (name = cleanup_file_of "river" ∧ ∃ text, fs st' !! name = Some (File text)).
Proof.
  eexists.
  apply (X5_prepare_env_writes_only_its_ledger
           environ_login popen_ssh_agent mark0 gen_sh0 "river" two_ledgers (Return tt)).
  vm_compute. reflexivity.
Defined.

(** ** The runs of [prepare_env] *)

Lemma for_parse_env_run entries env_post st :
  ∃ errors,
    for_ entries parse_env env_post st
    = (Return (foldl (λ env_post env,
                        match Py.split1 Py.EQUALS env with
                        | [name; value] => <[name := value]> env_post
                        | _ => env_post
                        end) env_post entries),
       {| fs := fs st; trace := errors ++ trace st |})
    ∧ exports errors = [].
Proof.
  revert env_post st. induction entries as [|env entries IH]; intros env_post st.
  - exists []. by destruct st.
  - cbn [for_ foldl].
    assert (∃ error,
              parse_env env_post env st
              = (Return (match Py.split1 Py.EQUALS env with
                         | [name; value] => <[name := value]> env_post
                         | _ => env_post
                         end),
                 {| fs := fs st; trace := error ++ trace st |})
              ∧ exports error = []) as (error & Hparse & Herror).
    { unfold parse_env.
      destruct (Py.split1 Py.EQUALS env) as [|a [|b [|c l]]];
        first [ by eexists [_] | exists []; by destruct st ]. }
    rewrite (run_bind _ _ _ _ _ Hparse).
    destruct (IH (match Py.split1 Py.EQUALS env with
                  | [name; value] => <[name := value]> env_post
                  | _ => env_post
                  end) {| fs := fs st; trace := error ++ trace st |})
      as (errors & -> & Herrors).
    exists (errors ++ error)%list. cbn [fs trace]. split.
    + by rewrite <- (assoc_L (++)).
    + by rewrite exports_app, Herrors, Herror.
Qed.

(** Steps over [print_outputs], keeping that it exports nothing. *)
Ltac step_print_outputs_exports :=
  match goal with
  | |- context [(print_outputs ?o ?e ≫= _) ?st1] =>
      let p := fresh "prints" in
      let Hp := fresh "Hprints" in
      let He := fresh "Hexports" in
      destruct (print_outputs_run o e st1) as (p & Hp & He);
      rewrite (run_bind _ _ _ _ _ Hp); cbn [fs trace]
  end.

(** X1: when the output of the shell holds no mark, and also when it
    does but the shell returned non-zero, [prepare_env] raises; the
    dump is not read: the runtime directory is as it was and nothing
    was exported to the supervisor. *)
Theorem X1_prepare_env_shell_failure
  (environ : gmap string string)
  (popen : list event → list string → option string
           → option (gmap string string) → completed)
  (random_mark : string) (prepare_env_gen_sh : string → string)
  (wm_id : string) (st : state) :
  let r := popen (trace st) ["sh"; "-"] (Some (prepare_env_gen_sh random_mark)) None in
  Py.find random_mark (stdout r) = None ∨ returncode r ≠ 0%Z →
  ∃ E st',
    prepare_env environ popen random_mark prepare_env_gen_sh wm_id st = (Raise E, st')
    ∧ fs st' = fs st
    ∧ exports (trace st') = exports (trace st)
    ∧ (Py.find random_mark (stdout r) = None → E = "No env mark in shell output!").
Proof.
  intros r Hfail. unfold prepare_env. rewrite run_wrap_process. fold r.
  cbn [fs trace].
  destruct (Py.find random_mark (stdout r)) as [mark_position|] eqn:Hfind.
  - destruct Hfail as [|Hrc]; [done|].
    step_print_outputs_exports.
    rewrite bool_decide_eq_false_2 by done. cbn [negb].
    eexists _, _. split; [reflexivity|]. cbn [fs trace]. split_and!; [done| |done].
    by rewrite exports_app, Hexports, exports_cons.
  - step_print_outputs_exports.
    eexists _, _. split; [reflexivity|]. cbn [fs trace]. split_and!; [done| |done].
    by rewrite exports_app, Hexports, exports_cons.
Qed.

(** A run of X1: the shell prints the mark and a dump, but returns 1. *)
Lemma X1_prepare_env_shell_failure_witness :
  let popen :=
    scripted
      [ (["sh"],
         Completed (mark0 +:+ env0 [("PATH", "/usr/bin"); ("FOO", "bar")])
           "quirks_sway: not found" 1%Z) ] in
  ∃ E st',
    prepare_env environ_login popen mark0 gen_sh0 "sway" two_ledgers = (Raise E, st')
    ∧ fs st' = fs two_ledgers
    ∧ exports (trace st') = exports (trace two_ledgers)
    ∧ (Py.find mark0
         (stdout (popen (trace two_ledgers) ["sh"; "-"] (Some (gen_sh0 mark0)) None))
       = None → E = "No env mark in shell output!").
Proof.
  intros popen.
  apply (X1_prepare_env_shell_failure environ_login popen mark0 gen_sh0 "sway"
           two_ledgers).
  right. vm_compute. discriminate.
Defined.

Ltac run_prepare_env_to_ledger Hfind Hsh Hshow Hdir :=
  unfold prepare_env; rewrite run_wrap_process, Hfind; cbn [fs trace];
  step_print_outputs_exports;
  rewrite Hsh, bool_decide_eq_true_2 by done; cbn [negb];
  match goal with
  | |- context [(for_ ?entries parse_env ?acc ≫= _) ?st1] =>
      let errors := fresh "errors" in
      let Herrors := fresh "Herrors" in
      let Hexports := fresh "Hexports" in
      destruct (for_parse_env_run entries acc st1) as (errors & Herrors & Hexports);
      rewrite (run_bind _ _ _ _ _ Herrors); cbn [fs trace]
  end;
  match goal with
  | |- context [(get_systemd_varnames ?popen ≫= _) ?st1] =>
      let sv := fresh "systemd_varnames" in
      let Hsv := fresh "Hsv" in
      destruct (get_systemd_varnames_run popen st1 (Hshow _)) as (sv & Hsv);
      rewrite (run_bind _ _ _ _ _ Hsv); cbn [fs trace]; cbv zeta
  end;
  match goal with
  | |- context [(write_cleanup_file ?wm_id ?cv ≫= _) ?st1] =>
      rewrite (run_bind _ _ _ _ _
                 (write_cleanup_file_run wm_id cv st1 _
                    (existing_cleanup_varnames_run _ _) Hdir))
  end;
  cbn [fs trace]; unfold print_normal; rewrite run_print; cbn [fs trace];
  rewrite run_wrap_process; cbn [fs trace]; step_print_outputs_exports.

(** X3: when the shell printed the mark and every process returns 0,
    [prepare_env] returns. With [env_post] read from the dump, it made
    exactly two exports, first the import into the supervisor and then
    the update of the activation environment, both for the sorted names
    of [set_env] and both run in the environment [env_post]; and the
    ledger file holds, sorted and one per line, the names it held
    before joined with [cleanup_varnames]. *)
Theorem X3_prepare_env_success
  (environ : gmap string string)
  (popen : list event → list string → option string
           → option (gmap string string) → completed)
  (random_mark : string) (prepare_env_gen_sh : string → string)
  (wm_id : string) (st : state) (mark_position : nat) :
  let r := popen (trace st) ["sh"; "-"] (Some (prepare_env_gen_sh random_mark)) None in
  let env_post := env_post_of (dump_entries random_mark mark_position (stdout r)) in
  let names := Py.sorted (dom (set_env varnames environ env_post)) in
  let cleanup_file := cleanup_file_of wm_id in
  Py.find random_mark (stdout r) = Some mark_position →
  (∀ tr argv stdin env, returncode (popen tr argv stdin env) = 0%Z) →
  fs st !! cleanup_file ≠ Some Dir →
  ∃ st',
    prepare_env environ popen random_mark prepare_env_gen_sh wm_id st = (Return tt, st')
    ∧ exports (trace st')
      = Popen (["dbus-update-activation-environment"; "--systemd"] ++ names)%list
          None (Some env_post)
        :: Popen (["systemctl"; "--user"; "import-environment"] ++ names)%list
             None (Some env_post)
        :: exports (trace st)
    ∧ fs st'
      = <[cleanup_file :=
            File (Py.join NL
                    (Py.sorted (varnames_in (fs st) cleanup_file
                                ∪ cleanup_varnames varnames environ env_post)))]>
          (fs st).
Proof.
  intros r env_post names cleanup_file.
  subst r env_post names cleanup_file. intros Hfind Hrc Hdir.
  pose proof (Hrc (trace st) ["sh"; "-"] (Some (prepare_env_gen_sh random_mark)) None)
    as Hsh.
  assert (Hshow : ∀ tr, returncode
            (popen tr ["systemctl"; "--user"; "show-environment"] None None) = 0%Z)
    by (intros; apply Hrc).
  run_prepare_env_to_ledger Hfind Hsh Hshow Hdir.
  rewrite Hrc, bool_decide_eq_true_2 by done. cbn [negb].
  rewrite run_wrap_process. cbn [fs trace]. step_print_outputs_exports.
  rewrite Hrc, bool_decide_eq_true_2 by done. cbn [negb].
  case_bool_decide as Hunset.
  - rewrite run_bind_assoc, run_print. cbn [fs trace].
    rewrite run_bind_assoc, run_wrap_process. cbn [fs trace].
    rewrite run_bind_assoc. step_print_outputs_exports.
    rewrite Hrc, bool_decide_eq_true_2 by done. cbn [negb].
    eexists. split; [reflexivity|]. cbn [fs trace]. split; [|done].
    by simpl_exports.
  - eexists. split; [reflexivity|]. cbn [fs trace]. split; [|done].
    by simpl_exports.
Qed.

(** A run of X3 beside an older ledger of the same window manager. *)
Lemma X3_prepare_env_success_witness :
  let r := popen_ssh_agent (trace sway_ledger) ["sh"; "-"] (Some (gen_sh0 mark0)) None in
  let env_post := env_post_of (dump_entries mark0 54 (stdout r)) in
  let names := Py.sorted (dom (set_env varnames environ_login env_post)) in
  let cleanup_file := cleanup_file_of "sway" in
  ∃ st',
    prepare_env environ_login popen_ssh_agent mark0 gen_sh0 "sway" sway_ledger
    = (Return tt, st')
    ∧ exports (trace st')
      = Popen (["dbus-update-activation-environment"; "--systemd"] ++ names)%list
          None (Some env_post)
        :: Popen (["systemctl"; "--user"; "import-environment"] ++ names)%list
             None (Some env_post)
        :: exports (trace sway_ledger)
    ∧ fs st'
      = <[cleanup_file :=
            File (Py.join NL
                    (Py.sorted (varnames_in (fs sway_ledger) cleanup_file
                                ∪ cleanup_varnames varnames environ_login env_post)))]>
          (fs sway_ledger).
Proof.
  apply (X3_prepare_env_success environ_login popen_ssh_agent mark0 gen_sh0 "sway"
           sway_ledger 54).
  - vm_compute. reflexivity.
  - intros tr argv stdin env. apply scripted_returncode. repeat constructor.
  - vm_compute. discriminate.
Defined.

(** X4: the ledger is written before anything is exported. When the
    shell printed the mark and returned 0 and the supervisor showed its
    environment, but the import into the supervisor returns non-zero,
    [prepare_env] raises; the ledger file then holds already the names
    it held before joined with [cleanup_varnames], and the update of
    the activation environment was not tried. *)
Theorem X4_prepare_env_import_failure
  (environ : gmap string string)
  (popen : list event → list string → option string
           → option (gmap string string) → completed)
  (random_mark : string) (prepare_env_gen_sh : string → string)
  (wm_id : string) (st : state) (mark_position : nat) :
  let r := popen (trace st) ["sh"; "-"] (Some (prepare_env_gen_sh random_mark)) None in
  let env_post := env_post_of (dump_entries random_mark mark_position (stdout r)) in
  let names := Py.sorted (dom (set_env varnames environ env_post)) in
  let cleanup_file := cleanup_file_of wm_id in
  Py.find random_mark (stdout r) = Some mark_position →
  returncode r = 0%Z →
  (∀ tr, returncode (popen tr ["systemctl"; "--user"; "show-environment"] None None)
         = 0%Z) →
  (∀ tr names env,
     returncode (popen tr (["systemctl"; "--user"; "import-environment"] ++ names)%list
                   None env) ≠ 0%Z) →
  fs st !! cleanup_file ≠ Some Dir →
  ∃ E st',
    prepare_env environ popen random_mark prepare_env_gen_sh wm_id st = (Raise E, st')
    ∧ exports (trace st')
      = Popen (["systemctl"; "--user"; "import-environment"] ++ names)%list
          None (Some env_post)
        :: exports (trace st)
    ∧ fs st'
      = <[cleanup_file :=
            File (Py.join NL
                    (Py.sorted (varnames_in (fs st) cleanup_file
                                ∪ cleanup_varnames varnames environ env_post)))]>
          (fs st).
Proof.
  intros r env_post names cleanup_file.
  subst r env_post names cleanup_file. intros Hfind Hsh Hshow Himport Hdir.
  run_prepare_env_to_ledger Hfind Hsh Hshow Hdir.
  rewrite bool_decide_eq_false_2 by apply Himport. cbn [negb].
  eexists _, _. split; [reflexivity|]. cbn [fs trace]. split; [|done].
  by simpl_exports.
Qed.

(** A run of X4. *)
Lemma X4_prepare_env_import_failure_witness :
  let r := popen_import_fails (trace sway_ledger) ["sh"; "-"] (Some (gen_sh0 mark0)) None in
  let env_post := env_post_of (dump_entries mark0 0 (stdout r)) in
  let names := Py.sorted (dom (set_env varnames environ_login env_post)) in
  let cleanup_file := cleanup_file_of "sway" in
  ∃ E st',
    prepare_env environ_login popen_import_fails mark0 gen_sh0 "sway" sway_ledger
    = (Raise E, st')
    ∧ exports (trace st')
      = Popen (["systemctl"; "--user"; "import-environment"] ++ names)%list
          None (Some env_post)
        :: exports (trace sway_ledger)
    ∧ fs st'
      = <[cleanup_file :=
            File (Py.join NL
                    (Py.sorted (varnames_in (fs sway_ledger) cleanup_file
                                ∪ cleanup_varnames varnames environ_login env_post)))]>
          (fs sway_ledger).
Proof.
  apply (X4_prepare_env_import_failure environ_login popen_import_fails mark0 gen_sh0
           "sway" sway_ledger 0).
  - vm_compute. reflexivity.
  - reflexivity.
  - intros tr. reflexivity.
  - intros tr names env. vm_compute. discriminate.
  - vm_compute. discriminate.
Defined.

(** ** The handler of [prepare-env], with a ledger *)

Lemma cleanup_env_returns popen st :
  cleanup_files_of (fs st) ≠ [] →
  (∀ tr, returncode (popen tr ["systemctl"; "--user"; "show-environment"] None None)
         = 0%Z) →
  (∀ tr names,
     returncode (popen tr (["systemctl"; "--user"; "unset-environment"] ++ names)%list
                   None None) = 0%Z) →
  ∃ st', cleanup_env popen st = (Return tt, st').
Proof.
  intros Hsome Hshow Hunset. unfold cleanup_env.
  rewrite run_listdir, (run_bind _ _ _ _ _ (for_find_cleanup_file_run _ _ _)).
  fold (cleanup_files_of (fs st)). rewrite app_nil_l.
  pose proof (NoDup_cleanup_files_of (fs st)) as Hnd.
  assert (Hall : ∀ n, n ∈ cleanup_files_of (fs st) ↔ is_cleanup_file (fs st) n)
    by apply elem_of_cleanup_files_of.
  destruct (cleanup_files_of (fs st)) as [|f files] eqn:Hfiles; [done|].
  set (cleanup_files := f :: files) in *.
  rewrite (run_bind _ _ _ _ _ (for_read_cleanup_file_run _ _ _)). cbn [fs trace].
  match goal with
  | |- ∃ _, (get_systemd_varnames _ ≫= _) ?st1 = _ =>
      destruct (get_systemd_varnames_run popen st1 (Hshow _)) as (sv & Hsv)
  end.
  rewrite (run_bind _ _ _ _ _ Hsv). cbn [fs trace].
  match goal with
  | |- ∃ _, (cleanup_env_unset _ ?cv ≫= _) ?st2 = _ =>
      destruct (cleanup_env_unset_run popen cv st2 Hunset)
        as (st3 & Hrun3 & Hfs3 & _)
  end.
  rewrite (run_bind _ _ _ _ _ Hrun3). cbn [fs] in Hfs3.
  rewrite for_remove_cleanup_file_run; [by eexists|done|].
  apply Forall_forall. intros n Hn. rewrite Hfs3. by apply Hall.
Qed.

(** X6: when [prepare_env] raises and leaves a ledger file, and the
    supervisor answers [show-environment] and [unset-environment] with
    0, the handler of [prepare-env] removes every ledger file, touches
    no other entry of the runtime directory, and ends the process with
    status 1. *)
Theorem X6_failed_prepare_with_ledger_exits_one
  (environ : gmap string string)
  (popen : list event → list string → option string
           → option (gmap string string) → completed)
  (random_mark : string) (prepare_env_gen_sh : string → string)
  (wm_id : string) (st : state) (active : bool) (st1 : state)
  (E : string) (st2 : state) :
  is_active popen wm_id true st = (Return active, st1) →
  prepare_env environ popen random_mark prepare_env_gen_sh wm_id st1
  = (Raise E, st2) →
  cleanup_files_of (fs st2) ≠ [] →
  (∀ tr, returncode (popen tr ["systemctl"; "--user"; "show-environment"] None None)
         = 0%Z) →
  (∀ tr names,
     returncode (popen tr (["systemctl"; "--user"; "unset-environment"] ++ names)%list
                   None None) = 0%Z) →
  ∃ st',
    aux_prepare_env environ popen random_mark prepare_env_gen_sh wm_id st
    = (SysExit 1, st')
    ∧ cleanup_files_of (fs st') = []
    ∧ ∀ name, fs st' !! name
              = if is_cleanup_file (fs st2) name then None else fs st2 !! name.
Proof.
  intros Hactive Hprepare Hsome Hshow Hunset.
  rewrite (aux_prepare_env_on_failure _ _ _ _ _ _ _ _ _ _ Hactive Hprepare).
  set (st3 := {| fs := fs st2; trace := Print Error E :: trace st2 |}).
  destruct (cleanup_env_returns popen st3 Hsome Hshow Hunset) as (st' & Hclean).
  rewrite (run_bind _ _ _ _ _ Hclean). exists st'. split; [done|].
  destruct (cleanup_env_outcome _ _ _ _ Hclean) as [(_ & _ & Hfs)|([[E' ?]|[? _]] & _)];
    try done.
  split; [|done].
  destruct (cleanup_files_of (fs st')) as [|name l] eqn:Hl; [done|].
  assert (name ∈ cleanup_files_of (fs st')) as Hin%elem_of_cleanup_files_of
    by (rewrite Hl; by left).
  unfold is_cleanup_file in Hin. rewrite Hfs in Hin. cbn [fs st3] in Hin.
  unfold is_cleanup_file in Hin.
  destruct (Py.startswith _ name); [|done]. cbn [andb] in Hin.
  by destruct (fs st2 !! name) as [[]|].
Qed.

(** A run of X6: the import fails after the ledger of [sway] was
    written. *)
Lemma X6_failed_prepare_with_ledger_exits_one_witness :
  ∃ st2 st',
    aux_prepare_env environ_login popen_import_fails mark0 gen_sh0 "sway" two_ledgers
    = (SysExit 1, st')
    ∧ cleanup_files_of (fs st') = []
    ∧ ∀ name, fs st' !! name
              = if is_cleanup_file (fs st2) name then None else fs st2 !! name.
Proof.
  eexists.
  eapply (X6_failed_prepare_with_ledger_exits_one
            environ_login popen_import_fails mark0 gen_sh0 "sway" two_ledgers).
  - vm_compute. reflexivity.
  - vm_compute. reflexivity.
  - vm_compute. discriminate.
  - intros tr. reflexivity.
  - intros tr names. reflexivity.
Defined.

(** ** The variables that [finalize] exports *)

Lemma add_export_vars environ (l acc : list string) :
  NoDup acc →
  NoDup (foldl (add_export_var environ) acc l)
  ∧ (∀ var, var ∈ foldl (add_export_var environ) acc l
            ↔ var ∈ acc ∨ (var ∈ l ∧ is_Some (environ !! var)))
  ∧ ∃ more, foldl (add_export_var environ) acc l = (acc ++ more)%list.
Proof.
  revert acc. induction l as [|x l IH]; intros acc Hnd.
  { cbn [foldl]. split_and!; [done| |exists []; by rewrite app_nil_r].
    intros var. split; [by left|]. intros [|[[]%elem_of_nil _]]; done. }
  cbn [foldl].
  assert (NoDup (add_export_var environ acc x)
          ∧ (∀ var, var ∈ add_export_var environ acc x
                    ↔ var ∈ acc ∨ (var = x ∧ is_Some (environ !! var)))
          ∧ ∃ more, add_export_var environ acc x = (acc ++ more)%list)
    as (Hnd1 & Hin1 & more1 & Hmore1).
  { unfold add_export_var, getenv_defined.
    destruct (bool_decide (is_Some (environ !! x))) eqn:Hdef; cbn [andb].
    - apply bool_decide_eq_true in Hdef.
      destruct (bool_decide (x ∈ acc)) eqn:Hacc; cbn [negb].
      + apply bool_decide_eq_true in Hacc.
        split_and!; [done| |exists []; by rewrite app_nil_r].
        intros var. split; [by left|]. by intros [|[-> _]].
      + apply bool_decide_eq_false in Hacc. split_and!; [| |by exists [x]].
        * apply NoDup_app. split_and!; [done| |apply NoDup_singleton].
          by intros y Hy ->%list_elem_of_singleton.
        * intros var. rewrite elem_of_app, list_elem_of_singleton. naive_solver.
    - apply bool_decide_eq_false in Hdef.
      split_and!; [done| |exists []; by rewrite app_nil_r].
      intros var. split; [by left|]. by intros [|[-> ?]]. }
  destruct (IH _ Hnd1) as (Hnd2 & Hin2 & more2 & Hmore2).
  split_and!; [done| |].
  - intros var. rewrite Hin2, Hin1, elem_of_cons. naive_solver.
  - exists (more1 ++ more2)%list. by rewrite Hmore2, Hmore1, <- app_assoc.
Qed.

(** X12: the list of variables that [finalize] exports holds no name
    twice; it holds exactly the names among [WAYLAND_DISPLAY], [DISPLAY]
    and the additional ones that are defined in the environment; and
    [WAYLAND_DISPLAY], when defined, comes first. *)
Theorem X12_export_vars_defined_once
  (environ : gmap string string) (additional_vars : list string) :
  let export_vars := export_vars_of environ additional_vars in
  NoDup export_vars
  ∧ (∀ var, var ∈ export_vars
            ↔ var ∈ (["WAYLAND_DISPLAY"; "DISPLAY"] ++ additional_vars)%list
              ∧ is_Some (environ !! var))
  ∧ (is_Some (environ !! "WAYLAND_DISPLAY") → head export_vars = Some "WAYLAND_DISPLAY").
Proof.
  intros export_vars. subst export_vars. unfold export_vars_of.
  destruct (add_export_vars environ
              (["WAYLAND_DISPLAY"; "DISPLAY"] ++ Py.sorted_list additional_vars) [])
    as (Hnd & Hin & _); [apply NoDup_nil_2|].
  split_and!; [done| |].
  - intros var. rewrite Hin, !elem_of_app, elem_of_sorted_list, elem_of_nil.
    naive_solver.
  - intros Hdef.
    change (foldl (add_export_var environ) []
              (["WAYLAND_DISPLAY"; "DISPLAY"] ++ Py.sorted_list additional_vars))
      with (foldl (add_export_var environ)
              (add_export_var environ [] "WAYLAND_DISPLAY")
              ("DISPLAY" :: Py.sorted_list additional_vars)).
    assert (add_export_var environ [] "WAYLAND_DISPLAY" = ["WAYLAND_DISPLAY"]) as ->.
    { unfold add_export_var, getenv_defined.
      rewrite bool_decide_eq_true_2 by done.
      by rewrite bool_decide_eq_false_2 by apply not_elem_of_nil. }
    destruct (add_export_vars environ
                ("DISPLAY" :: Py.sorted_list additional_vars) ["WAYLAND_DISPLAY"])
      as (_ & _ & more & ->); [apply NoDup_singleton|done].
Qed.

(** X12 in a session where one of the additional names is not defined
    and another is [DISPLAY] again. *)
Lemma X12_export_vars_defined_once_witness :
  head (export_vars_of environ_session ["XCURSOR_SIZE"; "FOO"; "DISPLAY"])
  = Some "WAYLAND_DISPLAY".
Proof.
  apply (X12_export_vars_defined_once environ_session ["XCURSOR_SIZE"; "FOO"; "DISPLAY"]).
  vm_compute. by eexists.
Defined.

(** ** The runs of [finalize] *)

(** X13: with [WAYLAND_DISPLAY] set, an active window manager whose
    ledger is a file, and both export commands returning 0, [finalize]
    replaces the process by [systemd-notify --ready]. Before that it
    has rewritten the ledger to hold the names it held and the exported
    ones, and has passed the list [export_vars_of] first to
    [dbus-update-activation-environment] and then to
    [import-environment]. *)
Theorem X13_finalize_success
  (environ : gmap string string)
  (popen : list event → list string → option string
           → option (gmap string string) → completed)
  (additional_vars : list string) (st : state)
  (wm_id : string) (st1 : state) (text : string) :
  let export_vars := export_vars_of environ additional_vars in
  let cleanup_file := cleanup_file_of wm_id in
  Py.truthy (default EmptyString (environ !! "WAYLAND_DISPLAY")) = true →
  get_active_wm_id popen st = (Return wm_id, st1) →
  fs st !! cleanup_file = Some (File text) →
  (∀ tr, returncode
           (popen tr (["dbus-update-activation-environment"; "--systemd"]
                      ++ export_vars)%list None None) = 0%Z) →
  (∀ tr, returncode
           (popen tr (["systemctl"; "--user"; "import-environment"]
                      ++ export_vars)%list None None) = 0%Z) →
  ∃ st',
    finalize environ popen additional_vars st
    = (Execed ["systemd-notify"; "systemd-notify"; "--ready"], st')
    ∧ fs st'
      = <[cleanup_file :=
            File (Py.join NL
                    (Py.sorted (stripped_lines text ∪ list_to_set export_vars)))]>
          (fs st)
    ∧ exports (trace st')
      = Popen (["systemctl"; "--user"; "import-environment"] ++ export_vars)%list
          None None
        :: Popen (["dbus-update-activation-environment"; "--systemd"]
                  ++ export_vars)%list None None
        :: exports (trace st).
Proof.
  intros export_vars cleanup_file. subst export_vars cleanup_file.
  intros Hwd Hget Hfile Hdbus Himport. unfold finalize. rewrite Hwd. cbn [negb].
  fold (export_vars_of environ additional_vars).
  rewrite (run_bind _ _ _ _ _ Hget), run_isfile.
  apply get_active_wm_id_run in Hget as [Hfs Htr].
  rewrite Hfs, Hfile.
  rewrite run_bind_assoc.
  assert (read_text (cleanup_file_of wm_id) st1 = (Return text, st1)) as Hread.
  { unfold read_text. by rewrite Hfs, Hfile. }
  rewrite (run_bind _ _ _ _ _ Hread).
  rewrite run_ret.
  match goal with
  | |- context [(write_text ?f ?c ≫= _) _] =>
      assert (write_text f c st1
              = (Return tt, {| fs := <[f := File c]> (fs st1); trace := trace st1 |}))
        as Hwrite by (unfold write_text; by rewrite Hfs, Hfile)
  end.
  rewrite (run_bind _ _ _ _ _ Hwrite). unfold print_normal.
  rewrite run_print, run_wrap_process. cbn [fs trace].
  step_print_outputs_exports. rewrite Hdbus. cbn [negb bool_decide].
  rewrite bool_decide_eq_true_2 by done. cbn [negb].
  rewrite run_wrap_process. cbn [fs trace].
  step_print_outputs_exports. rewrite Himport.
  rewrite bool_decide_eq_true_2 by done. cbn [negb].
  rewrite run_print. eexists. split; [reflexivity|]. cbn [fs trace].
  split; [by rewrite Hfs|]. simpl_exports. by rewrite Htr.
Qed.

(** A run of X13: the session of [sway], whose ledger holds two names. *)
Lemma X13_finalize_success_witness :
  let export_vars := export_vars_of environ_session ["XCURSOR_SIZE"; "FOO"] in
  ∃ st',
    finalize environ_session popen_supervisor ["XCURSOR_SIZE"; "FOO"] sway_ledger
    = (Execed ["systemd-notify"; "systemd-notify"; "--ready"], st')
    ∧ fs st'
      = <[cleanup_file_of "sway" :=
            File (Py.join NL
                    (Py.sorted (stripped_lines ("PATH" +:+ NL +:+ "LANG")
                                ∪ list_to_set export_vars)))]>
          (fs sway_ledger)
    ∧ exports (trace st')
      = Popen (["systemctl"; "--user"; "import-environment"] ++ export_vars)%list
          None None
        :: Popen (["dbus-update-activation-environment"; "--systemd"]
                  ++ export_vars)%list None None
        :: exports (trace sway_ledger).
Proof.
  eapply (X13_finalize_success environ_session popen_supervisor
            ["XCURSOR_SIZE"; "FOO"] sway_ledger "sway").
  - vm_compute. reflexivity.
  - vm_compute. reflexivity.
  - vm_compute. reflexivity.
  - intros tr. apply scripted_returncode. repeat constructor.
  - intros tr. apply scripted_returncode. repeat constructor.
Defined.

(** X14: however [finalize] ends, it does not return. When it leaves by
    [sys.exit] the status is 1. It replaces the process only by
    [systemd-notify --ready], and only after both export commands were
    given the list [export_vars_of] and returned 0. It creates no file
    and removes none: an entry of the runtime directory is as it was,
    or it was a file and is a file. *)
Theorem X14_finalize_outcomes
  (environ : gmap string string)
  (popen : list event → list string → option string
           → option (gmap string string) → completed)
  (additional_vars : list string) (st : state) (o : outcome unit) (st' : state) :
  let export_vars := export_vars_of environ additional_vars in
  let dbus := (["dbus-update-activation-environment"; "--systemd"] ++ export_vars)%list in
  let import := (["systemctl"; "--user"; "import-environment"] ++ export_vars)%list in
  finalize environ popen additional_vars st = (o, st') →
  (∀ a, o ≠ Return a)
  ∧ (∀ code, o = SysExit code → code = 1%Z)
  ∧ (∀ argv, o = Execed argv →
       argv = ["systemd-notify"; "systemd-notify"; "--ready"]
       ∧ (∃ tr, returncode (popen tr dbus None None) = 0%Z)
       ∧ (∃ tr, returncode (popen tr import None None) = 0%Z)
       ∧ exports (trace st')
         = Popen import None None :: Popen dbus None None :: exports (trace st))
  ∧ (∀ name,
       fs st' !! name = fs st !! name
       ∨ ∃ text text',
           fs st !! name = Some (File text) ∧ fs st' !! name = Some (File text')).
Proof.
  intros export_vars dbus import. subst export_vars dbus import.
  unfold finalize. fold (export_vars_of environ additional_vars).
  destruct (Py.truthy (default EmptyString (environ !! "WAYLAND_DISPLAY")));
    cbn [negb].
  2:{ unfold print_error. rewrite run_print. intros [= <- <-].
      split_and!; [done|by intros ? [= <-]|done|by left]. }
  destruct (get_active_wm_id popen st) as [o1 st1] eqn:Hget.
  pose proof (get_active_wm_id_returns _ _ _ _ Hget) as Ho1.
  apply get_active_wm_id_run in Hget as Hsame. destruct Hsame as [Hfs Htr].
  destruct o1 as [wm_id|E| |]; try done.
  2:{ rewrite (run_bind_raise _ _ _ _ _ Hget). intros [= <- <-].
      split_and!; [done|done|done|]. left. by rewrite Hfs. }
  rewrite (run_bind _ _ _ _ _ Hget), run_isfile.
  destruct (fs st1 !! cleanup_file_of wm_id) as [[text|]|] eqn:Hfile.
  2,3: rewrite run_bind_assoc; unfold print_error; rewrite run_print;
       intros [= <- <-];
       (split_and!; [done|by intros ? [= <-]|done|]); left; by rewrite Hfs.
  rewrite run_bind_assoc.
  assert (read_text (cleanup_file_of wm_id) st1 = (Return text, st1)) as Hread.
  { unfold read_text. by rewrite Hfile. }
  rewrite (run_bind _ _ _ _ _ Hread), run_ret.
  match goal with
  | |- context [(write_text ?f ?c ≫= _) _] =>
      assert (write_text f c st1
              = (Return tt, {| fs := <[f := File c]> (fs st1); trace := trace st1 |}))
        as Hwrite by (unfold write_text; by rewrite Hfile);
      assert (∀ name,
                <[f := File c]> (fs st1) !! name = fs st !! name
                ∨ ∃ text text',
                    fs st !! name = Some (File text)
                    ∧ <[f := File c]> (fs st1) !! name = Some (File text'))
        as Hledger
  end.
  { intros name. destruct (decide (name = cleanup_file_of wm_id)) as [->|Hne].
    - right. exists text. eexists. rewrite <- Hfs, Hfile, lookup_insert_eq. done.
    - left. by rewrite lookup_insert_ne, Hfs. }
  rewrite (run_bind _ _ _ _ _ Hwrite). unfold print_normal.
  rewrite run_print, run_wrap_process. cbn [fs trace].
  step_print_outputs_exports.
  match goal with
  | |- context [bool_decide (returncode ?r = 0%Z)] =>
      destruct (decide (returncode r = 0%Z)) as [Hdbus|Hdbus]
  end.
  2:{ rewrite bool_decide_eq_false_2 by done. intros [= <- <-].
      split_and!; [done|by intros ? [= <-]|done|done]. }
  rewrite bool_decide_eq_true_2 by done. cbn [negb].
  rewrite run_wrap_process. cbn [fs trace].
  step_print_outputs_exports.
  match goal with
  | |- context [bool_decide (returncode ?r = 0%Z)] =>
      destruct (decide (returncode r = 0%Z)) as [Himport|Himport]
  end.
  2:{ rewrite bool_decide_eq_false_2 by done. intros [= <- <-].
      split_and!; [done|by intros ? [= <-]|done|done]. }
  rewrite bool_decide_eq_true_2 by done. cbn [negb].
  rewrite run_print. intros [= <- <-]. cbn [fs trace].
  split_and!; [done|done| |done].
  intros argv [= <-]. split_and!; [done|by eexists|by eexists|].
  simpl_exports. by rewrite Htr.
Qed.

(** A run of X14 that ends at the update of the activation environment. *)
Lemma X14_finalize_outcomes_witness :
  ∃ st',
    ∀ name,
      fs st' !! name = fs sway_ledger !! name
      ∨ ∃ text text',
          fs sway_ledger !! name = Some (File text)
          ∧ fs st' !! name = Some (File text').
Proof.
  eexists.
  eapply (X14_finalize_outcomes environ_session popen_dbus_fails ["XCURSOR_SIZE"]
            sway_ledger).
  vm_compute. reflexivity.
Defined.

(** ** Asking whether a window manager is active *)

(** What [is_active] answers and what it leaves: the verdict is read off
    the first [list-units] alone; a verbose call may print, and may
    spawn the second [list-units]. *)
Lemma is_active_run popen check_wm_id verbose st :
  let check_unit :=
    if Py.truthy check_wm_id then "wayland-wm@" +:+ check_wm_id +:+ ".service"
    else "wayland-wm@*.service" in
  let list_units :=
    ["systemctl"; "--user"; "list-units"; "--state=active,activating";
     "-q"; "--full"; "--plain"; check_unit] in
  let r := popen (trace st) list_units None None in
  ∃ new,
    is_active popen check_wm_id verbose st
    = (if bool_decide (returncode r = 0%Z)
       then Return (Py.truthy (Py.strip (stdout r)))
       else Raise "name 'raise_exception' is not defined",
       {| fs := fs st;
          trace := new ++ Popen list_units None None :: trace st |})
    ∧ (∀ argv stdin env,
         Popen argv stdin env ∈ new →
         argv = ["systemctl"; "--user"; "list-units"; "--all"; "-q"; "--full";
                 "--plain"; "wayland-wm@*.service"])
    ∧ (verbose = false → new = []).
Proof.
  intros check_unit list_units r. unfold is_active. fold check_unit list_units.
  rewrite run_wrap_process. fold r. cbn [fs trace].
  destruct (bool_decide (returncode r = 0%Z)); cbn [negb].
  { destruct (Py.truthy (Py.strip (stdout r))).
    - destruct verbose; cbn [when].
      + destruct (print_outputs_prints (stdout r) (stderr r)
                    {| fs := fs st; trace := Popen list_units None None :: trace st |})
          as (prints & Hprints & Hno).
        rewrite (run_bind _ _ _ _ _ Hprints). exists prints.
        split_and!; [done| |done]. intros ??? Hin. by apply Hno in Hin.
      + exists []. split_and!; [done| |done]. by intros ??? ?%elem_of_nil.
    - destruct verbose; cbn [when].
      + rewrite run_bind_assoc, run_wrap_process. cbn [fs trace].
        match goal with
        | |- context [(print_outputs ?o ?e ≫= _) ?st1] =>
            destruct (print_outputs_prints o e st1) as (prints & Hprints & Hno)
        end.
        rewrite (run_bind _ _ _ _ _ Hprints). cbn [fs trace].
        eexists (prints ++ [_])%list. rewrite <- (assoc_L (++)).
        split_and!; [done| |done].
        intros ??? [Hin|Hin%list_elem_of_singleton]%elem_of_app;
          [by apply Hno in Hin|by injection Hin as -> _ _].
      + exists []. split_and!; [done| |done]. by intros ??? ?%elem_of_nil. }
  exists []. split_and!; [done| |done]. by intros ??? ?%elem_of_nil.
Qed.

(** X10: the handler of [cleanup-env] cleans nothing while a window
    manager is active: when [list-units] returns 0 and prints a unit,
    the handler ends the process with status 1. When [list-units]
    returns non-zero, the handler ends by the [NameError] of
    [is_active], outside its [try]. In both cases the runtime directory
    is as it was and no command but [list-units] was spawned. *)
Theorem X10_cleanup_env_refused_while_active
  (popen : list event → list string → option string
           → option (gmap string string) → completed)
  (st : state) :
  let list_units :=
    ["systemctl"; "--user"; "list-units"; "--state=active,activating";
     "-q"; "--full"; "--plain"; "wayland-wm@*.service"] in
  let r := popen (trace st) list_units None None in
  let only_list_units st' :=
    fs st' = fs st
    ∧ ∀ argv stdin env,
        Popen argv stdin env ∈ trace st' →
        Popen argv stdin env ∈ trace st
        ∨ (["systemctl"; "--user"; "list-units"] `prefix_of` argv) in
  (returncode r ≠ 0%Z →
   ∃ st', aux_cleanup_env popen st
          = (Raise "name 'raise_exception' is not defined", st')
          ∧ only_list_units st')
  ∧ (returncode r = 0%Z →
     Py.truthy (Py.strip (stdout r)) = true →
     ∃ st', aux_cleanup_env popen st = (SysExit 1, st') ∧ only_list_units st').
Proof.
  intros list_units r only_list_units. subst only_list_units.
  destruct (is_active_run popen EmptyString true st) as (new & Hactive & Hnew & _).
  cbn [Py.truthy] in Hactive. fold list_units r in Hactive.
  assert (∀ extra argv stdin env,
            Popen argv stdin env ∈ (extra ++ new ++ Popen list_units None None :: trace st)%list →
            (∀ argv stdin env, Popen argv stdin env ∉ extra) →
            Popen argv stdin env ∈ trace st
            ∨ (["systemctl"; "--user"; "list-units"] `prefix_of` argv)) as Honly.
  { intros extra argv stdin env [Hin|[Hin|[Hin|Hin]%elem_of_cons]%elem_of_app]%elem_of_app
      Hextra.
    - by apply Hextra in Hin.
    - right. rewrite (Hnew _ _ _ Hin). by eexists.
    - right. injection Hin as -> _ _. by eexists.
    - by left. }
  split.
  - intros Hrc. rewrite bool_decide_eq_false_2 in Hactive by done.
    unfold aux_cleanup_env. rewrite (run_bind_raise _ _ _ _ _ Hactive).
    eexists. split; [done|]. cbn [fs trace]. split; [done|].
    intros argv stdin env Hin. apply (Honly []); [done|].
    intros ???. apply not_elem_of_nil.
  - intros Hrc Hout. rewrite bool_decide_eq_true_2, Hout in Hactive by done.
    unfold aux_cleanup_env. rewrite (run_bind _ _ _ _ _ Hactive).
    unfold print_error. rewrite run_print.
    eexists. split; [done|]. cbn [fs trace]. split; [done|].
    intros argv stdin env Hin.
    apply (Honly [Print Error "A WM is running, will not cleanup environment"]);
      [done|].
    by intros ??? [?|?%elem_of_nil]%elem_of_cons.
Qed.

(** A run of X10 beside two ledgers that stay. *)
Lemma X10_cleanup_env_refused_while_active_witness :
  ∃ st',
    aux_cleanup_env popen_wm_active two_ledgers = (SysExit 1, st')
    ∧ fs st' = fs two_ledgers
    ∧ ∀ argv stdin env,
        Popen argv stdin env ∈ trace st' →
        Popen argv stdin env ∈ trace two_ledgers
        ∨ (["systemctl"; "--user"; "list-units"] `prefix_of` argv).
Proof.
  apply (X10_cleanup_env_refused_while_active popen_wm_active two_ledgers).
  - reflexivity.
  - reflexivity.
Defined.

(** X15: [check is-active] ends the process with status 0 when
    [list-units] for the unit returns 0 and prints something else than
    white space, with status 1 when it returns 0 and prints nothing
    else, and by a [NameError] when it returns non-zero, verbose or not.
    The unit asked for is the one of the window manager, or every
    [wayland-wm@] unit when none is named. No file is touched, and a
    call that is not verbose spawns nothing else and prints nothing. *)
Theorem X15_check_is_active_status
  (popen : list event → list string → option string
           → option (gmap string string) → completed)
  (wm : string) (verbose : bool) (st : state) :
  let check_unit :=
    if bool_decide (wm = EmptyString) then "wayland-wm@*.service"
    else "wayland-wm@" +:+ wm +:+ ".service" in
  let list_units :=
    ["systemctl"; "--user"; "list-units"; "--state=active,activating";
     "-q"; "--full"; "--plain"; check_unit] in
  let r := popen (trace st) list_units None None in
  ∃ st',
    check_is_active popen wm verbose st
    = (if bool_decide (returncode r = 0%Z)
       then SysExit (if Py.truthy (Py.strip (stdout r)) then 0%Z else 1%Z)
       else Raise "name 'raise_exception' is not defined",
       st')
    ∧ fs st' = fs st
    ∧ (if verbose then ∃ new, trace st' = (new ++ Popen list_units None None :: trace st)%list
       else trace st' = Popen list_units None None :: trace st).
Proof.
  intros check_unit list_units r.
  destruct (is_active_run popen wm verbose st) as (new & Hactive & _ & Hquiet).
  assert ((if Py.truthy wm then "wayland-wm@" +:+ wm +:+ ".service"
           else "wayland-wm@*.service") = check_unit) as Hunit
    by (subst check_unit; by destruct wm).
  rewrite Hunit in Hactive. fold list_units r in Hactive.
  unfold check_is_active.
  destruct (bool_decide (returncode r = 0%Z)).
  - rewrite (run_bind _ _ _ _ _ Hactive). eexists. split.
    + by destruct (Py.truthy (Py.strip (stdout r))).
    + cbn [fs trace]. split; [done|].
      destruct verbose; [by eexists|by rewrite Hquiet].
  - rewrite (run_bind_raise _ _ _ _ _ Hactive). eexists. split; [done|].
    cbn [fs trace]. split; [done|].
    destruct verbose; [by eexists|by rewrite Hquiet].
Qed.

(** ** Stopping the window manager *)

(** X17: the branch [stop] without [-r] never returns, never replaces
    the process and never touches the runtime directory. In a dry run
    it does not spawn the stop and, when it exits, calls [sys.exit]
    with 0. When it spawned the stop, it calls [sys.exit] with the
    return code of that stop, so that the status of the process is the
    low eight bits of it; and a code other than 0 was printed in an
    error before. *)
Theorem X17_stop_exit_status
  (popen : list event → list string → option string
           → option (gmap string string) → completed)
  (dry_run : bool) (st : state) (o : outcome unit) (st' : state) :
  let list_units :=
    ["systemctl"; "--user"; "list-units"; "--state=active,activating";
     "-q"; "--full"; "--plain"; "wayland-wm@*.service"] in
  let stop_argv := ["systemctl"; "--user"; "stop"; "wayland-wm@*.service"] in
  let stopped :=
    popen (Print Normal "Stopping WM" :: Popen list_units None None :: trace st)
      stop_argv None None in
  stop popen dry_run st = (o, st') →
  fs st' = fs st
  ∧ (∀ a, o ≠ Return a)
  ∧ (∀ argv, o ≠ Execed argv)
  ∧ ∃ new,
      trace st' = (new ++ trace st)%list
      ∧ (dry_run = true →
         (Popen stop_argv None None ∉ new) ∧ ∀ code, o = SysExit code → code = 0%Z)
      ∧ (Popen stop_argv None None ∈ new →
         o = SysExit (returncode stopped)
         ∧ ((- 2 ^ 63 ≤ returncode stopped < 2 ^ 63)%Z →
            exit_status o = Some (returncode stopped `mod` 256)%Z))
      ∧ (∀ code,
           o = SysExit code → code ≠ 0%Z →
           Popen stop_argv None None ∈ new
           ∧ Print Error ("Stop returned " +:+ pretty code) ∈ new).
Proof.
  intros list_units stop_argv stopped. unfold stop, stop_wm.
  destruct (is_active_run popen EmptyString false st) as (new & Hactive & _ & Hquiet).
  cbn [Py.truthy] in Hactive. rewrite Hquiet, app_nil_l in Hactive by done.
  fold list_units in Hactive.
  rewrite !run_bind_assoc.
  destruct (bool_decide (returncode (popen (trace st) list_units None None) = 0%Z)).
  2:{ rewrite (run_bind_raise _ _ _ _ _ Hactive). intros [= <- <-]. cbn [fs trace].
      split_and!; [done..|]. exists [Popen list_units None None].
      split_and!; [done| | |done].
      - intros _. split; [|done]. by intros [[=]|?%elem_of_nil]%elem_of_cons.
      - by intros [[=]|?%elem_of_nil]%elem_of_cons. }
  rewrite (run_bind _ _ _ _ _ Hactive).
  destruct (Py.truthy (Py.strip (stdout (popen (trace st) list_units None None)))).
  2:{ unfold print_normal. rewrite run_bind_assoc, run_print, run_ret.
      rewrite bool_decide_eq_true_2 by done. cbn [negb when].
      intros [= <- <-]. cbn [fs trace].
      split_and!; [done..|].
      exists [Print Normal "WM is not running"; Popen list_units None None].
      split_and!; [done| | |by intros ? [= <-]].
      - intros _. split; [|by intros ? [= <-]].
        by intros [[=]|[[=]|?%elem_of_nil]%elem_of_cons]%elem_of_cons.
      - by intros [[=]|[[=]|?%elem_of_nil]%elem_of_cons]%elem_of_cons. }
  unfold print_normal. rewrite run_bind_assoc, run_print. cbn [fs trace].
  destruct dry_run; cbn [negb].
  { rewrite run_ret. rewrite bool_decide_eq_true_2 by done. cbn [negb when].
    intros [= <- <-]. cbn [fs trace].
    split_and!; [done..|].
    exists [Print Normal "Stopping WM"; Popen list_units None None].
    split_and!; [done| | |by intros ? [= <-]].
    - intros _. split; [|by intros ? [= <-]].
      by intros [[=]|[[=]|?%elem_of_nil]%elem_of_cons]%elem_of_cons.
    - by intros [[=]|[[=]|?%elem_of_nil]%elem_of_cons]%elem_of_cons. }
  rewrite run_bind_assoc, run_wrap_process, run_bind_assoc. cbn [fs trace].
  fold stop_argv stopped.
  match goal with
  | |- context [(print_outputs ?o ?e ≫= _) ?st1] =>
      destruct (print_outputs_prints o e st1) as (prints & Hprints & Hno)
  end.
  rewrite (run_bind _ _ _ _ _ Hprints), run_ret. cbn [fs trace].
  assert (∀ code,
            (- 2 ^ 63 ≤ code < 2 ^ 63)%Z →
            exit_status (SysExit (A:=unit) code) = Some (code `mod` 256)%Z) as Hstatus.
  { intros code Hcode. cbn [exit_status]. by rewrite bool_decide_eq_true_2. }
  destruct (decide (returncode stopped = 0%Z)) as [Hcode|Hcode].
  - rewrite bool_decide_eq_true_2 by done. cbn [negb when].
    intros [= <- <-]. cbn [fs trace]. split_and!; [done..|].
    eexists (prints ++ [_; _; _])%list. rewrite <- (assoc_L (++)).
    split_and!; [done|done| |].
    + intros _. split; [done|]. apply Hstatus.
    + intros ? [= <-]. done.
  - rewrite bool_decide_eq_false_2 by done. cbn [negb when].
    unfold print_error. rewrite run_print.
    intros [= <- <-]. cbn [fs trace]. split_and!; [done..|].
    eexists (_ :: prints ++ [_; _; _])%list. rewrite <- app_comm_cons, <- (assoc_L (++)).
    split_and!; [done|done| |].
    + intros _. split; [done|]. apply Hstatus.
    + intros ? [= <-] _. split.
      * apply list_elem_of_further, elem_of_app. right. apply list_elem_of_here.
      * apply list_elem_of_here.
Qed.

(** A run of X17: the stop of an active [sway] returns 3. *)
Lemma X17_stop_exit_status_witness :
  let stop_argv := ["systemctl"; "--user"; "stop"; "wayland-wm@*.service"] in
  ∃ st',
    stop popen_wm_active false two_ledgers = (SysExit 3, st')
    ∧ fs st' = fs two_ledgers
    ∧ (∀ a, SysExit 3 ≠ Return (A:=unit) a)
    ∧ (∀ argv, SysExit (A:=unit) 3 ≠ Execed argv)
    ∧ ∃ new,
        trace st' = (new ++ trace two_ledgers)%list
        ∧ (false = true →
           (Popen stop_argv None None ∉ new)
           ∧ ∀ code, SysExit (A:=unit) 3 = SysExit code → code = 0%Z)
        ∧ (Popen stop_argv None None ∈ new →
           SysExit (A:=unit) 3 = SysExit 3
           ∧ ((- 2 ^ 63 ≤ 3 < 2 ^ 63)%Z →
              exit_status (SysExit (A:=unit) 3) = Some (3 `mod` 256)%Z))
        ∧ (∀ code,
             SysExit (A:=unit) 3 = SysExit code → code ≠ 0%Z →
             Popen stop_argv None None ∈ new
             ∧ Print Error ("Stop returned " +:+ pretty code) ∈ new).
Proof.
  intros stop_argv. eexists. split; [vm_compute; reflexivity|].
  apply (X17_stop_exit_status popen_wm_active false two_ledgers).
  vm_compute. reflexivity.
Defined.

(** ** Starting an application *)

(** X16: the branch [app] never returns, never raises and touches no
    file; when it leaves by [sys.exit] the status is 1. A slice that is
    none of [a], [b], [s] and does not end in [.slice] ends the process
    before anything is spawned. Otherwise [systemd-escape] is spawned
    for the desktop name and then for the base name of the command, and
    the branch replaces the process exactly when both return 0 and
    print something else than white space: it is then by [systemd-run]
    in the slice of the letter or in the slice given, whose name ends
    in [.slice], with a scope unit named after the two stripped outputs
    of [systemd-escape], and with the command and its arguments
    unchanged at the end. *)
Theorem X16_app_outcomes
  (environ : gmap string string)
  (popen : list event → list string → option string
           → option (gmap string string) → completed)
  (slice_arg cmd : string) (args : list string) (random_hex8 : string)
  (st : state) :
  let escape_desktop :=
    ["systemd-escape"; default "uwsm" (environ !! "XDG_SESSION_DESKTOP")] in
  let escape_cmd := ["systemd-escape"; basename cmd] in
  let r1 := popen (trace st) escape_desktop None None in
  let r2 := popen (Popen escape_desktop None None :: trace st) escape_cmd None None in
  let escaped r :=
    bool_decide (returncode r = 0%Z) && Py.truthy (Py.strip (stdout r)) in
  let systemd_run slice :=
    (["systemd-run"; "systemd-run"; "--user"; "--scope"; "--slice"; slice; "-u";
      "app-" +:+ Py.strip (stdout r1) +:+ "-" +:+ Py.strip (stdout r2) +:+ "-"
      +:+ random_hex8 +:+ ".scope";
      "-qG"; cmd] ++ args)%list in
  let slices :=
    [("a", "app-graphical.slice"); ("b", "background-graphical.slice");
     ("s", "session-graphical.slice")] in
  let valid slice :=
    (slice_arg, slice) ∈ slices
    ∨ ((slice_arg ∉ ["a"; "b"; "s"]) ∧ endswith ".slice" slice_arg = true
       ∧ slice = slice_arg) in
  (∀ o st',
     app environ popen slice_arg cmd args random_hex8 st = (o, st') →
     fs st' = fs st
     ∧ (∀ a, o ≠ Return a)
     ∧ (∀ E, o ≠ Raise E)
     ∧ (∀ code, o = SysExit code → code = 1%Z)
     ∧ (∀ argv,
          o = Execed argv →
          escaped r1 = true ∧ escaped r2 = true
          ∧ trace st'
            = Popen escape_cmd None None :: Popen escape_desktop None None :: trace st
          ∧ ∃ slice,
              argv = systemd_run slice ∧ valid slice
              ∧ endswith ".slice" slice = true))
  ∧ ((slice_arg ∉ ["a"; "b"; "s"]) → endswith ".slice" slice_arg = false →
     app environ popen slice_arg cmd args random_hex8 st
     = (SysExit 1,
        {| fs := fs st;
           trace := Print Error ("Invalid slice name: " +:+ slice_arg) :: trace st |}))
  ∧ (∀ slice,
       valid slice → escaped r1 = true → escaped r2 = true →
       app environ popen slice_arg cmd args random_hex8 st
       = (Execed (systemd_run slice),
          {| fs := fs st;
             trace := Popen escape_cmd None None :: Popen escape_desktop None None
                      :: trace st |})).
Proof.
  intros escape_desktop escape_cmd r1 r2 escaped systemd_run slices valid.
  unfold app.
  match goal with
  | |- context [(_ ≫= ?k) st] => set (escapes := k)
  end.
  assert (∀ slice,
            ∃ o st',
              escapes slice st = (o, st') ∧ fs st' = fs st
              ∧ ((escaped r1 = true ∧ escaped r2 = true
                  ∧ o = Execed (systemd_run slice)
                  ∧ st' = {| fs := fs st;
                             trace := Popen escape_cmd None None
                                      :: Popen escape_desktop None None :: trace st |})
                 ∨ ((escaped r1 = false ∨ escaped r2 = false) ∧ o = SysExit 1)))
    as Hescapes.
  { intros slice. subst escapes. cbv beta. rewrite run_wrap_process. cbn [fs trace].
    fold escape_desktop r1. subst escaped. cbv beta.
    destruct (bool_decide (returncode r1 = 0%Z)); cbn [negb orb andb].
    2:{ unfold print_error. rewrite !run_print. eexists _, _.
        split; [reflexivity|]. split; [done|]. right. split; [by left|done]. }
    destruct (Py.truthy (Py.strip (stdout r1))); cbn [negb].
    2:{ unfold print_error. rewrite !run_print. eexists _, _.
        split; [reflexivity|]. split; [done|]. right. split; [by left|done]. }
    cbv zeta. rewrite run_wrap_process. cbn [fs trace]. fold escape_cmd r2.
    destruct (bool_decide (returncode r2 = 0%Z)); cbn [negb orb andb].
    2:{ unfold print_error. rewrite !run_print. eexists _, _.
        split; [reflexivity|]. split; [done|]. right. split; [by right|done]. }
    destruct (Py.truthy (Py.strip (stdout r2))); cbn [negb].
    2:{ unfold print_error. rewrite !run_print. eexists _, _.
        split; [reflexivity|]. split; [done|]. right. split; [by right|done]. }
    eexists _, _. split; [reflexivity|]. split; [done|]. by left. }
  clearbody escapes.
  assert (∀ slice,
            valid slice → endswith ".slice" slice = true →
            (∀ slice', valid slice' → slice' = slice) →
            (∀ o st',
               (mret slice ≫= escapes) st = (o, st') →
               fs st' = fs st
               ∧ (∀ a, o ≠ Return a)
               ∧ (∀ E, o ≠ Raise E)
               ∧ (∀ code, o = SysExit code → code = 1%Z)
               ∧ (∀ argv,
                    o = Execed argv →
                    escaped r1 = true ∧ escaped r2 = true
                    ∧ trace st'
                      = Popen escape_cmd None None :: Popen escape_desktop None None
                        :: trace st
                    ∧ ∃ slice,
                        argv = systemd_run slice ∧ valid slice
                        ∧ endswith ".slice" slice = true))
            ∧ ((slice_arg ∉ ["a"; "b"; "s"]) → endswith ".slice" slice_arg = false →
               (mret slice ≫= escapes) st
               = (SysExit 1,
                  {| fs := fs st;
                     trace := Print Error ("Invalid slice name: " +:+ slice_arg)
                              :: trace st |}))
            ∧ (∀ slice',
                 valid slice' → escaped r1 = true → escaped r2 = true →
                 (mret slice ≫= escapes) st
                 = (Execed (systemd_run slice'),
                    {| fs := fs st;
                       trace := Popen escape_cmd None None
                                :: Popen escape_desktop None None :: trace st |})))
    as Hvalid.
  { intros slice Hslice Hends Honly. rewrite run_ret.
    destruct (Hescapes slice) as (o1 & st1 & Hrun & Hfs & Hcases). rewrite Hrun.
    split_and!.
    - intros o st' [= <- <-]. split; [done|].
      destruct Hcases as [(H1 & H2 & -> & ->)|(Hnot & ->)].
      + split_and!; [done|done|done|]. intros argv [= <-].
        split_and!; [done|done|done|]. by exists slice.
      + split_and!; [done|done|by intros ? [= <-]|done].
    - intros Hletter Hno. destruct Hslice as [Hin|(_ & Hyes & _)]; [|congruence].
      destruct Hletter. subst slices.
      repeat (apply elem_of_cons in Hin as [[= -> _]|Hin];
              [repeat first [apply list_elem_of_here|apply list_elem_of_further]|]).
      by apply elem_of_nil in Hin.
    - intros slice' Hslice' H1 H2. apply Honly in Hslice' as ->.
      destruct Hcases as [(_ & _ & -> & ->)|([Hnot|Hnot] & _)]; [done|congruence..]. }
  assert (∀ letter slice,
            (letter, slice) ∈ slices → slice_arg = letter →
            ∀ slice', valid slice' → slice' = slice) as Hletter.
  { intros letter slice Hin -> slice' [Hin'|(Hnot & _)].
    - subst slices.
      repeat (apply elem_of_cons in Hin as [Heq|Hin];
              [injection Heq as -> ->;
               repeat (apply elem_of_cons in Hin' as [Heq'|Hin']; [by simplify_eq|]);
               by apply elem_of_nil in Hin'|]).
      by apply elem_of_nil in Hin.
    - destruct Hnot. subst slices.
      repeat (apply elem_of_cons in Hin as [[= -> _]|Hin];
              [repeat first [apply list_elem_of_here|apply list_elem_of_further]|]).
      by apply elem_of_nil in Hin. }
  destruct (bool_decide (slice_arg = "a")) eqn:Ha.
  { apply bool_decide_eq_true in Ha.
    assert ((slice_arg, "app-graphical.slice") ∈ slices) as Hin
      by (rewrite Ha; apply list_elem_of_here).
    apply Hvalid; [by left|done|]. by apply (Hletter "a"); [apply list_elem_of_here|]. }
  destruct (bool_decide (slice_arg = "b")) eqn:Hb.
  { apply bool_decide_eq_true in Hb.
    assert ((slice_arg, "background-graphical.slice") ∈ slices) as Hin
      by (rewrite Hb; apply list_elem_of_further, list_elem_of_here).
    apply Hvalid; [by left|done|].
    by apply (Hletter "b"); [apply list_elem_of_further, list_elem_of_here|]. }
  destruct (bool_decide (slice_arg = "s")) eqn:Hs.
  { apply bool_decide_eq_true in Hs.
    assert ((slice_arg, "session-graphical.slice") ∈ slices) as Hin
      by (rewrite Hs; do 2 apply list_elem_of_further; apply list_elem_of_here).
    apply Hvalid; [by left|done|].
    by apply (Hletter "s");
      [do 2 apply list_elem_of_further; apply list_elem_of_here|]. }
  apply bool_decide_eq_false in Ha, Hb, Hs.
  assert (slice_arg ∉ ["a"; "b"; "s"]) as Hnone.
  { intros Hin. repeat (apply elem_of_cons in Hin as [?|Hin]; [done|]).
    by apply elem_of_nil in Hin. }
  assert (∀ slice, (slice_arg, slice) ∉ slices) as Hnoletter.
  { intros slice Hin. subst slices.
    repeat (apply elem_of_cons in Hin as [[= ? _]|Hin]; [done|]).
    by apply elem_of_nil in Hin. }
  destruct (endswith ".slice" slice_arg) eqn:Hends.
  { apply Hvalid; [by right|done|].
    intros slice' [Hin|(_ & _ & ->)]; [by apply Hnoletter in Hin|done]. }
  rewrite run_bind_assoc. unfold print_error. rewrite run_print.
  split_and!.
  - intros o st' [= <- <-]. cbn [fs trace].
    split_and!; [done|done|done|by intros ? [= <-]|done].
  - done.
  - intros slice [Hin|(_ & Hyes & _)]; [by apply Hnoletter in Hin|congruence].
Qed.

(** A run of X16 where the slice is given by its letter. *)
Lemma X16_app_outcomes_witness :
  let popen :=
    scripted
      [ (["systemd-escape"; "sway"], Completed ("sway" +:+ NL) EmptyString 0%Z);
        (["systemd-escape"; "foot"], Completed ("foot" +:+ NL) EmptyString 0%Z) ] in
  app {["XDG_SESSION_DESKTOP" := "sway"]} popen "b" "/usr/bin/foot" ["-e"; "sh"]
    "0123abcd" two_ledgers
  = (Execed ["systemd-run"; "systemd-run"; "--user"; "--scope"; "--slice";
             "background-graphical.slice"; "-u"; "app-sway-foot-0123abcd.scope";
             "-qG"; "/usr/bin/foot"; "-e"; "sh"],
     {| fs := fs two_ledgers;
        trace := [Popen ["systemd-escape"; "foot"] None None;
                  Popen ["systemd-escape"; "sway"] None None] |}).
Proof.
  intros popen.
  pose proof (X16_app_outcomes {["XDG_SESSION_DESKTOP" := "sway"]} popen "b"
                "/usr/bin/foot" ["-e"; "sh"] "0123abcd" two_ledgers) as Happ.
  cbv zeta in Happ. destruct Happ as (_ & _ & Hexec).
  apply (Hexec "background-graphical.slice").
  - left. apply list_elem_of_further, list_elem_of_here.
  - reflexivity.
  - reflexivity.
Defined.
